(** * agentic-commerce: the conversation orchestration core, embedded in Rocq

    A shallow embedding of the JavaScript sources of the shopping assistant:

    - [JS]: the fragment of JavaScript values and built-ins the sources use;
    - [Json]: a reference reader of JSON texts, to run the model on replies;
    - [Magento]: the commerce backend as the tools call it;
    - [ProductTools], [CartTools], [BuiltInTools], [ToolAdapter]: the built-in
      capabilities, their registry and its adapter ([actions/tools]);
    - [Orchestrator]: [AgentOrchestrator.analyzeIntent], [extractToolParameters]
      and [executeTools];
    - [SessionManager]: the session store;
    - [Doubles], [Shop]: stand-ins for the outside world, for the concrete runs;
    - [SessionViews], [Reports], [Conversation]: what the statements say of
      a store, of the result of a tool and of the messages sent to a model;
    - [MagentoGraphQL]: the GraphQL client of the backend ([magento-client.js]);
    - [LLMProvider]: the language model providers ([llm-provider.js]);
    - [Agent]: [AgentOrchestrator.processMessage] and the two ways to a
      response;
    - [ToolSetup], [Chat]: the construction of the tools and the chat action
      ([chat/index.js]).

    Definitions come first, the statements about them follow. *)

From Stdlib Require Import String Ascii ZArith QArith List Lia.
From stdpp Require Import gmap strings list.

Set Warnings "-register-all".

Open Scope string_scope.

(** ** JavaScript values and built-ins *)

Module JS.

(** A JavaScript number: the finite ones carry their exact rational value. *)
Inductive JSNumber := NaN | PosInf | NegInf | Fin (q : Q).

(** The values that flow through the sources: what [JSON.parse] can build,
    plus [undefined].  An object is the finite map of its own properties. *)
Inductive value :=
| VUndefined
| VNull
| VBool (b : bool)
| VNum (n : JSNumber)
| VStr (s : string)
| VArr (elems : list value)
| VObj (props : gmap string value).

(** Thrown errors, with their [message]. *)
Inductive exn :=
| Error (message : string)
| TypeError (message : string)
| SyntaxError (message : string).

Definition message (e : exn) : string :=
  match e with Error m | TypeError m | SyntaxError m => m end.

(** The completion of an expression or call: a value, or a throw. *)
Inductive outcome (A : Type) :=
| Returned (a : A)
| Threw (e : exn).
Arguments Returned {A} a.
Arguments Threw {A} e.

#[global] Instance outcome_ret : MRet outcome := @Returned.
#[global] Instance outcome_bind : MBind outcome := λ A B f m,
  match m with Returned a => f a | Threw e => Threw e end.

(** [try { m } catch (error) { h error }] *)
Definition try_catch {A} (m : outcome A) (h : exn → outcome A) : outcome A :=
  match m with Returned a => Returned a | Threw e => h e end.

(** An asynchronous call on an outside service: it runs against the state [W]
    of that service and completes before the caller resumes ([await]). *)
Definition task (W A : Type) : Type := W → outcome A * W.

#[global] Instance task_ret {W} : MRet (task W) := λ A a w, (Returned a, w).
#[global] Instance task_bind {W} : MBind (task W) := λ A B f m w,
  match m w with
  | (Returned a, w') => f a w'
  | (Threw e, w') => (Threw e, w')
  end.

Definition lift {W A} (m : outcome A) : task W A := λ w, (m, w).

Definition task_catch {W A} (m : task W A) (h : exn → task W A) : task W A :=
  λ w, match m w with
       | (Returned a, w') => (Returned a, w')
       | (Threw e, w') => h e w'
       end.

(** A service [f] made to keep the calls it receives, oldest first, next to
    the state of [f]. *)
Definition recording {W A B C R} (f : A → B → C → task W R)
  : A → B → C → task (W * list (A * B * C)) R :=
  λ a b c '(w, calls),
    let '(r, w') := f a b c w in (r, (w', (calls ++ [(a, b, c)])%list)).

(** The double quote, and texts written with a backquote in its place. *)
Definition dquote : ascii := "034"%char.

Fixpoint quoted (s : string) : string :=
  match s with
  | EmptyString => EmptyString
  | String c s' => String (if Ascii.eqb c "`" then dquote else c) (quoted s')
  end.

(** *** Strings: one character per code unit, code units below 256 *)

Definition toLowerChar (c : ascii) : ascii :=
  let n := nat_of_ascii c in
  if ((65 <=? n) && (n <=? 90))%nat then ascii_of_nat (n + 32)
  else if ((192 <=? n) && (n <=? 222) && negb (n =? 215))%nat then ascii_of_nat (n + 32)
  else c.

(** [s.toLowerCase()] *)
Fixpoint toLowerCase (s : string) : string :=
  match s with
  | EmptyString => EmptyString
  | String c s' => String (toLowerChar c) (toLowerCase s')
  end.

(** [s.includes(needle)] *)
Fixpoint includes (s needle : string) : bool :=
  String.prefix needle s ||
  match s with
  | EmptyString => false
  | String _ s' => includes s' needle
  end.

(** [s.match(/\{[\s\S]*\}/)]: the text from the first opening brace to the
    last closing brace after it, when there is one. *)
Fixpoint from_open (s : string) : option string :=
  match s with
  | EmptyString => None
  | String c s' => if Ascii.eqb c "{" then Some s else from_open s'
  end.

Fixpoint upto_last_close (s : string) : option string :=
  match s with
  | EmptyString => None
  | String c s' =>
      match upto_last_close s' with
      | Some t => Some (String c t)
      | None => if Ascii.eqb c "}" then Some (String c EmptyString) else None
      end
  end.

Definition match_braces (s : string) : option string :=
  from_open s ≫= upto_last_close.

(** Decimal text of a natural number (array indices, [length]). *)
Definition digit (n : nat) : ascii := ascii_of_nat (48 + n).

Fixpoint decimal_go (fuel n : nat) (acc : string) : string :=
  match fuel with
  | O => acc
  | S fuel' =>
      let acc' := String (digit (n mod 10)) acc in
      if (n <? 10)%nat then acc' else decimal_go fuel' (n / 10) acc'
  end.

Definition decimal (n : nat) : string := decimal_go (S n) n EmptyString.

(** The array index a property key denotes, if it is one: its canonical
    decimal text. *)
Fixpoint digits_value (s : string) (acc : nat) : option nat :=
  match s with
  | EmptyString => Some acc
  | String c s' =>
      let n := nat_of_ascii c in
      if ((48 <=? n) && (n <=? 57))%nat then digits_value s' (10 * acc + (n - 48)) else None
  end.

Definition index_of_key (k : string) : option nat :=
  match k with
  | EmptyString => None
  | String "0" EmptyString => Some 0%nat
  | String "0" _ => None
  | _ => digits_value k 0
  end.

(** *** Numbers *)

Definition num_of_nat (n : nat) : JSNumber := Fin (inject_Z (Z.of_nat n)).

(** [Math.min] on two numbers. *)
Definition min_number (a b : JSNumber) : JSNumber :=
  match a, b with
  | NaN, _ | _, NaN => NaN
  | NegInf, _ | _, NegInf => NegInf
  | PosInf, x | x, PosInf => x
  | Fin x, Fin y => if Qle_bool x y then Fin x else Fin y
  end.

(** [a > b] on two numbers. *)
Definition gt_number (a b : JSNumber) : bool :=
  match a, b with
  | NaN, _ | _, NaN => false
  | PosInf, PosInf => false
  | PosInf, _ => true
  | _, PosInf => false
  | NegInf, _ => false
  | Fin _, NegInf => true
  | Fin x, Fin y => negb (Qle_bool x y)
  end.

(** [a === b] on two numbers. *)
Definition eq_number (a b : JSNumber) : bool :=
  match a, b with
  | PosInf, PosInf | NegInf, NegInf => true
  | Fin x, Fin y => Qeq_bool x y
  | _, _ => false
  end.

(** *** Values *)

(** ToBoolean *)
Definition truthy (v : value) : bool :=
  match v with
  | VUndefined | VNull => false
  | VBool b => b
  | VNum NaN => false
  | VNum (Fin q) => negb (Qeq_bool q 0)
  | VNum _ => true
  | VStr s => negb (String.eqb s EmptyString)
  | VArr _ | VObj _ => true
  end.

(** [a || b] *)
Definition or_else (a b : value) : value := if truthy a then a else b.

(** An object literal. *)
Definition object (props : list (string * value)) : value :=
  VObj (list_to_map props).

Definition char_at (s : string) (i : nat) : value :=
  match String.get i s with
  | Some c => VStr (String c EmptyString)
  | None => VUndefined
  end.

(** The own property [k] of a value that is neither [undefined] nor [null]. *)
Definition own (v : value) (k : string) : value :=
  match v with
  | VObj props => default VUndefined (props !! k)
  | VArr elems =>
      if String.eqb k "length" then VNum (num_of_nat (length elems))
      else match index_of_key k with
           | Some i => default VUndefined (elems !! i)
           | None => VUndefined
           end
  | VStr s =>
      if String.eqb k "length" then VNum (num_of_nat (String.length s))
      else match index_of_key k with
           | Some i => char_at s i
           | None => VUndefined
           end
  | _ => VUndefined
  end.

Definition type_name (v : value) : string :=
  match v with VNull => "null" | _ => "undefined" end.

(** The message of the TypeError of a property read on [undefined] or [null]. *)
Definition cannot_read (v : value) (k : string) : string :=
  "Cannot read properties of " +:+ type_name v +:+ " (reading '" +:+ k +:+ "')".

(** [v.k] *)
Definition get (v : value) (k : string) : outcome value :=
  match v with
  | VUndefined | VNull => Threw (TypeError (cannot_read v k))
  | _ => Returned (own v k)
  end.

(** [v?.k] *)
Definition opt_get (v : value) (k : string) : value :=
  match v with
  | VUndefined | VNull => VUndefined
  | _ => own v k
  end.

(** [const { k = d } = v] for one key of an object pattern whose source [v]
    is known not to be [undefined] or [null]. *)
Definition pattern_default (v : value) (k : string) (d : value) : value :=
  match own v k with VUndefined => d | x => x end.

(** [v.k1.k2...] *)
Definition path (v : value) (ks : list string) : outcome value :=
  foldl (λ acc k, acc ≫= λ x, get x k) (Returned v) ks.

(** [v.map(f)], where the text [what] names [v] in the source. *)
Fixpoint map_outcome {A B} (f : A → outcome B) (l : list A) : outcome (list B) :=
  match l with
  | [] => Returned []
  | x :: l' => y ← f x; ys ← map_outcome f l'; Returned (y :: ys)
  end.

Definition Array_map (what : string) (v : value) (f : value → outcome value)
  : outcome (list value) :=
  match v with
  | VArr elems => map_outcome f elems
  | VUndefined | VNull => Threw (TypeError (cannot_read v "map"))
  | _ => Threw (TypeError (what +:+ ".map is not a function"))
  end.

(** The message of the TypeError of an object pattern on [undefined] or [null]. *)
Definition cannot_destructure (v : value) (k what : string) : string :=
  "Cannot destructure property '" +:+ k +:+ "' of '" +:+ what +:+ "' as it is "
  +:+ type_name v +:+ ".".

(** [const { k, ... } = v]: the source of an object pattern must be an object
    or a primitive other than [undefined] and [null]. *)
Definition destructure (v : value) (k what : string) : outcome unit :=
  match v with
  | VUndefined | VNull => Threw (TypeError (cannot_destructure v k what))
  | _ => Returned ()
  end.

(** A parameter with default [null] that receives [v]. *)
Definition default_null (v : value) : value :=
  match v with VUndefined => VNull | _ => v end.

Fixpoint indexed {A} (i : nat) (l : list A) : list (string * A) :=
  match l with
  | [] => []
  | x :: l' => (decimal i, x) :: indexed (S i) l'
  end.

Definition chars (s : string) : list value :=
  (λ c, VStr (String c EmptyString)) <$> list_ascii_of_string s.

(** [{ ...v }]: the own enumerable properties of [v]. *)
Definition spread (v : value) : gmap string value :=
  match v with
  | VObj props => props
  | VArr elems => list_to_map (indexed 0 elems)
  | VStr s => list_to_map (indexed 0 (chars s))
  | _ => ∅
  end.

Fixpoint join (sep : string) (l : list string) : string :=
  match l with
  | [] => EmptyString
  | [s] => s
  | s :: l' => s +:+ sep +:+ join sep l'
  end.

(** What the engine provides and the model leaves to it: the decimal text of
    a number, the number a text denotes, and [JSON.parse]. *)
Class Engine := {
  NumberToString : JSNumber → string;
  StringToNumber : string → JSNumber;
  JSON_parse : string → outcome value;
}.

Section Conversions.
Context `{Engine}.

(** ToString, as a template literal or [join] applies it.  No value here is
    callable, so an object with an own [toString] has no usable conversion. *)
Fixpoint ToString (v : value) : outcome string :=
  match v with
  | VUndefined => Returned "undefined"
  | VNull => Returned "null"
  | VBool true => Returned "true"
  | VBool false => Returned "false"
  | VNum n => Returned (NumberToString n)
  | VStr s => Returned s
  | VArr elems =>
      (fix go (l : list value) : outcome (list string) :=
         match l with
         | [] => Returned []
         | x :: l' =>
             s ← match x with
                 | VUndefined | VNull => Returned EmptyString
                 | _ => ToString x
                 end;
             ss ← go l';
             Returned (s :: ss)
         end) elems ≫= λ ss, Returned (join "," ss)
  | VObj props =>
      match props !! "toString" with
      | Some _ => Threw (TypeError "Cannot convert object to primitive value")
      | None => Returned "[object Object]"
      end
  end.

(** ToNumber *)
Definition ToNumber (v : value) : outcome JSNumber :=
  match v with
  | VUndefined => Returned NaN
  | VNull => Returned (num_of_nat 0)
  | VBool b => Returned (num_of_nat (if b then 1 else 0))
  | VNum n => Returned n
  | VStr s => Returned (StringToNumber s)
  | VArr _ | VObj _ => s ← ToString v; Returned (StringToNumber s)
  end.

(** [Math.min(a, b)] *)
Definition Math_min (a b : value) : outcome JSNumber :=
  x ← ToNumber a; y ← ToNumber b; Returned (min_number x y).

(** [a > b] where [b] is a number. *)
Definition greater_than (a : value) (b : JSNumber) : outcome bool :=
  x ← ToNumber a; Returned (gt_number x b).

(** [a === b] where [b] is a number. *)
Definition strict_eq_number (a : value) (b : JSNumber) : bool :=
  match a with VNum n => eq_number n b | _ => false end.

(** [l.join(sep)] on an array of values. *)
Fixpoint join_strings (l : list value) : outcome (list string) :=
  match l with
  | [] => Returned []
  | x :: l' =>
      s ← match x with
          | VUndefined | VNull => Returned EmptyString
          | _ => ToString x
          end;
      ss ← join_strings l';
      Returned (s :: ss)
  end.

Definition Array_join (l : list value) (sep : string) : outcome string :=
  ss ← join_strings l; Returned (join sep ss).

End Conversions.

End JS.

(** ** A reference reader of JSON texts

    [Json.parse] follows the JSON grammar (ECMA-404) on the strings of the
    model; it is the [JSON.parse] of the engine [Json.engine] below, which the
    concrete runs use.  A [\u] escape for a code unit above 255 has no
    character in the model and is refused here. *)

Module Json.
Import JS.

Definition is_ws (c : ascii) : bool :=
  let n := nat_of_ascii c in
  ((n =? 32) || (n =? 9) || (n =? 10) || (n =? 13))%nat.

Fixpoint skip_ws (s : string) : string :=
  match s with
  | String c s' => if is_ws c then skip_ws s' else s
  | EmptyString => s
  end.

Definition hex_value (c : ascii) : option nat :=
  let n := nat_of_ascii c in
  if ((48 <=? n) && (n <=? 57))%nat then Some (n - 48)%nat
  else if ((65 <=? n) && (n <=? 70))%nat then Some (n - 55)%nat
  else if ((97 <=? n) && (n <=? 102))%nat then Some (n - 87)%nat
  else None.

Definition hex4 (a b c d : ascii) : option nat :=
  x ← hex_value a; y ← hex_value b; z ← hex_value c; w ← hex_value d;
  Some (((x * 16 + y) * 16 + z) * 16 + w)%nat.

Definition escape (e : ascii) : option ascii :=
  if Ascii.eqb e dquote then Some dquote
  else if Ascii.eqb e "\" then Some "\"%char
  else if Ascii.eqb e "/" then Some "/"%char
  else if Ascii.eqb e "b" then Some "008"%char
  else if Ascii.eqb e "f" then Some "012"%char
  else if Ascii.eqb e "n" then Some "010"%char
  else if Ascii.eqb e "r" then Some "013"%char
  else if Ascii.eqb e "t" then Some "009"%char
  else None.

Definition cons_char (c : ascii) (r : option (string * string)) : option (string * string) :=
  match r with Some (s, rest) => Some (String c s, rest) | None => None end.

(** After an opening quote: the characters of the string and the text after
    its closing quote. *)
Fixpoint string_body (s : string) : option (string * string) :=
  match s with
  | EmptyString => None
  | String c r =>
      if Ascii.eqb c dquote then Some (EmptyString, r)
      else if Ascii.eqb c "\" then
        match r with
        | EmptyString => None
        | String e r' =>
            match escape e with
            | Some ch => cons_char ch (string_body r')
            | None =>
                if Ascii.eqb e "u" then
                  match r' with
                  | String h1 (String h2 (String h3 (String h4 r''))) =>
                      match hex4 h1 h2 h3 h4 with
                      | Some code =>
                          if (code <? 256)%nat
                          then cons_char (ascii_of_nat code) (string_body r'')
                          else None
                      | None => None
                      end
                  | _ => None
                  end
                else None
            end
        end
      else if (nat_of_ascii c <? 32)%nat then None
      else cons_char c (string_body r)
  end.

Definition is_digit (c : ascii) : bool :=
  let n := nat_of_ascii c in ((48 <=? n) && (n <=? 57))%nat.

(** The leading decimal digits of a text, and what follows them. *)
Fixpoint take_digits (s : string) : list nat * string :=
  match s with
  | String c s' =>
      if is_digit c
      then let '(ds, rest) := take_digits s' in ((nat_of_ascii c - 48)%nat :: ds, rest)
      else ([], s)
  | EmptyString => ([], s)
  end.

Definition digits_Z (ds : list nat) : Z :=
  fold_left (λ acc d, 10 * acc + Z.of_nat d)%Z ds 0%Z.

Definition fraction (s : string) : option (list nat * string) :=
  match s with
  | String "." s' =>
      match take_digits s' with
      | ([], _) => None
      | r => Some r
      end
  | _ => Some ([], s)
  end.

Definition exponent (s : string) : option (Z * string) :=
  let digits neg s' :=
    match take_digits s' with
    | ([], _) => None
    | (ds, rest) => Some (if neg : bool then (- digits_Z ds)%Z else digits_Z ds, rest)
    end in
  match s with
  | String c s' =>
      if Ascii.eqb c "e" || Ascii.eqb c "E" then
        match s' with
        | String "-" s'' => digits true s''
        | String "+" s'' => digits false s''
        | _ => digits false s'
        end
      else Some (0%Z, s)
  | EmptyString => Some (0%Z, s)
  end.

(** [-? int frac? exp?], read as the rational it denotes. *)
Definition number (s : string) : option (JSNumber * string) :=
  let '(neg, s1) := match s with String "-" r => (true, r) | _ => (false, s) end in
  match take_digits s1 with
  | ([], _) => None
  | (O :: _ :: _, _) => None
  | (ints, s2) =>
      '(fracs, s3) ← fraction s2;
      '(e, s4) ← exponent s3;
      let m := digits_Z (ints ++ fracs) in
      let q := (inject_Z m * Qpower (inject_Z 10) (e - Z.of_nat (length fracs)))%Q in
      Some (Fin (Qred (if neg then - q else q)%Q), s4)
  end.

Fixpoint string_drop (n : nat) (s : string) : string :=
  match n, s with
  | S n', String _ s' => string_drop n' s'
  | _, _ => s
  end.

Fixpoint value_ (fuel : nat) (s : string) : option (value * string) :=
  match fuel with
  | O => None
  | S fuel' =>
      match skip_ws s with
      | String "{" r =>
          match skip_ws r with
          | String "}" r' => Some (VObj ∅, r')
          | r' => members fuel' ∅ r'
          end
      | String "[" r =>
          match skip_ws r with
          | String "]" r' => Some (VArr [], r')
          | r' => elements fuel' [] r'
          end
      | String c r as t =>
          if Ascii.eqb c dquote then
            '(str, rest) ← string_body r; Some (VStr str, rest)
          else if String.prefix "true" t then Some (VBool true, string_drop 4 t)
          else if String.prefix "false" t then Some (VBool false, string_drop 5 t)
          else if String.prefix "null" t then Some (VNull, string_drop 4 t)
          else '(n, rest) ← number t; Some (VNum n, rest)
      | EmptyString => None
      end
  end
with members (fuel : nat) (acc : gmap string value) (s : string) : option (value * string) :=
  match fuel with
  | O => None
  | S fuel' =>
      match skip_ws s with
      | String c r =>
          if Ascii.eqb c dquote then
            '(key, r1) ← string_body r;
            match skip_ws r1 with
            | String ":" r2 =>
                '(v, r3) ← value_ fuel' r2;
                match skip_ws r3 with
                | String "," r4 => members fuel' (<[key := v]> acc) r4
                | String "}" r4 => Some (VObj (<[key := v]> acc), r4)
                | _ => None
                end
            | _ => None
            end
          else None
      | EmptyString => None
      end
  end
with elements (fuel : nat) (acc : list value) (s : string) : option (value * string) :=
  match fuel with
  | O => None
  | S fuel' =>
      '(v, r1) ← value_ fuel' s;
      match skip_ws r1 with
      | String "," r2 => elements fuel' (acc ++ [v]) r2
      | String "]" r2 => Some (VArr (acc ++ [v]), r2)
      | _ => None
      end
  end.

(** [JSON.parse(text)] *)
Definition parse (text : string) : outcome value :=
  match value_ (S (String.length text)) text with
  | Some (v, rest) =>
      match skip_ws rest with
      | EmptyString => Returned v
      | _ => Threw (SyntaxError "Unexpected non-whitespace character after JSON")
      end
  | None => Threw (SyntaxError "Unexpected token in JSON")
  end.

(** An engine for the concrete runs.  Its number conversions are defined on
    the natural numbers, which is all those runs print or read. *)
Definition number_text (n : JSNumber) : string :=
  match n with
  | NaN => "NaN"
  | PosInf => "Infinity"
  | NegInf => "-Infinity"
  | Fin q =>
      let z := (Qnum q / Zpos (Qden q))%Z in
      if (z <? 0)%Z then String "-" (decimal (Z.to_nat (- z))) else decimal (Z.to_nat z)
  end.

Definition text_number (s : string) : JSNumber :=
  match s with
  | EmptyString => num_of_nat 0
  | _ => match digits_value s 0 with
         | Some n => num_of_nat n
         | None => NaN
         end
  end.

#[export] Instance engine : Engine := {|
  NumberToString := number_text;
  StringToNumber := text_number;
  JSON_parse := parse;
|}.

End Json.

(** ** The commerce backend, as the tools see it *)

Module Magento.
Import JS.

(** The GraphQL documents of [queries.js], by name. *)
Inductive document :=
| PRODUCT_SEARCH_QUERY
| GET_PRODUCT_DETAILS_QUERY
| CREATE_EMPTY_CART_MUTATION
| ADD_PRODUCTS_TO_CART_MUTATION
| GET_CART_QUERY
| UPDATE_CART_ITEMS_MUTATION
| REMOVE_ITEM_FROM_CART_MUTATION
| GET_CUSTOMER_CART_QUERY.

(** [MagentoClient.query(queryString, variables, customerToken)]: one request
    to the backend, whose state is [W]; it returns [response.data.data] or
    throws.  [mutate] is [query]. *)
Record MagentoClient (W : Type) := {
  query : document → value → value → task W value;
}.
Arguments query {W} _ _ _ _.

Definition mutate {W} (c : MagentoClient W) := query c.

(** A client made to keep the requests it sends. *)
Definition recording_client {W} (c : MagentoClient W)
  : MagentoClient (W * list (document * value * value)) :=
  {| query := recording (query c) |}.

(** What a tool is handed as [context]. *)
Record Context := {
  customerToken : value;
  cartId : value;
}.

(** A tool of the catalog (its [description] and [inputSchema] are inert). *)
Record Tool (W : Type) := {
  name : string;
  execute : value → Context → task W value;
}.
Arguments name {W} _.
Arguments execute {W} _ _ _.

Section Client.
Context {W : Type}.

(** [magentoClient.query] / [magentoClient.mutate], read off a client that is
    [null] until [initialize] has run. *)
Definition method (magentoClient : option (MagentoClient W)) (m : string)
  : outcome (document → value → value → task W value) :=
  match magentoClient with
  | Some c => Returned (if String.eqb m "mutate" then mutate c else query c)
  | None => Threw (TypeError (cannot_read VNull m))
  end.

(** [{ success: false, error: error.message }] *)
Definition failure (error : exn) : task W value :=
  mret (object [("success", VBool false); ("error", VStr (message error))]).

End Client.

End Magento.

(** ** product-tools.js *)

Module ProductTools.
Import JS Magento.

Section Tools.
Context `{Engine} {W : Type}.
Variable magentoClient : option (MagentoClient W).

(** One entry of [data.products.items.map(item => ...)]. *)
Definition product_summary (item : value) : outcome value :=
  id ← get item "id";
  sku ← get item "sku";
  name ← get item "name";
  price ← path item ["price_range"; "minimum_price"; "final_price"; "value"];
  regularPrice ← path item ["price_range"; "minimum_price"; "regular_price"; "value"];
  currency ← path item ["price_range"; "minimum_price"; "final_price"; "currency"];
  Returned (object [
    ("id", id); ("sku", sku); ("name", name); ("price", price);
    ("regularPrice", regularPrice); ("currency", currency);
    ("image", or_else (opt_get (own item "image") "url")
                      (opt_get (own item "small_image") "url"));
    ("stockStatus", own item "stock_status"); ("urlKey", own item "url_key")]).

(** The variables of the search request: [{ search: query, pageSize:
    Math.min(pageSize, 20), currentPage }] under the pattern
    [{ query, pageSize = 10, currentPage = 1 } = params]. *)
Definition search_variables (params : value) : outcome value :=
  let query := own params "query" in
  let pageSize := pattern_default params "pageSize" (VNum (num_of_nat 10)) in
  let currentPage := pattern_default params "currentPage" (VNum (num_of_nat 1)) in
  size ← Math_min pageSize (VNum (num_of_nat 20));
  Returned (object [("search", query); ("pageSize", VNum size); ("currentPage", currentPage)]).

(** [productSearchTool.execute(magentoClient, params, context)].  The
    [console.log] lines are kept where their template literal converts a
    value to text, which can throw. *)
Definition productSearch_execute (params : value) (context : Context) : task W value :=
  task_catch
    (_ ← lift (destructure params "query" "params");
     let query := own params "query" in
     shown ← lift (ToString query);
     send ← lift (method magentoClient "query");
     variables ← lift (search_variables params);
     data ← send PRODUCT_SEARCH_QUERY variables VNull;
     lift (
       items ← path data ["products"; "items"];
       products ← Array_map "data.products.items" items product_summary;
       totalCount ← path data ["products"; "total_count"];
       pageInfo ← path data ["products"; "page_info"];
       Returned (object [
         ("success", VBool true);
         ("data", object [("products", VArr products); ("totalCount", totalCount);
                          ("pageInfo", pageInfo)]);
         ("message", VStr ("Found " +:+ decimal (length products) +:+ " products matching "
                           +:+ String dquote shown +:+ String dquote EmptyString))])))
    failure.

Definition productSearchTool : Tool W := {|
  name := "search_products";
  execute := productSearch_execute;
|}.

(** [getProductDetailsTool.execute(magentoClient, params, context)] *)
Definition getProductDetails_execute (params : value) (context : Context) : task W value :=
  task_catch
    (_ ← lift (destructure params "sku" "params");
     let sku := own params "sku" in
     shown ← lift (ToString sku);
     send ← lift (method magentoClient "query");
     data ← send GET_PRODUCT_DETAILS_QUERY (object [("sku", sku)]) VNull;
     lift (
       items ← path data ["products"; "items"];
       length ← get items "length";
       if negb (truthy length) then
         Returned (object [
           ("success", VBool false);
           ("error", VStr ("Product with SKU " +:+ String dquote shown
                           +:+ String dquote " not found"))])
       else
         let product := own items "0" in
         name ← get product "name";
         _ ← ToString name;
         price ← path product ["price_range"; "minimum_price"; "final_price"; "value"];
         currency ← path product ["price_range"; "minimum_price"; "final_price"; "currency"];
         Returned (object [
           ("success", VBool true);
           ("data", object [
              ("id", own product "id"); ("sku", own product "sku"); ("name", name);
              ("description", opt_get (own product "description") "html");
              ("price", price); ("currency", currency);
              ("image", opt_get (own product "image") "url");
              ("mediaGallery", own product "media_gallery");
              ("stockStatus", own product "stock_status")])])))
    failure.

Definition getProductDetailsTool : Tool W := {|
  name := "get_product_details";
  execute := getProductDetails_execute;
|}.

End Tools.

End ProductTools.

(** ** cart-tools.js *)

Module CartTools.
Import JS Magento.

Section Tools.
Context `{Engine} {W : Type}.
Variable magentoClient : option (MagentoClient W).

(** [createCartTool.execute(magentoClient, params, context)] *)
Definition createCart_execute (params : value) (context : Context) : task W value :=
  task_catch
    (send ← lift (method magentoClient "mutate");
     data ← send CREATE_EMPTY_CART_MUTATION (object []) (default_null (customerToken context));
     lift (
       cartId ← get data "createEmptyCart";
       _ ← ToString cartId;
       Returned (object [
         ("success", VBool true);
         ("data", object [("cartId", cartId)]);
         ("message", VStr "Shopping cart created successfully")])))
    failure.

Definition createCartTool : Tool W := {|
  name := "create_cart";
  execute := createCart_execute;
|}.

(** [addToCartTool.execute(magentoClient, params, context)] *)
Definition addToCart_execute (params : value) (context : Context) : task W value :=
  task_catch
    (_ ← lift (destructure params "sku" "params");
     let sku := own params "sku" in
     let quantity := pattern_default params "quantity" (VNum (num_of_nat 1)) in
     let cartId := own params "cartId" in
     added ← lift (ToString quantity);
     _ ← lift (ToString sku);
     _ ← lift (ToString cartId);
     send ← lift (method magentoClient "mutate");
     data ← send ADD_PRODUCTS_TO_CART_MUTATION
       (object [("cartId", cartId);
                ("cartItems", VArr [object [("sku", sku); ("quantity", quantity)]])])
       (default_null (customerToken context));
     lift (
       user_errors ← path data ["addProductsToCart"; "user_errors"];
       some ← greater_than (opt_get user_errors "length") (num_of_nat 0);
       if some : bool then
         messages ← Array_map "data.addProductsToCart.user_errors" user_errors
                      (λ e, get e "message");
         errors ← Array_join messages ", ";
         Returned (object [("success", VBool false); ("error", VStr errors)])
       else
         cart ← path data ["addProductsToCart"; "cart"];
         total_quantity ← get cart "total_quantity";
         _ ← ToString total_quantity;
         total ← path cart ["prices"; "grand_total"; "value"];
         currency ← path cart ["prices"; "grand_total"; "currency"];
         Returned (object [
           ("success", VBool true);
           ("data", object [
              ("cartId", own cart "id"); ("totalItems", total_quantity);
              ("total", total); ("currency", currency); ("items", own cart "items")]);
           ("message", VStr ("Added " +:+ added +:+ " "
              +:+ (if strict_eq_number quantity (num_of_nat 1) then "item" else "items")
              +:+ " to cart"))])))
    failure.

Definition addToCartTool : Tool W := {|
  name := "add_to_cart";
  execute := addToCart_execute;
|}.

(** [getCartTool.execute(magentoClient, params, context)] *)
Definition getCart_execute (params : value) (context : Context) : task W value :=
  task_catch
    (_ ← lift (destructure params "cartId" "params");
     let cartId := own params "cartId" in
     _ ← lift (ToString cartId);
     send ← lift (method magentoClient "query");
     data ← send GET_CART_QUERY (object [("cartId", cartId)])
              (default_null (customerToken context));
     lift (
       cart ← get data "cart";
       total_quantity ← get cart "total_quantity";
       _ ← ToString total_quantity;
       total ← path cart ["prices"; "grand_total"; "value"];
       currency ← path cart ["prices"; "grand_total"; "currency"];
       subtotal ← path cart ["prices"; "subtotal_excluding_tax"; "value"];
       Returned (object [
         ("success", VBool true);
         ("data", object [
            ("cartId", own cart "id"); ("items", own cart "items");
            ("totalItems", total_quantity); ("total", total);
            ("currency", currency); ("subtotal", subtotal)])])))
    failure.

Definition getCartTool : Tool W := {|
  name := "get_cart";
  execute := getCart_execute;
|}.

(** [updateCartItemTool.execute(magentoClient, params, context)] *)
Definition updateCartItem_execute (params : value) (context : Context) : task W value :=
  task_catch
    (_ ← lift (destructure params "cartId" "params");
     let cartId := own params "cartId" in
     let cartItemId := own params "cartItemId" in
     let quantity := own params "quantity" in
     _ ← lift (ToString cartItemId);
     _ ← lift (ToString quantity);
     send ← lift (method magentoClient "mutate");
     data ← send UPDATE_CART_ITEMS_MUTATION
       (object [("cartId", cartId); ("cartItemId", cartItemId); ("quantity", quantity)])
       (default_null (customerToken context));
     lift (
       cart ← path data ["updateCartItems"; "cart"];
       Returned (object [
         ("success", VBool true);
         ("data", cart);
         ("message", VStr "Cart item updated successfully")])))
    failure.

Definition updateCartItemTool : Tool W := {|
  name := "update_cart_item";
  execute := updateCartItem_execute;
|}.

(** [removeCartItemTool.execute(magentoClient, params, context)] *)
Definition removeCartItem_execute (params : value) (context : Context) : task W value :=
  task_catch
    (_ ← lift (destructure params "cartId" "params");
     let cartId := own params "cartId" in
     let cartItemId := own params "cartItemId" in
     _ ← lift (ToString cartItemId);
     send ← lift (method magentoClient "mutate");
     data ← send REMOVE_ITEM_FROM_CART_MUTATION
       (object [("cartId", cartId); ("cartItemId", cartItemId)])
       (default_null (customerToken context));
     lift (
       cart ← path data ["removeItemFromCart"; "cart"];
       Returned (object [
         ("success", VBool true);
         ("data", cart);
         ("message", VStr "Item removed from cart")])))
    failure.

Definition removeCartItemTool : Tool W := {|
  name := "remove_cart_item";
  execute := removeCartItem_execute;
|}.

End Tools.

End CartTools.

(** ** built-in/index.js and adapter.js *)

Module BuiltInTools.
Import JS Magento.

Section Registry.
Context `{Engine} {W : Type}.
Variable magentoClient : option (MagentoClient W).

(** [this.tools] *)
Definition tools : list (Tool W) := [
  ProductTools.productSearchTool magentoClient;
  ProductTools.getProductDetailsTool magentoClient;
  CartTools.createCartTool magentoClient;
  CartTools.addToCartTool magentoClient;
  CartTools.getCartTool magentoClient;
  CartTools.updateCartItemTool magentoClient;
  CartTools.removeCartItemTool magentoClient
].

(** [t.name === toolName] *)
Definition named (toolName : value) (t : Tool W) : bool :=
  match toolName with
  | VStr s => String.eqb (name t) s
  | _ => false
  end.

(** [BuiltInTools.executeTool(toolName, params, context)] *)
Definition executeTool (toolName params : value) (context : Context) : task W value :=
  match find (named toolName) tools with
  | None =>
      shown ← lift (ToString toolName);
      mret (object [("success", VBool false);
                    ("error", VStr ("Unknown tool: " +:+ shown))])
  | Some tool =>
      task_catch (execute tool params context) failure
  end.

End Registry.

End BuiltInTools.

Module ToolAdapter.
Import JS Magento.

Section Adapter.
Context `{Engine} {W : Type}.

(** [this.implementation]: [null] before [initialize], then the built-in
    registry with its client (the other modes load modules the repository
    does not have). *)
Variable implementation : option (option (MagentoClient W)).

(** [ToolAdapter.executeTool(toolName, params, context)] *)
Definition executeTool (toolName params : value) (context : Context) : task W value :=
  match implementation with
  | None => lift (Threw (Error "ToolAdapter not initialized. Call initialize() first."))
  | Some magentoClient =>
      _ ← lift (ToString toolName);
      BuiltInTools.executeTool magentoClient toolName params context
  end.

End Adapter.

End ToolAdapter.

(** ** agent/orchestrator.js *)

Module Orchestrator.
Import JS Magento.

(** A message of a completion request, and the generation options. *)
Record ChatMessage := {
  role : string;
  content : string;
}.

Record Options := {
  temperature : Q;
  maxTokens : nat;
}.

(** The instruction of the intent request. *)
Definition INTENT_PROMPT : string := quoted
"Analyze the user's message and determine their intent. Respond ONLY with valid JSON.

Intent types:
- product_search: User wants to find products
- product_details: User wants details about a specific product
- add_to_cart: User wants to add something to cart
- view_cart: User wants to see their cart
- cart_management: User wants to update/remove cart items
- general_question: General inquiry
- greeting: User is greeting

JSON format:
{
  `type`: `intent_type`,
  `requiresTools`: true/false,
  `suggestedTools`: [`tool1`, `tool2`],
  `parameters`: {}
}".

Definition intent_messages (userMessage : string) : list ChatMessage := [
  {| role := "system"; content := INTENT_PROMPT |};
  {| role := "user";
     content := "User message: " +:+ String dquote userMessage +:+ String dquote EmptyString |}
].

(** The three intents [analyzeIntent] builds itself. *)
Definition product_search_intent (userMessage : string) : value := object [
  ("type", VStr "product_search");
  ("requiresTools", VBool true);
  ("suggestedTools", VArr [VStr "search_products"]);
  ("parameters", object [("query", VStr userMessage)])].

Definition view_cart_intent : value := object [
  ("type", VStr "view_cart");
  ("requiresTools", VBool true);
  ("suggestedTools", VArr [VStr "get_cart"]);
  ("parameters", object [])].

Definition general_question_intent : value := object [
  ("type", VStr "general_question");
  ("requiresTools", VBool false);
  ("suggestedTools", VArr []);
  ("parameters", object [])].

(** [result.content.match(/\{[\s\S]*\}/)] *)
Definition content_match (content : value) : outcome (option string) :=
  match content with
  | VStr text => Returned (match_braces text)
  | VUndefined | VNull => Threw (TypeError (cannot_read content "match"))
  | _ => Threw (TypeError "result.content.match is not a function")
  end.

(** [for (const x of v)]: the elements the loop visits. *)
Definition iterate (what : string) (v : value) : outcome (list value) :=
  match v with
  | VArr elems => Returned elems
  | VStr s => Returned (chars s)
  | VUndefined | VNull =>
      Threw (TypeError (type_name v +:+
        " is not iterable (cannot read property Symbol(Symbol.iterator))"))
  | _ => Threw (TypeError (what +:+ " is not iterable"))
  end.

Section Agent.
Context `{Engine} {W : Type}.

(** [this.llmProvider.generateCompletion(messages, options)] and
    [this.toolAdapter.executeTool(toolName, params, context)]: the two
    services the orchestrator awaits, sharing the outside state [W]. *)
Variable generateCompletion : list ChatMessage → Options → task W value.
Variable toolAdapter_executeTool : value → value → Context → task W value.

(** The [catch] branch of [analyzeIntent]. *)
Definition keyword_intent (userMessage : string) : value :=
  let lowerMessage := toLowerCase userMessage in
  if includes lowerMessage "search" || includes lowerMessage "find" ||
     includes lowerMessage "show" || includes lowerMessage "looking for"
  then product_search_intent userMessage
  else if includes lowerMessage "cart" then view_cart_intent
  else general_question_intent.

(** [analyzeIntent(userMessage, conversationHistory)] *)
Definition analyzeIntent (userMessage : string) (conversationHistory : list value)
  : task W value :=
  task_catch
    (result ← generateCompletion (intent_messages userMessage)
                {| temperature := 3 # 10; maxTokens := 300 |};
     lift (
       content ← get result "content";
       jsonMatch ← content_match content;
       match jsonMatch with
       | Some text => JSON_parse text
       | None => Returned general_question_intent
       end))
    (λ error, mret (keyword_intent userMessage)).

(** What [analyzeIntent] returns once the model has answered [result]: the
    rest of its [try] block, with its [catch]. *)
Definition read_intent (userMessage : string) (result : value) : value :=
  match (content ← get result "content";
         jsonMatch ← content_match content;
         match jsonMatch with
         | Some text => JSON_parse text
         | None => Returned general_question_intent
         end) with
  | Returned intent => intent
  | Threw _ => keyword_intent userMessage
  end.

(** [extractToolParameters(toolName, intent, context)] *)
Definition extractToolParameters (toolName intent : value) (context : Context)
  : outcome value :=
  parameters ← get intent "parameters";
  let params := spread parameters in
  let params :=
    if truthy (cartId context) then <["cartId" := cartId context]> params else params in
  if match toolName with VStr s => String.eqb s "search_products" | _ => false end
     && negb (truthy (own (VObj params) "query"))
  then
    query ← get parameters "query";
    Returned (VObj (<["query" := or_else query (VStr EmptyString)]> params))
  else Returned (VObj params).

(** What [extractToolParameters] returns for a tool other than
    [search_products]: the parameters of the intent, with the cart of the
    context over them when the context has one. *)
Definition cart_params (intent : value) (context : Context) : value :=
  let params := spread (own intent "parameters") in
  VObj (if truthy (cartId context) then <["cartId" := cartId context]> params else params).

(** One round of the loop of [executeTools]: the entry pushed on [results]. *)
Definition tool_entry (intent : value) (context : Context) (toolName : value)
  : task W value :=
  task_catch
    (params ← lift (extractToolParameters toolName intent context);
     result ← toolAdapter_executeTool toolName params context;
     lift (
       success ← get result "success";
       Returned (object [
         ("toolName", toolName); ("success", success); ("data", own result "data");
         ("error", own result "error"); ("message", own result "message")])))
    (λ error,
       _ ← lift (ToString toolName);
       mret (object [("toolName", toolName); ("success", VBool false);
                     ("error", VStr (message error))])).

Fixpoint run_tools (intent : value) (context : Context) (toolNames results : list value)
  : task W (list value) :=
  match toolNames with
  | [] => mret results
  | toolName :: rest =>
      entry ← tool_entry intent context toolName;
      run_tools intent context rest (results ++ [entry])
  end.

(** [executeTools(intent, context)] *)
Definition executeTools (intent : value) (context : Context) : task W (list value) :=
  suggestedTools ← lift (get intent "suggestedTools");
  toolNames ← lift (iterate "intent.suggestedTools" suggestedTools);
  run_tools intent context toolNames [].

End Agent.

End Orchestrator.

(** ** session/manager.js *)

Module SessionManager.
Import JS.

(** ['guest'] and ['logged-in'] *)
Inductive UserType := guest | logged_in.

(** Instants are kept as the ISO-8601 text [toISOString] gives. *)
Record Metadata := {
  createdAt : string;
  lastActivity : string;
}.

Record Session := {
  sessionId : string;
  userType : UserType;
  customerToken : value;
  cartId : value;
  conversationHistory : list value;
  metadata : Metadata;
}.

(** The argument of [getOrCreateSession]. *)
Record Params := {
  params_sessionId : value;
  params_customerToken : value;
  params_cartId : value;
}.

(** A reading of the clock: the instant in milliseconds and as text. *)
Record Instant := {
  epoch_ms : Z;
  iso : string;
}.

(** The manager as [chat/index.js] builds it, [new SessionManager(null)]:
    the table [this.sessions], with no backing storage.  [dates] and [uuids]
    count the clock readings and the identifiers drawn so far. *)
Record State := {
  sessions : gmap string Session;
  dates : nat;
  uuids : nat;
}.

Definition initial : State := {| sessions := ∅; dates := 0; uuids := 0 |}.

Definition set_sessions (f : gmap string Session → gmap string Session) (st : State) : State :=
  {| sessions := f (sessions st); dates := dates st; uuids := uuids st |}.

Definition touch (t : string) (s : Session) : Session :=
  {| sessionId := sessionId s; userType := userType s; customerToken := customerToken s;
     cartId := cartId s; conversationHistory := conversationHistory s;
     metadata := {| createdAt := createdAt (metadata s); lastActivity := t |} |}.

Definition set_history (h : list value) (s : Session) : Session :=
  {| sessionId := sessionId s; userType := userType s; customerToken := customerToken s;
     cartId := cartId s; conversationHistory := h; metadata := metadata s |}.

Definition set_cartId (c : value) (s : Session) : Session :=
  {| sessionId := sessionId s; userType := userType s; customerToken := customerToken s;
     cartId := c; conversationHistory := conversationHistory s; metadata := metadata s |}.

Definition upgrade (token : value) (s : Session) : Session :=
  {| sessionId := sessionId s; userType := logged_in; customerToken := token;
     cartId := cartId s; conversationHistory := conversationHistory s;
     metadata := metadata s |}.

(** [array.slice(start)] *)
Definition Array_slice {A} (start : Z) (l : list A) : list A :=
  let len := Z.of_nat (length l) in
  let k := if (start <? 0)%Z then Z.max (len + start) 0 else Z.min start len in
  drop (Z.to_nat k) l.

(** [history.push(message)], then [history = history.slice(-50)] once
    [history.length > 50]. *)
Definition push_bounded {A} (history : list A) (message : A) : list A :=
  let history := (history ++ [message])%list in
  if (50 <? length history)%nat then Array_slice (-50) history else history.

Section Store.
Context `{Engine}.

(** The clock and the identifier generator: their k-th answers; and the
    instant a text denotes, for [new Date(text)]. *)
Variable clock : nat → Instant.
Variable uuidv4 : nat → string.
Variable Date_parse : string → option Z.

(** [new Date()] / [Date.now()] *)
Definition Date_now : task State Instant := λ st,
  (Returned (clock (dates st)),
   {| sessions := sessions st; dates := S (dates st); uuids := uuids st |}).

Definition uuid : task State string := λ st,
  (Returned (uuidv4 (uuids st)),
   {| sessions := sessions st; dates := dates st; uuids := S (uuids st) |}).

(** A change of the table [this.sessions]. *)
Definition update (f : gmap string Session → gmap string Session) : task State unit := λ st,
  (Returned (), set_sessions f st).

(** [loadSession(sessionId)]: the table has string keys only. *)
Definition loadSession (sessionId : value) : task State (option Session) := λ st,
  (Returned (match sessionId with VStr id => sessions st !! id | _ => None end), st).

(** [saveSession(session)]; the session comes back as the call leaves it. *)
Definition saveSession (session : Session) : task State Session :=
  t ← Date_now;
  let session := touch (iso t) session in
  _ ← update (insert (sessionId session) session);
  mret session.

(** [createSession(params)] *)
Definition createSession (customerToken cartId : value) : task State Session :=
  id ← uuid;
  created ← Date_now;
  active ← Date_now;
  saveSession {|
    sessionId := id;
    userType := if truthy customerToken then logged_in else guest;
    customerToken := or_else customerToken VNull;
    cartId := or_else cartId VNull;
    conversationHistory := [];
    metadata := {| createdAt := iso created; lastActivity := iso active |};
  |}.

(** [getOrCreateSession(params)] *)
Definition getOrCreateSession (params : Params) : task State Session :=
  existingSession ←
    (if truthy (params_sessionId params) then loadSession (params_sessionId params)
     else mret None);
  match existingSession with
  | Some existingSession =>
      if truthy (params_customerToken params) && negb (truthy (customerToken existingSession))
      then saveSession (upgrade (params_customerToken params) existingSession)
      else mret existingSession
  | None => createSession (params_customerToken params) (params_cartId params)
  end.

Definition session_not_found {A} (sessionId : string) : task State A :=
  lift (Threw (Error ("Session not found: " +:+ sessionId))).

(** [addMessage(sessionId, role, content, metadata)] *)
Definition addMessage (sessionId : string) (role content metadata : value)
  : task State value :=
  session ← loadSession (VStr sessionId);
  match session with
  | None => session_not_found sessionId
  | Some session =>
      t ← Date_now;
      let message := VObj (spread metadata ∪
        list_to_map [("role", role); ("content", content); ("timestamp", VStr (iso t))]) in
      _ ← saveSession (set_history (push_bounded (conversationHistory session) message) session);
      mret message
  end.

(** [getHistory(sessionId, limit)]; [None] is an omitted [limit]. *)
Definition getHistory (sessionId : string) (limit : option Z) : task State (list value) :=
  let limit := default 10%Z limit in
  session ← loadSession (VStr sessionId);
  match session with
  | None => mret []
  | Some session => mret (Array_slice (- limit) (conversationHistory session))
  end.

(** [updateCartId(sessionId, cartId)] *)
Definition updateCartId (sessionId : string) (cartId : value) : task State unit :=
  session ← loadSession (VStr sessionId);
  match session with
  | None => session_not_found sessionId
  | Some session =>
      _ ← saveSession (set_cartId cartId session);
      _ ← lift (ToString cartId);
      mret ()
  end.

(** [clearHistory(sessionId)] *)
Definition clearHistory (sessionId : string) : task State unit :=
  session ← loadSession (VStr sessionId);
  match session with
  | None => mret ()
  | Some session =>
      _ ← saveSession (set_history [] session);
      mret ()
  end.

(** [deleteSession(sessionId)] *)
Definition deleteSession (sessionId : string) : task State unit :=
  update (delete sessionId).

(** [new Date(ms)]: a date beyond 8.64e15 ms from the epoch is invalid. *)
Definition time_clip (ms : Z) : option Z :=
  if (Z.abs ms <=? 8640000000000000)%Z then Some ms else None.

(** [lastActivity < cutoffTime], on the instants the two dates denote; an
    invalid date compares false. *)
Definition older_than (cutoff : option Z) (session : Session) : bool :=
  match Date_parse (lastActivity (metadata session)), cutoff with
  | Some t, Some c => (t <? c)%Z
  | _, _ => false
  end.

(** [cleanupOldSessions(maxAgeHours)], for a whole number of hours; [None]
    is an omitted argument. *)
Definition cleanupOldSessions (maxAgeHours : option Z) : task State unit :=
  let maxAgeHours := default 24%Z maxAgeHours in
  t ← Date_now;
  let cutoffTime := time_clip (epoch_ms t - maxAgeHours * 60 * 60 * 1000)%Z in
  update (filter (λ entry, ¬ older_than cutoffTime entry.2)).

(** The calls a client of the store can make. *)
Inductive call :=
| GetOrCreateSession (params : Params)
| AddMessage (sessionId : string) (role content metadata : value)
| GetHistory (sessionId : string) (limit : option Z)
| UpdateCartId (sessionId : string) (cartId : value)
| ClearHistory (sessionId : string)
| DeleteSession (sessionId : string)
| CleanupOldSessions (maxAgeHours : option Z).

(** The store after a call, whether it returned or threw. *)
Definition after (c : call) (st : State) : State :=
  match c with
  | GetOrCreateSession params => (getOrCreateSession params st).2
  | AddMessage sessionId role content metadata =>
      (addMessage sessionId role content metadata st).2
  | GetHistory sessionId limit => (getHistory sessionId limit st).2
  | UpdateCartId sessionId cartId => (updateCartId sessionId cartId st).2
  | ClearHistory sessionId => (clearHistory sessionId st).2
  | DeleteSession sessionId => (deleteSession sessionId st).2
  | CleanupOldSessions maxAgeHours => (cleanupOldSessions maxAgeHours st).2
  end.

(** The stores a run of calls reaches from the empty one. *)
Inductive reachable : State → Prop :=
| reachable_initial : reachable initial
| reachable_after c st : reachable st → reachable (after c st).

(** What holds of every session [session] the table keeps under [id]: it is
    filed under its own identifier, which the generator has drawn; it is
    logged in exactly when it holds a token; it keeps at most 50 messages. *)
Record well_formed (drawn : nat) (id : string) (session : Session) : Prop := {
  wf_key : sessionId session = id;
  wf_drawn : ∃ k, (k < drawn)%nat ∧ id = uuidv4 k;
  wf_token : userType session = logged_in ↔ truthy (customerToken session) = true;
  wf_history : (length (conversationHistory session) ≤ 50)%nat;
}.

Definition invariant (st : State) : Prop :=
  ∀ id session, sessions st !! id = Some session → well_formed (uuids st) id session.

End Store.

End SessionManager.

(** ** Stand-ins for the outside world, for the concrete runs *)

Module Doubles.
Import JS Magento.

(** A clock that stands still, identifiers that never repeat. *)
Definition clock (k : nat) : SessionManager.Instant :=
  {| SessionManager.epoch_ms := 1767225600000;
     SessionManager.iso := "2026-01-01T00:00:00.000Z" |}.

Definition uuidv4 (k : nat) : string :=
  "session-" +:+ string_of_list_ascii (replicate k "i"%char).

Definition Date_parse (text : string) : option Z := Some 1767225600000%Z.

(** A backend with one cart, [cart-1]: it answers every cart creation with
    it, adds products to it, and knows no other cart. *)
Definition added_to_cart_1 : value :=
  object [("addProductsToCart", object [
    ("user_errors", VArr []);
    ("cart", object [
       ("id", VStr "cart-1"); ("total_quantity", VNum (num_of_nat 1));
       ("items", VArr []);
       ("prices", object [("grand_total", object [
          ("value", VNum (num_of_nat 20)); ("currency", VStr "USD")])])])])].

Definition magentoClient {W} : MagentoClient W :=
  {| query := λ doc variables token,
       match doc with
       | CREATE_EMPTY_CART_MUTATION => mret (object [("createEmptyCart", VStr "cart-1")])
       | ADD_PRODUCTS_TO_CART_MUTATION =>
           match own variables "cartId" with
           | VStr "cart-1" => mret added_to_cart_1
           | _ => lift (Threw (Error
                    "Magento API Error: GraphQL Error: Could not find a cart with that ID"))
           end
       | _ => mret (object [])
       end |}.

(** A language model that is down, and one that answers with a given text. *)
Definition unreachable_model {W}
  : list Orchestrator.ChatMessage → Orchestrator.Options → task W value :=
  λ messages options, lift (Threw (Error "Ollama API failed: connect ECONNREFUSED")).

Definition replying_model {W} (text : string)
  : list Orchestrator.ChatMessage → Orchestrator.Options → task W value :=
  λ messages options, mret (object [("content", VStr text)]).

(** The registry over that backend, and the same keeping the calls it
    receives. *)
Definition registry : value → value → Context → task unit value :=
  ToolAdapter.executeTool (H := Json.engine) (Some (Some magentoClient)).

Definition toolAdapter
  : value → value → Context → task (unit * list (value * value * Context)) value :=
  recording registry.

(** A turn that wants a product in a cart and has no cart yet. *)
Definition add_to_new_cart_intent : value := object [
  ("type", VStr "add_to_cart");
  ("requiresTools", VBool true);
  ("suggestedTools", VArr [VStr "create_cart"; VStr "add_to_cart"]);
  ("parameters", object [("sku", VStr "SHIRT-RED-M")])].

Definition no_cart : Context := {| customerToken := VNull; cartId := VNull |}.

(** Runs of the session store: a guest and a shopper who arrive without a
    session, and a guest session after [n] messages. *)
Definition store : SessionManager.call → SessionManager.State → SessionManager.State :=
  SessionManager.after (H := Json.engine) clock uuidv4 Date_parse.

Definition guest_params : SessionManager.Params :=
  {| SessionManager.params_sessionId := VUndefined;
     SessionManager.params_customerToken := VUndefined;
     SessionManager.params_cartId := VUndefined |}.

Definition shopper_params : SessionManager.Params :=
  {| SessionManager.params_sessionId := VUndefined;
     SessionManager.params_customerToken := VStr "customer-token-1";
     SessionManager.params_cartId := VUndefined |}.

Definition one_guest : SessionManager.State :=
  store (SessionManager.GetOrCreateSession guest_params) SessionManager.initial.

Definition one_shopper : SessionManager.State :=
  store (SessionManager.GetOrCreateSession shopper_params) SessionManager.initial.

Definition said (k : nat) : SessionManager.call :=
  SessionManager.AddMessage "session-" (VStr "user") (VStr ("message " +:+ decimal k))
    VUndefined.

Fixpoint talk (n : nat) (st : SessionManager.State) : SessionManager.State :=
  match n with
  | O => st
  | S n' => store (said n') (talk n' st)
  end.

(** The text of a message. *)
Definition told (message : value) : value := own message "content".

End Doubles.

Module SessionViews.
Import JS SessionManager.

(** The session [getOrCreateSession] finds for the [sessionId] it is given:
    [sessionId && await this.loadSession(sessionId)]. *)
Definition resolve (st : State) (sessionId : value) : option Session :=
  if truthy sessionId
  then match sessionId with VStr id => sessions st !! id | _ => None end
  else None.

(** The parameters of a request of [chat/index.js]. *)
Definition request (sessionId customerToken cartId : value) : Params :=
  {| params_sessionId := sessionId; params_customerToken := customerToken;
     params_cartId := cartId |}.

End SessionViews.

Module Reports.
Import JS.

(** A result as the tools report it: an object whose [success] is a boolean
    and which, when [success] is false, carries the text of an [error]. *)
Definition reported (result : value) : bool :=
  match result with
  | VObj props =>
      match props !! "success" with
      | Some (VBool true) => true
      | Some (VBool false) =>
          match props !! "error" with Some (VStr _) => true | _ => false end
      | _ => false
      end
  | _ => false
  end.

(** Tools that never hand the customer token to the backend. *)
Definition anonymous (toolName : string) : bool :=
  String.eqb toolName "search_products" || String.eqb toolName "get_product_details".


(** An expression that completes without a throw. *)
Definition completes {A} (m : outcome A) : bool :=
  match m with Returned _ => true | Threw _ => false end.

Section Sending.
Context {W R : Type}.

(** A task over a service that keeps its requests: it adds at most one
    request, which is as [expected]; it adds none. *)
Definition at_most_once (expected : R → Prop) {A} (m : task (W * list R) A) : Prop :=
  ∀ w sent, ∃ new,
    (m (w, sent)).2.2 = (sent ++ new)%list ∧ (length new ≤ 1)%nat ∧ Forall expected new.

Definition silent {A} (m : task (W * list R) A) : Prop :=
  ∀ w sent, (m (w, sent)).2.2 = sent.

End Sending.

End Reports.

(** ** magento-client.js *)

Module MagentoGraphQL.
Import JS Magento.

(** What [axios.post] rejects with: an error with a [message], a [code]
    (['ECONNREFUSED'], ['ENOTFOUND'], ...) and, when the server answered, the
    [status] and the [data] of its response ([error.response?.status],
    [error.response?.data]). *)
Record AxiosError := {
  axios_message : string;
  axios_code : value;
  axios_status : value;
  axios_data : value;
}.

(** What reaches a [catch] around a request: an error of the program, or
    the rejection of the request. *)
Inductive thrown :=
| Own (e : exn)
| Rejected (e : AxiosError).

(** [error.message] and [error.code] *)
Definition thrown_message (error : thrown) : string :=
  match error with Own e => message e | Rejected e => axios_message e end.

Definition thrown_code (error : thrown) : value :=
  match error with Own _ => VUndefined | Rejected e => axios_code e end.

(** [error.response?.status] and [error.response?.data] *)
Definition thrown_status (error : thrown) : value :=
  match error with Own _ => VUndefined | Rejected e => axios_status e end.

Definition thrown_data (error : thrown) : value :=
  match error with Own _ => VUndefined | Rejected e => axios_data e end.

(** [a === 'text'] *)
Definition is_string (a : value) (text : string) : bool :=
  match a with VStr s => String.eqb s text | _ => false end.

(** [this.graphqlUrl], [this.apiToken], [this.mode] *)
Record Client := {
  graphqlUrl : value;
  apiToken : value;
  mode : string;
}.

(** [text.toLowerCase()] and [text.startsWith(prefix)] on a value, where
    [what] names it in the source. *)
Definition String_toLowerCase (what : string) (text : value) : outcome string :=
  match text with
  | VStr s => Returned (toLowerCase s)
  | VUndefined | VNull => Threw (TypeError (cannot_read text "toLowerCase"))
  | _ => Threw (TypeError (what +:+ ".toLowerCase is not a function"))
  end.

Definition String_startsWith (what : string) (text : value) (prefix : string)
  : outcome bool :=
  match text with
  | VStr s => Returned (String.prefix prefix s)
  | VUndefined | VNull => Threw (TypeError (cannot_read text "startsWith"))
  | _ => Threw (TypeError (what +:+ ".startsWith is not a function"))
  end.

(** [Object.keys(v)] *)
Definition Object_keys (v : value) : outcome unit :=
  match v with
  | VUndefined | VNull => Threw (TypeError "Cannot convert undefined or null to object")
  | _ => Returned ()
  end.

(** [detectMode()] *)
Definition detectMode (graphqlUrl : value) : outcome string :=
  url ← String_toLowerCase "this.graphqlUrl" graphqlUrl;
  if includes url "magentosite.cloud" || includes url "magento.cloud" then Returned "paas"
  else if includes url "commerce.adobe.com" then Returned "saas"
  else Returned "paas".

Section Process.
Context `{Engine}.

(** [process.env] *)
Variable env : gmap string string.

Definition process_env (k : string) : value :=
  match env !! k with Some text => VStr text | None => VUndefined end.

(** [config.k || process.env.k] *)
Definition configured (config : value) (k : string) : outcome value :=
  given ← get config k;
  Returned (or_else given (process_env k)).

(** [new MagentoClient(config)] *)
Definition new_MagentoClient (config : value) : outcome Client :=
  graphqlUrl ← configured config "MAGENTO_GRAPHQL_URL";
  apiToken ← configured config "MAGENTO_API_TOKEN";
  mode ← detectMode graphqlUrl;
  if negb (truthy graphqlUrl) then Threw (Error "MAGENTO_GRAPHQL_URL is required")
  else
    _ ← ToString graphqlUrl;
    Returned {| graphqlUrl := graphqlUrl; apiToken := apiToken; mode := mode |}.

End Process.

Section Requests.
Context `{Engine} {W : Type}.

(** [axios.post(url, data, { headers, ... })]: the [data] of the response,
    or a rejection. *)
Variable axios_post : value → value → value → W → (AxiosError + value) * W.

(** The [headers] of a request. *)
Definition headers (client : Client) (customerToken : value) : outcome value :=
  let headers : gmap string value := {["Content-Type" := VStr "application/json"]} in
  if String.eqb (mode client) "paas" then
    if truthy customerToken then
      token ← ToString customerToken;
      Returned (VObj (<["Authorization" := VStr ("Bearer " +:+ token)]> headers))
    else if truthy (apiToken client) then
      token ← ToString (apiToken client);
      Returned (VObj (<["Authorization" := VStr ("Bearer " +:+ token)]> headers))
    else Returned (VObj headers)
  else if String.eqb (mode client) "saas" then
    let headers := <["X-Adobe-Commerce-API-Key" := apiToken client]> headers in
    if truthy customerToken
    then Returned (VObj (<["X-Customer-Token" := customerToken]> headers))
    else Returned (VObj headers)
  else Returned (VObj headers).

(** The [try] block of [query]: what it returns, or what reaches its [catch]. *)
Definition attempt (client : Client) (queryString variables headers : value)
  : W → (thrown + value) * W :=
  λ w,
    match (_ ← Object_keys variables;
           String_startsWith "this.graphqlUrl" (graphqlUrl client) "https") with
    | Threw e => (inl (Own e), w)
    | Returned _ =>
        match axios_post (graphqlUrl client)
                (object [("query", queryString); ("variables", variables)]) headers w with
        | (inl rejection, w') => (inl (Rejected rejection), w')
        | (inr data, w') =>
            (match (errors ← get data "errors";
                    if truthy errors then
                      messages ← Array_map "response.data.errors" errors
                                   (λ e, get e "message");
                      errorMessages ← Array_join messages ", ";
                      Threw (Error ("GraphQL Error: " +:+ errorMessages))
                    else Returned (own data "data")) with
             | Returned result => inr result
             | Threw e => inl (Own e)
             end, w')
        end
    end.

(** The [catch] block of [query]: what it throws. *)
Definition rethrown (client : Client) (error : thrown) : outcome value :=
  if is_string (thrown_code error) "ECONNREFUSED" then
    url ← ToString (graphqlUrl client);
    Threw (Error ("Cannot connect to Magento at " +:+ url +:+ ". Is it running?"))
  else if is_string (thrown_code error) "ENOTFOUND" then
    url ← ToString (graphqlUrl client);
    Threw (Error ("Cannot resolve hostname. Check MAGENTO_GRAPHQL_URL: " +:+ url))
  else Threw (Error ("Magento API Error: " +:+ thrown_message error)).

(** [try { ... } catch (error) { ... }] of [query] *)
Definition request (client : Client) (queryString variables headers : value)
  : task W value :=
  λ w,
    match attempt client queryString variables headers w with
    | (inr result, w') => (Returned result, w')
    | (inl error, w') => (rethrown client error, w')
    end.

(** [query(queryString, variables = {}, customerToken = null)] *)
Definition query (client : Client) (queryString variables customerToken : value)
  : task W value :=
  let variables := match variables with VUndefined => object [] | _ => variables end in
  let customerToken := default_null customerToken in
  headers ← lift (headers client customerToken);
  request client queryString variables headers.

(** [mutate(mutationString, variables = {}, customerToken = null)] *)
Definition mutate (client : Client) (mutationString variables customerToken : value)
  : task W value :=
  let variables := match variables with VUndefined => object [] | _ => variables end in
  let customerToken := default_null customerToken in
  query client mutationString variables customerToken.

(** The client as the tools use it, over the texts of [queries.js]. *)
Variable source : document → string.

Definition graphql_client (client : Client) : MagentoClient W :=
  {| Magento.query := λ doc variables customerToken,
       query client (VStr (source doc)) variables customerToken |}.

End Requests.

(** [axios.post] made to keep the requests it receives. *)
Definition recording_post {W}
  (axios_post : value → value → value → W → (AxiosError + value) * W)
  : value → value → value → W * list (value * value * value)
    → (AxiosError + value) * (W * list (value * value * value)) :=
  λ url data headers '(w, sent),
    let '(r, w') := axios_post url data headers w in
    (r, (w', (sent ++ [(url, data, headers)])%list)).

End MagentoGraphQL.

(** ** utils/llm-provider.js *)

Module LLMProvider.
Import JS MagentoGraphQL.

(** The two line feeds after the system message of [generateGemini]. *)
Definition nl2 : string := String "010" (String "010" EmptyString).

(** [this.provider] and [this.config] *)
Record Provider := {
  provider : value;
  config : value;
}.

Section Provider.
Context `{Engine}.
Variable env : gmap string string.

(** [if (!this.config.k) throw new Error(text)] *)
Definition required (this : Provider) (k text : string) : outcome unit :=
  given ← get (config this) k;
  if truthy given then Returned () else Threw (Error text).

(** [validateConfig()] *)
Definition validateConfig (this : Provider) : outcome unit :=
  if is_string (provider this) "ollama" then
    required this "ollamaBaseUrl" "OLLAMA_BASE_URL is required for Ollama provider"
  else if is_string (provider this) "openai" then
    required this "openaiApiKey" "OPENAI_API_KEY is required for OpenAI provider"
  else if is_string (provider this) "claude" then
    required this "claudeApiKey" "CLAUDE_API_KEY is required for Claude provider"
  else if is_string (provider this) "gemini" then
    required this "geminiApiKey" "GOOGLE_API_KEY is required for Gemini provider"
  else
    shown ← ToString (provider this);
    Threw (Error ("Unsupported LLM provider: " +:+ shown)).

(** [new LLMProvider(config)] *)
Definition new_LLMProvider (config : value) : outcome Provider :=
  given ← get config "provider";
  let this := {| provider := or_else given (VStr "ollama"); config := config |} in
  _ ← ToString (provider this);
  _ ← validateConfig this;
  Returned this.

(** [createLLMProvider(params = {})] *)
Definition createLLMProvider (params : value) : outcome Provider :=
  let params := match params with VUndefined => object [] | _ => params end in
  LLM_PROVIDER ← configured env params "LLM_PROVIDER";
  OLLAMA_BASE_URL ← configured env params "OLLAMA_BASE_URL";
  OLLAMA_MODEL ← configured env params "OLLAMA_MODEL";
  OPENAI_API_KEY ← configured env params "OPENAI_API_KEY";
  OPENAI_MODEL ← configured env params "OPENAI_MODEL";
  CLAUDE_API_KEY ← configured env params "CLAUDE_API_KEY";
  CLAUDE_MODEL ← configured env params "CLAUDE_MODEL";
  GOOGLE_API_KEY ← configured env params "GOOGLE_API_KEY";
  GEMINI_MODEL ← configured env params "GEMINI_MODEL";
  new_LLMProvider (object [
    ("provider", or_else LLM_PROVIDER (VStr "ollama"));
    ("ollamaBaseUrl", or_else OLLAMA_BASE_URL (VStr "http://localhost:11434"));
    ("ollamaModel", or_else OLLAMA_MODEL (VStr "llama3.2"));
    ("openaiApiKey", OPENAI_API_KEY);
    ("openaiModel", or_else OPENAI_MODEL (VStr "gpt-4o-mini"));
    ("claudeApiKey", CLAUDE_API_KEY);
    ("claudeModel", or_else CLAUDE_MODEL (VStr "claude-sonnet-4-20250514"));
    ("geminiApiKey", GOOGLE_API_KEY);
    ("geminiModel", or_else GEMINI_MODEL (VStr "gemini-2.5-flash-lite"))]).

End Provider.

(** [msg.role === 'assistant' ? a : 'user'] *)
Definition speaker (role : value) (assistant : string) : value :=
  if is_string role "assistant" then VStr assistant else VStr "user".

Section Messages.
Context `{Engine}.

(** The loop of [generateClaude]: the system message and [claudeMessages]
    after the messages [msgs], from [systemMessage] and [claudeMessages]. *)
Fixpoint claude_messages (msgs : list value) (systemMessage : value)
    (claudeMessages : list value) : outcome (value * list value) :=
  match msgs with
  | [] => Returned (systemMessage, claudeMessages)
  | msg :: msgs' =>
      role ← get msg "role";
      if is_string role "system" then
        claude_messages msgs' (own msg "content") claudeMessages
      else
        claude_messages msgs' systemMessage
          (claudeMessages ++ [object [("role", speaker role "assistant");
                                      ("content", own msg "content")]])
  end.

(** The loop of [generateGemini]: [geminiContents] after the messages
    [msgs]. *)
Fixpoint gemini_contents (msgs : list value) (geminiContents : list value)
  : outcome (list value) :=
  match msgs with
  | [] => Returned geminiContents
  | msg :: msgs' =>
      role ← get msg "role";
      if is_string role "system" then
        match geminiContents with
        | [] =>
            content ← ToString (own msg "content");
            gemini_contents msgs'
              [object [("role", VStr "user");
                       ("parts", VArr [object [("text", VStr (content +:+ nl2))]])]]
        | _ => gemini_contents msgs' geminiContents
        end
      else
        gemini_contents msgs'
          (geminiContents ++ [object [("role", speaker role "model");
                                      ("parts", VArr [object [("text", own msg "content")]])]])
  end.

End Messages.

Section Completion.
Context `{Engine} {W : Type}.

(** [axios.post(url, data, { headers, ... })]: the [data] of the response,
    or a rejection; and the [+] of the engine. *)
Variable axios_post : value → value → value → W → (AxiosError + value) * W.
Variable plus : value → value → outcome value.

(** [options = {}] of the four [generate] methods. *)
Definition given_options (options : value) : value :=
  match options with VUndefined => object [] | _ => options end.

(** [try { response = await axios.post(url, payload, { headers, ... });
    return read(response.data) } catch (error) { throw explain(error) }],
    where [target] is the evaluation of [url] and [headers]. *)
Definition request (target : outcome (value * value)) (payload : value)
    (read : value → outcome value) (explain : thrown → outcome value) : task W value :=
  λ w,
    match target with
    | Threw e => (explain (Own e), w)
    | Returned (url, headers) =>
        match axios_post url payload headers w with
        | (inl rejection, w') => (explain (Rejected rejection), w')
        | (inr data, w') =>
            (match read data with
             | Returned result => Returned result
             | Threw e => explain (Own e)
             end, w')
        end
    end.

(** [generateOllama(messages, options = {})] *)
Definition generateOllama (this : Provider) (messages options : value) : task W value :=
  let options := given_options options in
  base ← lift (get (config this) "ollamaBaseUrl");
  base ← lift (ToString base);
  let url := base +:+ "/api/chat" in
  temperature ← lift (get options "temperature");
  let model := or_else (own (config this) "ollamaModel") (VStr "llama3.2") in
  let payload := object [
    ("model", model);
    ("messages", messages);
    ("stream", VBool false);
    ("options", object [
       ("temperature", or_else temperature (VNum (Fin (7 # 10))));
       ("num_predict", or_else (own options "maxTokens") (VNum (num_of_nat 1000)))])] in
  request (Returned (VStr url, VUndefined)) payload
    (λ data,
       content ← path data ["message"; "content"];
       let promptTokens := or_else (own data "prompt_eval_count") (VNum (num_of_nat 0)) in
       let completionTokens := or_else (own data "eval_count") (VNum (num_of_nat 0)) in
       totalTokens ← plus promptTokens completionTokens;
       Returned (object [
         ("content", content);
         ("usage", object [("promptTokens", promptTokens);
                           ("completionTokens", completionTokens);
                           ("totalTokens", totalTokens)]);
         ("model", own data "model")]))
    (λ error,
       if is_string (thrown_code error) "ECONNREFUSED" then
         Threw (Error ("Cannot connect to Ollama at " +:+ url
                       +:+ ". Is Ollama running? Start with: ollama serve"))
       else if strict_eq_number (thrown_status error) (num_of_nat 404) then
         model ← ToString model;
         Threw (Error ("Model " +:+ String dquote model +:+ String dquote
                         " not found. Pull it with: ollama pull " +:+ model))
       else Threw (Error ("Ollama API failed: " +:+ thrown_message error))).

(** [generateOpenAI(messages, options = {})] *)
Definition generateOpenAI (this : Provider) (messages options : value) : task W value :=
  let options := given_options options in
  model ← lift (get (config this) "openaiModel");
  temperature ← lift (get options "temperature");
  let payload := object [
    ("model", or_else model (VStr "gpt-4o-mini"));
    ("messages", messages);
    ("temperature", or_else temperature (VNum (Fin (7 # 10))));
    ("max_tokens", or_else (own options "maxTokens") (VNum (num_of_nat 1000)))] in
  request
    (key ← ToString (own (config this) "openaiApiKey");
     Returned (VStr "https://api.openai.com/v1/chat/completions",
               object [("Content-Type", VStr "application/json");
                       ("Authorization", VStr ("Bearer " +:+ key))]))
    payload
    (λ data,
       choices ← get data "choices";
       choice ← get choices "0";
       content ← path choice ["message"; "content"];
       promptTokens ← path data ["usage"; "prompt_tokens"];
       completionTokens ← path data ["usage"; "completion_tokens"];
       totalTokens ← path data ["usage"; "total_tokens"];
       Returned (object [
         ("content", content);
         ("usage", object [("promptTokens", promptTokens);
                           ("completionTokens", completionTokens);
                           ("totalTokens", totalTokens)]);
         ("model", own data "model")]))
    (λ error, Threw (Error ("OpenAI API failed: " +:+ thrown_message error))).

(** The payload of [generateClaude]. *)
Definition claude_payload (this : Provider) (messages options : value) : outcome value :=
  let options := given_options options in
  msgs ← Orchestrator.iterate "messages" messages;
  folded ← claude_messages msgs (VStr EmptyString) [];
  model ← get (config this) "claudeModel";
  maxTokens ← get options "maxTokens";
  let payload : gmap string value := list_to_map [
    ("model", or_else model (VStr "claude-sonnet-4-20250514"));
    ("max_tokens", or_else maxTokens (VNum (num_of_nat 1000)));
    ("temperature", or_else (own options "temperature") (VNum (Fin (7 # 10))));
    ("messages", VArr folded.2)] in
  Returned (VObj (if truthy folded.1 then <["system" := folded.1]> payload else payload)).

(** [generateClaude(messages, options = {})] *)
Definition generateClaude (this : Provider) (messages options : value) : task W value :=
  payload ← lift (claude_payload this messages options);
  request
    (Returned (VStr "https://api.anthropic.com/v1/messages",
               object [("Content-Type", VStr "application/json");
                       ("x-api-key", own (config this) "claudeApiKey");
                       ("anthropic-version", VStr "2023-06-01")]))
    payload
    (λ data,
       content ← get data "content";
       first ← get content "0";
       text ← get first "text";
       promptTokens ← path data ["usage"; "input_tokens"];
       completionTokens ← path data ["usage"; "output_tokens"];
       totalTokens ← plus promptTokens completionTokens;
       Returned (object [
         ("content", text);
         ("usage", object [("promptTokens", promptTokens);
                           ("completionTokens", completionTokens);
                           ("totalTokens", totalTokens)]);
         ("model", own data "model")]))
    (λ error, Threw (Error ("Claude API failed: " +:+ thrown_message error))).

(** The payload of [generateGemini]. *)
Definition gemini_payload (messages options : value) : outcome value :=
  let options := given_options options in
  msgs ← Orchestrator.iterate "messages" messages;
  contents ← gemini_contents msgs [];
  temperature ← get options "temperature";
  Returned (object [
    ("contents", VArr contents);
    ("generationConfig", object [
       ("temperature", or_else temperature (VNum (num_of_nat 0)));
       ("maxOutputTokens", or_else (own options "maxTokens") (VNum (num_of_nat 2048)))])]).

(** [generateGemini(messages, options = {})] *)
Definition generateGemini (this : Provider) (messages options : value) : task W value :=
  payload ← lift (gemini_payload messages options);
  request
    (key ← ToString (own (config this) "geminiApiKey");
     Returned (VStr ("https://generativelanguage.googleapis.com/v1beta/models/"
                     +:+ "gemini-2.5-flash-lite:generateContent?key=" +:+ key),
               object [("Content-Type", VStr "application/json")]))
    payload
    (λ data,
       candidates ← get data "candidates";
       candidate ← get candidates "0";
       parts ← path candidate ["content"; "parts"];
       part ← get parts "0";
       content ← get part "text";
       let usageMetadata := or_else (own data "usageMetadata") (object []) in
       Returned (object [
         ("content", content);
         ("usage", object [
            ("promptTokens", or_else (own usageMetadata "promptTokenCount")
                                     (VNum (num_of_nat 0)));
            ("completionTokens", or_else (own usageMetadata "candidatesTokenCount")
                                         (VNum (num_of_nat 0)));
            ("totalTokens", or_else (own usageMetadata "totalTokenCount")
                                    (VNum (num_of_nat 0)))]);
         ("model", VStr "gemini-2.5-flash-lite")]))
    (λ error,
       if strict_eq_number (thrown_status error) (num_of_nat 400) then
         reason ← path (thrown_data error) ["error"; "message"];
         reason ← ToString (or_else reason (VStr "Bad request"));
         Threw (Error ("Gemini API error: " +:+ reason))
       else if strict_eq_number (thrown_status error) (num_of_nat 401) then
         Threw (Error "Invalid Gemini API key. Check GOOGLE_API_KEY in .env")
       else Threw (Error ("Gemini API failed: " +:+ thrown_message error))).

(** [generateCompletion(messages, options = {})] *)
Definition generateCompletion (this : Provider) (messages options : value) : task W value :=
  let options := given_options options in
  shown ← lift (ToString (provider this));
  if is_string (provider this) "ollama" then generateOllama this messages options
  else if is_string (provider this) "openai" then generateOpenAI this messages options
  else if is_string (provider this) "claude" then generateClaude this messages options
  else if is_string (provider this) "gemini" then generateGemini this messages options
  else lift (Threw (Error ("Unsupported provider: " +:+ shown))).

End Completion.

End LLMProvider.

(** ** agent/orchestrator.js: the turn *)

Module Agent.
Import JS Magento Orchestrator.

(** The line feed of a template literal. *)
Definition nl : string := String "010" EmptyString.

(** [buildSystemPrompt()] *)
Definition systemPrompt : string :=
"You are a helpful AI shopping assistant for an e-commerce store. Your role is to help customers:

1. Find products they're looking for
2. Get detailed product information
3. Add products to their shopping cart
4. View and manage their cart

Available tools:
- search_products: Search the product catalog
- get_product_details: Get details about a specific product
- create_cart: Create a new shopping cart
- add_to_cart: Add products to the cart
- get_cart: View cart contents
- update_cart_item: Update item quantities
- remove_cart_item: Remove items from cart

Guidelines:
- Be friendly, helpful, and conversational
- Always confirm before adding items to cart
- Provide clear product information (price, availability)
- Suggest alternatives if products are out of stock
- Keep responses concise but informative
- Use tools proactively to help the customer

When the user wants to search for products, use search_products.
When they want to add something to cart, use add_to_cart (make sure you have a cartId).
If no cart exists, create one first with create_cart.".

(** The last message of [generateResponseWithTools]. *)
Definition tool_results_prompt (userMessage toolContext : string) : string :=
  "Based on the tool results, provide a helpful response.

User's question: " +:+ String dquote userMessage +:+ String dquote "

Tool Results:
" +:+ toolContext +:+ "

Guidelines:
- Be conversational and natural
- Summarize the key information
- Format product information clearly
- Suggest next steps if appropriate
- Don't just repeat the data, interpret it for the user".

(** A message and the options of a completion request, as the objects the
    provider receives. *)
Definition message_value (m : ChatMessage) : value :=
  object [("role", VStr (role m)); ("content", VStr (content m))].

Definition options_value (o : Options) : value :=
  object [("temperature", VNum (Fin (temperature o)));
          ("maxTokens", VNum (num_of_nat (maxTokens o)))].

(** [msg => ({ role: msg.role, content: msg.content })] *)
Definition role_and_content (msg : value) : outcome value :=
  role ← get msg "role";
  content ← get msg "content";
  Returned (object [("role", role); ("content", content)]).

(** [conversationHistory.slice(-n).map(msg => ...)] *)
Definition recentHistory (n : Z) (conversationHistory : list value) : outcome (list value) :=
  map_outcome role_and_content (SessionManager.Array_slice (- n) conversationHistory).

Section Agent.
Context `{Engine} {W : Type}.

(** [JSON.stringify(v, null, 2)]: a text, or [undefined]. *)
Variable JSON_stringify : value → value.

(** [this.llmProvider.generateCompletion(messages, options)] and
    [this.toolAdapter.executeTool(toolName, params, context)]. *)
Variable llmProvider_generateCompletion : value → value → task W value.
Variable toolAdapter_executeTool : value → value → Context → task W value.

(** The provider as [analyzeIntent] calls it. *)
Definition generateCompletion (messages : list ChatMessage) (options : Options)
  : task W value :=
  llmProvider_generateCompletion (VArr (message_value <$> messages)) (options_value options).

(** One part of [toolContext]. *)
Definition tool_context (r : value) : outcome string :=
  success ← get r "success";
  toolName ← ToString (own r "toolName");
  if truthy success then
    result ← ToString (JSON_stringify (own r "data"));
    Returned ("Tool: " +:+ toolName +:+ nl +:+ "Result: " +:+ result)
  else
    error ← ToString (own r "error");
    Returned ("Tool: " +:+ toolName +:+ nl +:+ "Error: " +:+ error).

(** [generateResponseWithTools(userMessage, toolResults, conversationHistory)] *)
Definition generateResponseWithTools (userMessage : string) (toolResults : list value)
    (conversationHistory : list value) : task W value :=
  toolContext ← lift (
    parts ← map_outcome tool_context toolResults;
    Returned (join (nl +:+ nl) parts));
  recent ← lift (recentHistory 6 conversationHistory);
  llmProvider_generateCompletion
    (VArr ([object [("role", VStr "system"); ("content", VStr systemPrompt)]]
           ++ recent
           ++ [object [("role", VStr "user");
                       ("content", VStr (tool_results_prompt userMessage toolContext))]])%list)
    (object [("temperature", VNum (Fin (7 # 10))); ("maxTokens", VNum (num_of_nat 800))]).

(** [generateDirectResponse(userMessage, conversationHistory)] *)
Definition generateDirectResponse (userMessage : string) (conversationHistory : list value)
  : task W value :=
  recent ← lift (recentHistory 10 conversationHistory);
  llmProvider_generateCompletion
    (VArr ([object [("role", VStr "system"); ("content", VStr systemPrompt)]]
           ++ recent
           ++ [object [("role", VStr "user"); ("content", VStr userMessage)]])%list)
    (object [("temperature", VNum (Fin (7 # 10))); ("maxTokens", VNum (num_of_nat 600))]).

(** The two ways to a response, with the tools used. *)
Definition respond (userMessage : string) (conversationHistory : list value)
    (context : Context) (intent requiresTools : value) : task W (value * list value) :=
  if truthy requiresTools then
    toolResults ← executeTools toolAdapter_executeTool intent context;
    toolsUsed ← lift (map_outcome (λ r, get r "toolName") toolResults);
    response ← generateResponseWithTools userMessage toolResults conversationHistory;
    mret (response, toolsUsed)
  else
    response ← generateDirectResponse userMessage conversationHistory;
    mret (response, []).

(** [processMessage(userMessage, conversationHistory = [], context = {})];
    its [catch] throws again what it caught. *)
Definition processMessage (userMessage : string) (conversationHistory : list value)
    (context : Context) : task W value :=
  intent ← analyzeIntent generateCompletion userMessage conversationHistory;
  type ← lift (get intent "type");
  _ ← lift (ToString type);
  answer ← respond userMessage conversationHistory context intent (own intent "requiresTools");
  content ← lift (get answer.1 "content");
  mret (object [("response", content); ("toolsUsed", VArr answer.2);
                ("intent", own intent "type"); ("usage", own answer.1 "usage")]).

End Agent.

End Agent.

(** ** Conversations, as the providers receive them *)

Module Conversation.
Import JS Orchestrator.

(** A message with the role [system]. *)
Definition is_system (m : ChatMessage) : bool := String.eqb (role m) "system".

(** The messages of a conversation that are not system messages. *)
Definition turns (ms : list ChatMessage) : list ChatMessage :=
  List.filter (λ m, negb (is_system m)) ms.

(** A turn as Claude and as Gemini receive it, and the system message as
    Gemini receives it. *)
Definition claude_turn (m : ChatMessage) : value :=
  object [("role", VStr (if String.eqb (role m) "assistant" then "assistant" else "user"));
          ("content", VStr (content m))].

Definition gemini_turn (m : ChatMessage) : value :=
  object [("role", VStr (if String.eqb (role m) "assistant" then "model" else "user"));
          ("parts", VArr [object [("text", VStr (content m))]])].

Definition gemini_system (m : ChatMessage) : value :=
  object [("role", VStr "user");
          ("parts", VArr [object [("text", VStr (content m +:+ LLMProvider.nl2))]])].

End Conversation.

(** ** tools/adapter.js and built-in/index.js: construction *)

Module ToolSetup.
Import JS Magento MagentoGraphQL.

Section Setup.
Context `{Engine}.
Variable env : gmap string string.

(** The message of the error [require] throws for a module that is not
    there. *)
Variable cannot_find_module : string → string.

(** [new ToolAdapter(config = {})]: [this.mode] and [this.config]. *)
Definition new_ToolAdapter (config : value) : outcome (value * value) :=
  let config := match config with VUndefined => object [] | _ => config end in
  given ← get config "TOOL_MODE";
  let mode := or_else (or_else given (process_env env "TOOL_MODE")) (VStr "built-in") in
  _ ← ToString mode;
  Returned (mode, config).

(** [BuiltInTools.initialize()], after [new BuiltInTools(config = {})]: the
    client of the tools. *)
Definition BuiltInTools_initialize (config : value) : outcome Client :=
  let config := match config with VUndefined => object [] | _ => config end in
  new_MagentoClient env config.

(** [ToolAdapter.initialize()]: the implementation, initialized.  The two
    modes other than ['built-in'] load modules the repository does not have. *)
Definition initialize (adapter : value * value) : outcome Client :=
  let '(mode, config) := adapter in
  if is_string mode "built-in" then BuiltInTools_initialize config
  else if is_string mode "adobe-mcp" then
    Threw (Error (cannot_find_module "./adobe-mcp/client"))
  else if is_string mode "custom-mcp" then
    Threw (Error (cannot_find_module "./custom-mcp/client"))
  else
    shown ← ToString mode;
    Threw (Error ("Unknown tool mode: " +:+ shown)).

End Setup.

End ToolSetup.

(** ** chat/index.js *)

Module Chat.
Import JS Magento.

(** The manager of the module and the outside world: the language model and
    the commerce backend. *)
Definition World (W : Type) : Type := (SessionManager.State * W)%type.

Definition on_store {W A} (m : task SessionManager.State A) : task (World W) A :=
  λ '(st, w), let '(r, st') := m st in (r, (st', w)).

Definition on_world {W A} (m : task W A) : task (World W) A :=
  λ '(st, w), let '(r, w') := m w in (r, (st, w')).

(** ['guest'] and ['logged-in'] *)
Definition userType_value (u : SessionManager.UserType) : value :=
  match u with
  | SessionManager.guest => VStr "guest"
  | SessionManager.logged_in => VStr "logged-in"
  end.

(** [message.substring(0, 50)] *)
Definition String_substring (what : string) (text : value) : outcome unit :=
  match text with
  | VStr _ => Returned ()
  | VUndefined | VNull => Threw (TypeError (cannot_read text "substring"))
  | _ => Threw (TypeError (what +:+ ".substring is not a function"))
  end.

(** The answers of the action. *)
Definition bad_request : value :=
  object [("statusCode", VNum (num_of_nat 400));
          ("body", object [("success", VBool false);
                           ("error", VStr ("Parameter " +:+ String dquote "message"
                                           +:+ String dquote " is required"))])].

Definition ok (result : value) (session : SessionManager.Session) : value :=
  object [("statusCode", VNum (num_of_nat 200));
          ("body", object [
             ("success", VBool true);
             ("response", own result "response");
             ("sessionId", VStr (SessionManager.sessionId session));
             ("userType", userType_value (SessionManager.userType session));
             ("toolsUsed", own result "toolsUsed");
             ("intent", own result "intent");
             ("cartId", SessionManager.cartId session)])].

Section Action.
Context `{Engine} {W : Type}.

(** [process.env], the clock, the identifiers and the dates of the session
    manager. *)
Variable env : gmap string string.
Variable clock : nat → SessionManager.Instant.
Variable uuidv4 : nat → string.

(** What the engine and the loader provide: [JSON.stringify(v, null, 2)],
    the message for a module that is not there, [error.stack]. *)
Variable JSON_stringify : value → value.
Variable cannot_find_module : string → string.
Variable stack : exn → value.

(** The wire to the language model and to the backend ([axios.post]), the
    [+] of the engine, and the texts of [queries.js]. *)
Variable axios_post : value → value → value → W → (MagentoGraphQL.AxiosError + value) * W.
Variable plus : value → value → outcome value.
Variable source : document → string.

(** The configuration [main] hands to [new AgentOrchestrator]. *)
Definition agent_config (params : value) : value :=
  let setting k := (k, or_else (own params k) (MagentoGraphQL.process_env env k)) in
  object [
    setting "TOOL_MODE";
    setting "MAGENTO_GRAPHQL_URL";
    setting "MAGENTO_API_TOKEN";
    setting "LLM_PROVIDER";
    setting "OLLAMA_BASE_URL";
    setting "OLLAMA_MODEL";
    setting "OPENAI_API_KEY";
    setting "OPENAI_MODEL";
    setting "CLAUDE_API_KEY";
    setting "CLAUDE_MODEL"].

(** [new AgentOrchestrator(config = {})] and [agent.initialize()]: the
    provider and the client of the tools. *)
Definition new_agent (config : value)
  : outcome (LLMProvider.Provider * MagentoGraphQL.Client) :=
  let config := match config with VUndefined => object [] | _ => config end in
  llmProvider ← LLMProvider.createLLMProvider env config;
  toolAdapter ← ToolSetup.new_ToolAdapter env config;
  client ← ToolSetup.initialize env cannot_find_module toolAdapter;
  Returned (llmProvider, client).

(** [agent.processMessage(message, conversationHistory, context)] *)
Definition agent_processMessage (agent : LLMProvider.Provider * MagentoGraphQL.Client)
  : string → list value → Context → task W value :=
  Agent.processMessage JSON_stringify
    (LLMProvider.generateCompletion axios_post plus agent.1)
    (ToolAdapter.executeTool
       (Some (Some (MagentoGraphQL.graphql_client axios_post source agent.2)))).

(** The [try] block of [main]. *)
Definition turn (params : value) : task (World W) value :=
  message ← lift (get params "message");
  let sessionId := own params "sessionId" in
  let customerToken := own params "customerToken" in
  let cartId := own params "cartId" in
  if negb (truthy message) then mret bad_request
  else
    _ ← lift (String_substring "message" message);
    session ← on_store (SessionManager.getOrCreateSession clock uuidv4
                 {| SessionManager.params_sessionId := sessionId;
                    SessionManager.params_customerToken := customerToken;
                    SessionManager.params_cartId := cartId |});
    conversationHistory ←
      on_store (SessionManager.getHistory (SessionManager.sessionId session) None);
    agent ← lift (new_agent (agent_config params));
    result ← on_world (agent_processMessage agent
                 match message with VStr text => text | _ => EmptyString end
                 conversationHistory
                 {| Magento.customerToken := SessionManager.customerToken session;
                    Magento.cartId := SessionManager.cartId session |});
    _ ← on_store (SessionManager.addMessage clock (SessionManager.sessionId session)
                    (VStr "user") message VUndefined);
    _ ← on_store (SessionManager.addMessage clock (SessionManager.sessionId session)
                    (VStr "assistant") (own result "response")
                    (object [("toolsUsed", own result "toolsUsed");
                             ("intent", own result "intent")]));
    mret (ok result session).

(** The [catch] block of [main]. *)
Definition failed (error : exn) : value :=
  object [("statusCode", VNum (num_of_nat 500));
          ("body", object [
             ("success", VBool false);
             ("error", VStr (message error));
             ("stack",
              if MagentoGraphQL.is_string (MagentoGraphQL.process_env env "NODE_ENV")
                   "development"
              then stack error else VUndefined)])].

(** [main(params)] *)
Definition main (params : value) (world : World W) : value * World W :=
  match turn params world with
  | (Returned answer, world') => (answer, world')
  | (Threw error, world') => (failed error, world')
  end.

End Action.

End Chat.

(** More of the outside for the runs: a backend short of stock, the wire
    under the GraphQL client. *)
Module Shop.
Import JS Magento.

(** A language model that answers without a [content]. *)
Definition speechless_model {W}
  : list Orchestrator.ChatMessage → Orchestrator.Options → task W value :=
  λ messages options, mret (object [("model", VStr "llama3.2")]).

(** A backend that cannot add to a cart and finds no product. *)
Definition out_of_stock : value :=
  object [("addProductsToCart", object [
    ("user_errors", VArr [
       object [("code", VStr "INSUFFICIENT_STOCK");
               ("message", VStr "The requested qty is not available")];
       object [("code", VStr "UNDEFINED");
               ("message", VStr "Could not add the product to the cart")]]);
    ("cart", VNull)])].

Definition empty_shelf {W} : MagentoClient W :=
  {| query := λ doc variables token,
       match doc with
       | ADD_PRODUCTS_TO_CART_MUTATION => mret out_of_stock
       | GET_PRODUCT_DETAILS_QUERY => mret (object [("products", object [("items", VArr [])])])
       | _ => mret (object [])
       end |}.

Definition shopper : Context :=
  {| customerToken := VStr "customer-token-1"; cartId := VStr "cart-1" |}.

(** The GraphQL client of a shop, and three servers: one that is down, one
    that answers every request with GraphQL errors, one that answers with
    empty data. *)
Definition shop_client : MagentoGraphQL.Client :=
  {| MagentoGraphQL.graphqlUrl := VStr "https://shop.example/graphql";
     MagentoGraphQL.apiToken := VStr "api-token-1";
     MagentoGraphQL.mode := "paas" |}.

Definition server_down
  : value → value → value → unit → (MagentoGraphQL.AxiosError + value) * unit :=
  λ url data headers w,
    (inl {| MagentoGraphQL.axios_message := "connect ECONNREFUSED 127.0.0.1:443";
            MagentoGraphQL.axios_code := VStr "ECONNREFUSED";
            MagentoGraphQL.axios_status := VUndefined;
            MagentoGraphQL.axios_data := VUndefined |}, w).

Definition server_refusing
  : value → value → value → unit → (MagentoGraphQL.AxiosError + value) * unit :=
  λ url data headers w,
    (inr (object [("errors", VArr [
            object [("message", VStr "Could not find a cart with ID 7")];
            object [("message", VStr "Internal server error")]])]), w).

Definition server_idle
  : value → value → value → unit → (MagentoGraphQL.AxiosError + value) * unit :=
  λ url data headers w, (inr (object [("data", object [])]), w).

(** The documents of [queries.js], by their operation names. *)
Definition documents (doc : document) : string :=
  match doc with
  | PRODUCT_SEARCH_QUERY => "query ProductSearch"
  | GET_PRODUCT_DETAILS_QUERY => "query GetProductDetails"
  | CREATE_EMPTY_CART_MUTATION => "mutation CreateEmptyCart"
  | ADD_PRODUCTS_TO_CART_MUTATION => "mutation AddProductsToCart"
  | GET_CART_QUERY => "query GetCart"
  | UPDATE_CART_ITEMS_MUTATION => "mutation UpdateCartItems"
  | REMOVE_ITEM_FROM_CART_MUTATION => "mutation RemoveItemFromCart"
  | GET_CUSTOMER_CART_QUERY => "query GetCustomerCart"
  end.


(** A language model that always plans to fill a new cart, in JSON, in JSON. *)
Definition planning_model : value → value → task unit value :=
  λ messages options,
    mret (object [("content", VStr (quoted
      "{`type`:`add_to_cart`,`requiresTools`:true,`suggestedTools`:[`create_cart`,`add_to_cart`],`parameters`:{`sku`:`SHIRT-RED-M`}}"))]).

(** One server for the model and the backend: it greets, and has no data. *)
Definition shop_server
  : value → value → value → unit → (MagentoGraphQL.AxiosError + value) * unit :=
  λ url data headers w,
    (inr (object [("message", object [("content", VStr "Hello! How can I help you today?")]);
                  ("model", VStr "llama3.2");
                  ("data", object [])]), w).

(** [+] on two finite numbers. *)
Definition plus (a b : value) : outcome value :=
  match a, b with
  | VNum (Fin x), VNum (Fin y) => Returned (VNum (Fin (x + y)))
  | _, _ => Returned (VNum NaN)
  end.

(** A conversation with a second system message in its middle. *)
Definition briefing : list Orchestrator.ChatMessage := [
  {| Orchestrator.role := "system"; Orchestrator.content := "You sell shirts." |};
  {| Orchestrator.role := "user"; Orchestrator.content := "hello" |};
  {| Orchestrator.role := "system"; Orchestrator.content := "Answer in one line." |};
  {| Orchestrator.role := "assistant"; Orchestrator.content := "Hello! How can I help?" |}].

(** The rest of the outside of the chat action. *)
Definition shop_env : gmap string string :=
  {["MAGENTO_GRAPHQL_URL" := "https://shop.example/graphql"]}.

Definition JSON_stringify (v : value) : value := VStr "{}".

Definition cannot_find_module (path : string) : string :=
  "Cannot find module '" +:+ path +:+ "'".

Definition stack (error : exn) : value := VUndefined.

Definition chat : value → Chat.World unit → value * Chat.World unit :=
  Chat.main (H := Json.engine) shop_env Doubles.clock Doubles.uuidv4 JSON_stringify
    cannot_find_module stack shop_server plus documents.

End Shop.

(** * Statements *)

Module ModelChecks.
Import JS Json.

Example parse_intent :
  parse (quoted
    "{`type`:`greeting`,`requiresTools`:true,`suggestedTools`:[],`parameters`:{}}")
  = Returned (object [
      ("type", VStr "greeting"); ("requiresTools", VBool true);
      ("suggestedTools", VArr []); ("parameters", object [])]).
Proof. vm_compute. reflexivity. Qed.

Example parse_values :
  parse (quoted " { `a` : [1, -2.5e1, `x\nA`, null, false] } ")
  = Returned (object [
      ("a", VArr [VNum (Fin 1); VNum (Fin (-25));
                  VStr (String "x" (String "010" "A")); VNull; VBool false])]).
Proof. vm_compute. reflexivity. Qed.

Example parse_bare_words : parse "{oops}" = Threw (SyntaxError "Unexpected token in JSON").
Proof. vm_compute. reflexivity. Qed.

Example match_braces_greedy :
  match_braces "Sure! {a} and {b} done" = Some "{a} and {b}".
Proof. reflexivity. Qed.

Example match_braces_backwards : match_braces "} {" = None.
Proof. reflexivity. Qed.

Example decimal_and_index :
  decimal 0 = "0" ∧ decimal 120 = "120" ∧
  index_of_key "12" = Some 12%nat ∧ index_of_key "012" = None.
Proof. repeat split; reflexivity. Qed.

Example lower_case_and_includes :
  toLowerCase "Show ME" = "show me" ∧ includes "show me red" "me r" = true ∧
  includes "abc" "" = true ∧ includes "" "a" = false.
Proof. repeat split; reflexivity. Qed.

End ModelChecks.

(** ** Texts: [includes] and the pattern of the intent reply *)

Module StringFacts.
Import JS.

Section Includes.
Implicit Types (s t u needle pre post : string) (c : ascii).

Lemma prefix_app needle s :
  String.prefix needle s = true ↔ ∃ post, s = needle +:+ post.
Proof.
  revert s. induction needle as [|c needle IH]; intros s.
  - split; [intros _; exists s; reflexivity|intros _; by destruct s].
  - destruct s as [|d s]; simpl.
    + split; [done|]. by intros [post Hpost].
    + change (String c needle +:+ ?x) with (String c (needle +:+ x)).
      destruct (ascii_dec c d) as [->|Hne].
      * rewrite IH. split; intros [post Hpost]; exists post; congruence.
      * split; [done|]. intros [post Hpost]. congruence.
Qed.

(** [includes] finds exactly the texts that occur in [s]. *)
Lemma includes_occurs s needle :
  includes s needle = true ↔ ∃ pre post, s = pre +:+ needle +:+ post.
Proof.
  induction s as [|c s IH].
  - cbn [includes]. rewrite orb_false_r, prefix_app. split.
    + intros [post Hpost]. exists "", post. exact Hpost.
    + intros (pre & post & Heq). destruct pre; [by exists post|done].
  - cbn [includes]. rewrite orb_true_iff, prefix_app, IH. split.
    + intros [[post Hpost]|(pre & post & ->)]; [exists "", post; exact Hpost|].
      exists (String c pre), post. reflexivity.
    + intros (pre & post & Heq). destruct pre as [|d pre]; [left; by exists post|].
      right. exists pre, post.
      change (String d pre +:+ ?x) with (String d (pre +:+ x)) in Heq. congruence.
Qed.
End Includes.

Section Braces.
Implicit Types (s t u m pre post body : string) (c : ascii).

Lemma prefix_char c s :
  String.prefix (String c EmptyString) s =
  match s with String d _ => Ascii.eqb c d | EmptyString => false end.
Proof.
  destruct s as [|d s]; [done|]. simpl.
  destruct (ascii_dec c d) as [->|Hne].
  - rewrite Ascii.eqb_refl. by destruct s.
  - by apply Ascii.eqb_neq in Hne as ->.
Qed.

Lemma includes_char c s :
  includes s (String c EmptyString) =
  match s with
  | String d s' => Ascii.eqb c d || includes s' (String c EmptyString)
  | EmptyString => false
  end.
Proof. destruct s as [|d s]; [done|]. cbn [includes]. by rewrite prefix_char. Qed.

Lemma from_open_Some s t :
  from_open s = Some t →
  ∃ pre rest, s = pre +:+ t ∧ t = String "{" rest ∧ includes pre "{" = false.
Proof.
  revert t. induction s as [|c s IH]; intros t; [done|]. cbn [from_open].
  destruct (Ascii.eqb c "{") eqn:Hc.
  - intros [= <-]. apply Ascii.eqb_eq in Hc as ->. by exists "", s.
  - intros (pre & rest & -> & -> & Hpre)%IH. exists (String c pre), rest.
    split; [done|]. split; [done|]. rewrite includes_char, Hpre.
    rewrite Ascii.eqb_sym in Hc. by rewrite Hc.
Qed.

Lemma from_open_None s : from_open s = None → includes s "{" = false.
Proof.
  induction s as [|c s IH]; [done|]. cbn [from_open].
  destruct (Ascii.eqb c "{") eqn:Hc; [done|]. intros Hs%IH.
  rewrite includes_char, Hs. rewrite Ascii.eqb_sym in Hc. by rewrite Hc.
Qed.

Lemma upto_last_close_None s : upto_last_close s = None → includes s "}" = false.
Proof.
  induction s as [|c s IH]; [done|]. cbn [upto_last_close].
  destruct (upto_last_close s); [done|].
  destruct (Ascii.eqb c "}") eqn:Hc; [done|]. intros _.
  rewrite includes_char, IH by done. rewrite Ascii.eqb_sym in Hc. by rewrite Hc.
Qed.

Lemma upto_last_close_Some s m :
  upto_last_close s = Some m →
  ∃ body post, s = m +:+ post ∧ m = body +:+ "}" ∧ includes post "}" = false.
Proof.
  revert m. induction s as [|c s IH]; intros m; [done|]. simpl.
  destruct (upto_last_close s) as [t|] eqn:Hs.
  - intros [= <-]. destruct (IH t eq_refl) as (body & post & -> & -> & Hpost).
    by exists (String c body), post.
  - destruct (Ascii.eqb c "}") eqn:Hc; [|done]. intros [= <-].
    apply Ascii.eqb_eq in Hc as ->. exists "", s. split; [done|]. split; [done|].
    by apply upto_last_close_None.
Qed.

(** The region the pattern [/\{[\s\S]*\}/] matches: it starts at the first
    opening brace of the text and ends at its last closing brace. *)
Lemma match_braces_Some s m :
  match_braces s = Some m →
  ∃ pre body post,
    s = pre +:+ m +:+ post ∧ m = "{" +:+ body +:+ "}" ∧
    includes pre "{" = false ∧ includes post "}" = false.
Proof.
  unfold match_braces. destruct (from_open s) as [t|] eqn:Ht; [|done]. simpl.
  apply from_open_Some in Ht as (pre & rest & -> & -> & Hpre). simpl.
  destruct (upto_last_close rest) as [u|] eqn:Hu; [|done]. intros [= <-].
  apply upto_last_close_Some in Hu as (body & post & -> & -> & Hpost).
  by exists pre, body, post.
Qed.

Lemma append_assoc s t u : (s +:+ t) +:+ u = s +:+ (t +:+ u).
Proof.
  induction s as [|c s IH]; [done|].
  change ((String c s +:+ t) +:+ u) with (String c ((s +:+ t) +:+ u)).
  change (String c s +:+ (t +:+ u)) with (String c (s +:+ (t +:+ u))).
  by rewrite IH.
Qed.

Lemma upto_last_close_app s t : is_Some (upto_last_close (s +:+ String "}" t)).
Proof.
  induction s as [|c s [u Hu]].
  - change ("" +:+ ?x) with x. cbn [upto_last_close]. rewrite Ascii.eqb_refl.
    by destruct (upto_last_close t).
  - change (String c s +:+ ?x) with (String c (s +:+ x)). cbn [upto_last_close].
    by rewrite Hu.
Qed.

(** It matches whenever a closing brace follows an opening one. *)
Lemma match_braces_is_Some pre body post :
  is_Some (match_braces (pre +:+ "{" +:+ body +:+ "}" +:+ post)).
Proof.
  change ("{" +:+ body +:+ "}" +:+ post) with (String "{" (body +:+ String "}" post)).
  unfold match_braces. induction pre as [|c pre IH].
  - change (from_open _) with (Some (String "{" (body +:+ String "}" post))).
    cbn [mbind option_bind upto_last_close].
    destruct (upto_last_close_app body post) as [u ->]. by eexists.
  - change (String c pre +:+ ?x) with (String c (pre +:+ x)). cbn [from_open].
    destruct (Ascii.eqb c "{"); [|done]. cbn [mbind option_bind upto_last_close].
    replace (pre +:+ String "{" (body +:+ String "}" post))
      with ((pre +:+ String "{" body) +:+ String "}" post).
    + destruct (upto_last_close_app (pre +:+ String "{" body) post) as [u Hu].
      rewrite Hu. by eexists.
    + apply append_assoc.
Qed.
End Braces.

End StringFacts.

(** ** The session store *)

Module SessionManagerFacts.
Import JS SessionManager.

Section Slices.
Context {A : Type}.
Implicit Types (l h : list A) (m : A).

Lemma Array_slice_last (n : nat) l :
  (0 < n)%nat → Array_slice (- Z.of_nat n) l = drop (length l - n) l.
Proof.
  intros Hn. unfold Array_slice.
  replace (- Z.of_nat n <? 0)%Z with true by (symmetry; apply Z.ltb_lt; lia).
  f_equal. lia.
Qed.

Lemma Array_slice_from (n : nat) l :
  Array_slice (Z.of_nat n) l = drop n l.
Proof.
  unfold Array_slice.
  replace (Z.of_nat n <? 0)%Z with false by (symmetry; apply Z.ltb_ge; lia).
  destruct (decide (n ≤ length l)%nat).
  - f_equal. lia.
  - rewrite !drop_ge by lia. reflexivity.
Qed.

Lemma Array_slice_zero l : Array_slice 0 l = l.
Proof. apply (Array_slice_from 0). Qed.

Lemma length_Array_slice_last (n : nat) l :
  (0 < n)%nat → length (Array_slice (- Z.of_nat n) l) = (n `min` length l)%nat.
Proof. intros Hn. rewrite Array_slice_last by done. rewrite length_drop. lia. Qed.

Lemma push_bounded_drop h m : push_bounded h m = drop (length h - 49) (h ++ [m]).
Proof.
  unfold push_bounded; cbv zeta. destruct (Nat.ltb_spec 50 (length (h ++ [m]))) as [Hlt|Hge].
  - change (-50)%Z with (- Z.of_nat 50)%Z. rewrite Array_slice_last by lia.
    f_equal. rewrite length_app in *. simpl in *. lia.
  - rewrite length_app in Hge. simpl in Hge.
    replace (length h - 49)%nat with 0%nat by lia. reflexivity.
Qed.

Lemma length_push_bounded h m : (length (push_bounded h m) ≤ 50)%nat.
Proof.
  unfold push_bounded; cbv zeta.
  destruct (Nat.ltb_spec 50 (length (h ++ [m]))) as [Hlt|Hge]; [|done].
  change (-50)%Z with (- Z.of_nat 50)%Z. rewrite length_Array_slice_last by lia. lia.
Qed.

Lemma push_bounded_full h m : length h = 50%nat → push_bounded h m = (tail h ++ [m])%list.
Proof.
  intros Hlen. rewrite push_bounded_drop, Hlen. simpl.
  destruct h; [discriminate|]. reflexivity.
Qed.

Lemma push_bounded_room h m : (length h < 50)%nat → push_bounded h m = (h ++ [m])%list.
Proof.
  intros Hlen. rewrite push_bounded_drop.
  replace (length h - 49)%nat with 0%nat by lia. reflexivity.
Qed.
End Slices.


Section Store.
Context `{Engine}.
Variable clock : nat → Instant.
Variable uuidv4 : nat → string.
Variable Date_parse : string → option Z.

Hypothesis uuidv4_inj : ∀ i j, uuidv4 i = uuidv4 j → i = j.
Hypothesis uuidv4_nonempty : ∀ k, uuidv4 k ≠ "".

#[local] Abbreviation saveSession := (saveSession clock).
#[local] Abbreviation createSession := (createSession clock uuidv4).
#[local] Abbreviation getOrCreateSession := (getOrCreateSession clock uuidv4).
#[local] Abbreviation addMessage := (addMessage clock).
#[local] Abbreviation updateCartId := (updateCartId clock).
#[local] Abbreviation clearHistory := (clearHistory clock).
#[local] Abbreviation cleanupOldSessions := (cleanupOldSessions clock Date_parse).
#[local] Abbreviation after := (after clock uuidv4 Date_parse).
#[local] Abbreviation reachable := (reachable clock uuidv4 Date_parse).
#[local] Abbreviation invariant := (invariant uuidv4).
#[local] Abbreviation well_formed := (well_formed uuidv4).
#[local] Abbreviation saved st session := (touch (iso (clock (dates st))) session).

(** *** The calls, as changes of the store *)

Lemma saveSession_eq session st :
  saveSession session st =
  (Returned (saved st session),
   {| sessions := <[sessionId session := saved st session]> (sessions st);
      dates := S (dates st); uuids := uuids st |}).
Proof. reflexivity. Qed.

Lemma createSession_eq token cart st :
  createSession token cart st =
  let session := {|
    sessionId := uuidv4 (uuids st);
    userType := if truthy token then logged_in else guest;
    customerToken := or_else token VNull;
    cartId := or_else cart VNull;
    conversationHistory := [];
    metadata := {| createdAt := iso (clock (dates st));
                   lastActivity := iso (clock (S (S (dates st)))) |} |} in
  (Returned session,
   {| sessions := <[uuidv4 (uuids st) := session]> (sessions st);
      dates := S (S (S (dates st))); uuids := S (uuids st) |}).
Proof. reflexivity. Qed.

Lemma getOrCreateSession_eq params st :
  getOrCreateSession params st =
  match (if truthy (params_sessionId params)
         then match params_sessionId params with
              | VStr id => sessions st !! id
              | _ => None
              end
         else None) with
  | Some session =>
      if truthy (params_customerToken params) && negb (truthy (customerToken session))
      then saveSession (upgrade (params_customerToken params) session) st
      else (Returned session, st)
  | None => createSession (params_customerToken params) (params_cartId params) st
  end.
Proof.
  unfold SessionManager.getOrCreateSession, loadSession, mbind, task_bind.
  destruct (truthy (params_sessionId params)); [|reflexivity].
  destruct (match params_sessionId params with VStr id => _ | _ => None end);
    [|reflexivity].
  destruct (truthy (params_customerToken params) && negb (truthy (customerToken s)));
    reflexivity.
Qed.

Lemma addMessage_eq id role content metadata st :
  addMessage id role content metadata st =
  match sessions st !! id with
  | None => (Threw (Error ("Session not found: " +:+ id)), st)
  | Some session =>
      let message := VObj (spread metadata ∪
        list_to_map [("role", role); ("content", content);
                     ("timestamp", VStr (iso (clock (dates st))))]) in
      let session' :=
        touch (iso (clock (S (dates st))))
          (set_history (push_bounded (conversationHistory session) message) session) in
      (Returned message,
       {| sessions := <[sessionId session := session']> (sessions st);
          dates := S (S (dates st)); uuids := uuids st |})
  end.
Proof.
  unfold SessionManager.addMessage, loadSession, mbind, task_bind.
  destruct (sessions st !! id); reflexivity.
Qed.

Lemma getHistory_eq id limit st :
  getHistory id limit st =
  (Returned match sessions st !! id with
            | None => []
            | Some session => Array_slice (- default 10%Z limit) (conversationHistory session)
            end, st).
Proof.
  unfold getHistory, loadSession, mbind, task_bind.
  destruct (sessions st !! id); reflexivity.
Qed.

Lemma updateCartId_eq id cart st :
  updateCartId id cart st =
  match sessions st !! id with
  | None => (Threw (Error ("Session not found: " +:+ id)), st)
  | Some session =>
      (_ ← ToString cart; Returned (),
       {| sessions := <[sessionId session := saved st (set_cartId cart session)]> (sessions st);
          dates := S (dates st); uuids := uuids st |})
  end.
Proof.
  unfold SessionManager.updateCartId, loadSession, mbind, task_bind.
  destruct (sessions st !! id); [|reflexivity].
  rewrite saveSession_eq. unfold lift. destruct (ToString cart); reflexivity.
Qed.

Lemma clearHistory_eq id st :
  clearHistory id st =
  match sessions st !! id with
  | None => (Returned (), st)
  | Some session =>
      (Returned (),
       {| sessions := <[sessionId session := saved st (set_history [] session)]> (sessions st);
          dates := S (dates st); uuids := uuids st |})
  end.
Proof.
  unfold SessionManager.clearHistory, loadSession, mbind, task_bind.
  destruct (sessions st !! id); reflexivity.
Qed.

(** *** The invariant *)

Lemma well_formed_mono n n' id session :
  (n ≤ n')%nat → well_formed n id session → well_formed n' id session.
Proof.
  intros Hle [Hkey (k & Hk & Hid) Htoken Hhist].
  split; [done| |done|done]. exists k. split; [lia|done].
Qed.

Lemma invariant_insert sessions0 d d' n n' session :
  (n ≤ n')%nat →
  invariant {| sessions := sessions0; dates := d; uuids := n |} →
  well_formed n' (sessionId session) session →
  invariant {| sessions := <[sessionId session := session]> sessions0;
               dates := d'; uuids := n' |}.
Proof.
  intros Hle Hinv Hwf id s. simpl. rewrite lookup_insert.
  case_decide as Hid.
  - intros [= <-]. by subst id.
  - intros Hs. eapply well_formed_mono; [exact Hle|]. by apply (Hinv id s).
Qed.

Lemma invariant_state st : invariant st →
  invariant {| sessions := sessions st; dates := dates st; uuids := uuids st |}.
Proof. by destruct st. Qed.

Lemma well_formed_touch n id t session :
  well_formed n id session → well_formed n id (touch t session).
Proof. intros [? ? ? ?]. by split. Qed.

Lemma invariant_after c st : invariant st → invariant (after c st).
Proof.
  intros Hinv. destruct c as [params|id role content metadata|id limit|id cart|id|id|hours];
    unfold SessionManager.after.
  - rewrite getOrCreateSession_eq.
    destruct (if truthy (params_sessionId params) then _ else None) as [session|] eqn:Hload.
    + destruct (truthy (params_customerToken params) && negb (truthy (customerToken session)))
        eqn:Hup; [|done].
      assert (∃ id, sessions st !! id = Some session) as [id Hid].
      { destruct (truthy (params_sessionId params)); [|done].
        destruct (params_sessionId params); try done. by eexists. }
      destruct (Hinv _ _ Hid) as [Hkey Hdrawn Htoken Hhist].
      apply andb_prop in Hup as [Htok _].
      rewrite saveSession_eq. simpl.
      apply (invariant_insert _ (dates st) _ (uuids st) _ (saved st (upgrade _ session)));
        [done|by apply invariant_state|].
      split; simpl; [done|by rewrite Hkey|done|done].
    + rewrite createSession_eq. cbv zeta. simpl.
      match goal with |- invariant {| sessions := <[_ := ?s]> _; dates := _; uuids := _ |} =>
        apply (invariant_insert _ (dates st) _ (uuids st) _ s) end;
        [lia|by apply invariant_state|].
      split; simpl.
      * done.
      * exists (uuids st). split; [lia|done].
      * unfold or_else.
        destruct (truthy (params_customerToken params)) eqn:Ht; [by rewrite Ht|].
        simpl. split; discriminate.
      * lia.
  - rewrite addMessage_eq. destruct (sessions st !! id) as [session|] eqn:Hid; [|done].
    destruct (Hinv _ _ Hid) as [Hkey Hdrawn Htoken Hhist]. simpl.
    apply (invariant_insert _ (dates st) _ (uuids st) _ (touch _ (set_history _ session)));
      [done|by apply invariant_state|].
    split; simpl; [done|by rewrite Hkey|done|apply length_push_bounded].
  - by rewrite getHistory_eq.
  - rewrite updateCartId_eq. destruct (sessions st !! id) as [session|] eqn:Hid; [|done].
    destruct (Hinv _ _ Hid) as [Hkey Hdrawn Htoken Hhist]. simpl.
    apply (invariant_insert _ (dates st) _ (uuids st) _ (saved st (set_cartId _ session)));
      [done|by apply invariant_state|].
    split; simpl; [done|by rewrite Hkey|done|done].
  - rewrite clearHistory_eq. destruct (sessions st !! id) as [session|] eqn:Hid; [|done].
    destruct (Hinv _ _ Hid) as [Hkey Hdrawn Htoken Hhist]. simpl.
    apply (invariant_insert _ (dates st) _ (uuids st) _ (saved st (set_history _ session)));
      [done|by apply invariant_state|].
    split; simpl; [done|by rewrite Hkey|done|lia].
  - intros id' s. simpl. rewrite lookup_delete. case_decide; [done|]. apply Hinv.
  - intros id' s. simpl. intros [Hs _]%map_lookup_filter_Some. by apply Hinv.
Qed.

Lemma reachable_invariant st : reachable st → invariant st.
Proof.
  induction 1 as [|c st _ IH]; [|by apply invariant_after].
  intros id s. simpl. by rewrite lookup_empty.
Qed.


(** *** What the calls guarantee *)

(** C3.  An append to a live session returns the message and leaves the
    session with at most 50 messages: the history it had with the message at
    its end, less its oldest entry when it already held 50.  The bound is
    applied to the stored history by the append itself: a read afterwards
    returns a slice of that stored history and leaves the store as it is. *)
Theorem addMessage_keeps_last_50 st id role content metadata session :
  reachable st → sessions st !! id = Some session →
  ∃ message st' session',
    addMessage id role content metadata st = (Returned message, st') ∧
    sessions st' !! id = Some session' ∧
    (length (conversationHistory session') ≤ 50)%nat ∧
    (length (conversationHistory session) = 50%nat →
       conversationHistory session' = (tail (conversationHistory session) ++ [message])%list) ∧
    ((length (conversationHistory session) < 50)%nat →
       conversationHistory session' = (conversationHistory session ++ [message])%list) ∧
    (∀ limit, getHistory id limit st' =
       (Returned (Array_slice (- default 10%Z limit) (conversationHistory session')), st')).
Proof.
  intros Hreach Hid.
  destruct (reachable_invariant _ Hreach _ _ Hid) as [Hkey _ _ _].
  rewrite addMessage_eq, Hid. cbv zeta. rewrite Hkey.
  eexists _, _, _. split; [reflexivity|]. simpl.
  split; [apply lookup_insert_eq|]. simpl.
  split; [apply length_push_bounded|].
  split; [apply push_bounded_full|].
  split; [apply push_bounded_room|].
  intros limit. rewrite getHistory_eq. simpl. by rewrite lookup_insert_eq.
Qed.

Lemma drawn_truthy st id session :
  invariant st → sessions st !! id = Some session → truthy (VStr id) = true.
Proof.
  intros Hinv Hid. destruct (Hinv _ _ Hid) as [_ (k & _ & ->) _ _].
  simpl. apply negb_true_iff, String.eqb_neq, uuidv4_nonempty.
Qed.

Lemma drawn_not_next st id session :
  invariant st → sessions st !! id = Some session → uuidv4 (uuids st) ≠ id.
Proof.
  intros Hinv Hid. destruct (Hinv _ _ Hid) as [_ (k & Hk & ->) _ _].
  intros Heq%uuidv4_inj. lia.
Qed.

(** C4.  A session that is logged in stays so.  [getOrCreateSession] on its
    identifier, with any token or none, returns it unchanged and leaves the
    store unchanged; and after any call on the store the session, unless the
    call deleted it, is still logged in and holds the token it held. *)
Theorem logged_in_is_permanent st id session :
  reachable st → sessions st !! id = Some session → userType session = logged_in →
  (∀ token cart,
     getOrCreateSession {| params_sessionId := VStr id; params_customerToken := token;
                           params_cartId := cart |} st = (Returned session, st)) ∧
  (∀ c, match sessions (after c st) !! id with
        | Some session' =>
            userType session' = logged_in ∧ customerToken session' = customerToken session
        | None => c = DeleteSession id ∨ ∃ hours, c = CleanupOldSessions hours
        end).
Proof.
  intros Hinv%reachable_invariant Hid Hin.
  pose proof (drawn_truthy _ _ _ Hinv Hid) as Htruthy.
  destruct (Hinv _ _ Hid) as [Hkey Hdrawn Htoken Hhist].
  apply Htoken in Hin as Htok.
  split.
  - intros token cart. rewrite getOrCreateSession_eq. simpl params_sessionId.
    rewrite Htruthy, Hid. simpl. rewrite Htok. by rewrite andb_false_r.
  - intros c.
    destruct c as [params|id' role content metadata|id' limit|id' cart|id'|id'|hours];
      unfold SessionManager.after.
    + rewrite getOrCreateSession_eq.
      destruct (if truthy (params_sessionId params) then _ else None) as [s|] eqn:Hload.
      * assert (∃ id', sessions st !! id' = Some s) as [id' Hid'].
        { destruct (truthy (params_sessionId params)); [|done].
          destruct (params_sessionId params); try done. by eexists. }
        destruct (truthy (params_customerToken params) && negb (truthy (customerToken s)))
          eqn:Hup; simpl; [|by rewrite Hid].
        apply andb_prop in Hup as [_ Hfalsy%negb_true_iff].
        destruct (Hinv _ _ Hid') as [Hkey' _ _ _]. rewrite Hkey'.
        rewrite lookup_insert_ne; [by rewrite Hid|].
        intros ->. congruence.
      * rewrite createSession_eq. cbv zeta. simpl.
        rewrite lookup_insert_ne; [by rewrite Hid|]. by eapply drawn_not_next.
    + rewrite addMessage_eq. destruct (sessions st !! id') as [s|] eqn:Hid'; simpl;
        [|by rewrite Hid].
      destruct (Hinv _ _ Hid') as [Hkey' _ _ _]. rewrite Hkey'.
      rewrite lookup_insert. case_decide as Heq; [|by rewrite Hid].
      subst id'. simpl. by replace s with session by congruence.
    + rewrite getHistory_eq. simpl. by rewrite Hid.
    + rewrite updateCartId_eq. destruct (sessions st !! id') as [s|] eqn:Hid'; simpl;
        [|by rewrite Hid].
      destruct (Hinv _ _ Hid') as [Hkey' _ _ _]. rewrite Hkey'.
      rewrite lookup_insert. case_decide as Heq; [|by rewrite Hid].
      subst id'. simpl. by replace s with session by congruence.
    + rewrite clearHistory_eq. destruct (sessions st !! id') as [s|] eqn:Hid'; simpl;
        [|by rewrite Hid].
      destruct (Hinv _ _ Hid') as [Hkey' _ _ _]. rewrite Hkey'.
      rewrite lookup_insert. case_decide as Heq; [|by rewrite Hid].
      subst id'. simpl. by replace s with session by congruence.
    + simpl. rewrite lookup_delete. case_decide as Heq; [left; by subst|by rewrite Hid].
    + simpl. destruct (filter _ _ !! id) as [s|] eqn:Hs; [|right; by eexists].
      apply map_lookup_filter_Some in Hs as [Hs _].
      by replace s with session by congruence.
Qed.

(** C5, amended.  On an identifier the table does not hold, [addMessage] and
    [updateCartId] throw [Session not found], [clearHistory] returns without
    an error, and all three leave the store as it was: none creates a
    session. *)
Theorem missing_session_calls st id :
  sessions st !! id = None →
  (∀ role content metadata,
     addMessage id role content metadata st =
     (Threw (Error ("Session not found: " +:+ id)), st)) ∧
  (∀ cart, updateCartId id cart st = (Threw (Error ("Session not found: " +:+ id)), st)) ∧
  clearHistory id st = (Returned (), st).
Proof.
  intros Hid. split; [|split].
  - intros. by rewrite addMessage_eq, Hid.
  - intros. by rewrite updateCartId_eq, Hid.
  - by rewrite clearHistory_eq, Hid.
Qed.

(** What a read returns when [limit] is at least 1: nothing for an
    identifier the table does not hold, otherwise the last [limit] messages,
    or all of them when there are fewer. *)
Lemma getHistory_positive_limit st id (limit : option Z) :
  (1 ≤ default 10 limit)%Z →
  getHistory id limit st =
  (Returned match sessions st !! id with
            | None => []
            | Some session =>
                let history := conversationHistory session in
                drop (length history - Z.to_nat (default 10%Z limit)) history
            end, st).
Proof.
  intros Hlimit. rewrite getHistory_eq. destruct (sessions st !! id) as [session|]; [|done].
  cbv zeta. rewrite <- (Z2Nat.id (default 10%Z limit)) at 1 by lia.
  rewrite Array_slice_last by lia. done.
Qed.

End Store.

(** *** Runs *)

Section Runs.
Import Doubles.

#[local] Existing Instance Json.engine.

Lemma length_string_of_list_ascii l :
  String.length (string_of_list_ascii l) = length l.
Proof. induction l as [|c l IH]; simpl; [done|by rewrite IH]. Qed.

Lemma identifiers_distinct i j : uuidv4 i = uuidv4 j → i = j.
Proof.
  unfold uuidv4. simpl. intros [= Heq]. apply (f_equal String.length) in Heq.
  change (EmptyString +:+ ?x) with x in Heq.
  rewrite !length_string_of_list_ascii, !length_replicate in Heq. done.
Qed.

Lemma identifiers_nonempty k : uuidv4 k ≠ "".
Proof. discriminate. Qed.

Lemma reachable_store c st :
  reachable clock uuidv4 Date_parse st → reachable clock uuidv4 Date_parse (store c st).
Proof. apply reachable_after. Qed.

Lemma reachable_talk n st :
  reachable clock uuidv4 Date_parse st → reachable clock uuidv4 Date_parse (talk n st).
Proof. intros Hst. induction n as [|n IH]; [done|]. cbn [talk]. by apply reachable_store. Qed.

Lemma reachable_one_guest : reachable clock uuidv4 Date_parse one_guest.
Proof. apply reachable_store, reachable_initial. Qed.

Lemma reachable_one_shopper : reachable clock uuidv4 Date_parse one_shopper.
Proof. apply reachable_store, reachable_initial. Qed.

(** The 51st message evicts the first: the history of 50 that began with
    [message 0] begins with [message 1] and ends with [message 50]. *)
Example talk_51 :
  (λ session, (length (conversationHistory session),
               told <$> head (conversationHistory session),
               told <$> last (conversationHistory session)))
    <$> sessions (talk 51 one_guest) !! "session-"
  = Some (50%nat, Some (VStr "message 1"), Some (VStr "message 50")).
Proof. vm_compute. reflexivity. Qed.

Lemma addMessage_keeps_last_50_witness :
  ∃ session, sessions (talk 50 one_guest) !! "session-" = Some session ∧
  length (conversationHistory session) = 50%nat ∧
  ∃ message st' session',
    addMessage clock "session-" (VStr "user") (VStr "one more") VUndefined (talk 50 one_guest)
      = (Returned message, st') ∧
    sessions st' !! "session-" = Some session' ∧
    (length (conversationHistory session') ≤ 50)%nat ∧
    (length (conversationHistory session) = 50%nat →
       conversationHistory session' = (tail (conversationHistory session) ++ [message])%list) ∧
    ((length (conversationHistory session) < 50)%nat →
       conversationHistory session' = (conversationHistory session ++ [message])%list) ∧
    (∀ limit, getHistory "session-" limit st' =
       (Returned (Array_slice (- default 10%Z limit) (conversationHistory session')), st')).
Proof.
  eexists. split; [vm_compute; reflexivity|]. split; [vm_compute; reflexivity|].
  apply (addMessage_keeps_last_50 clock uuidv4 Date_parse).
  - apply reachable_talk, reachable_one_guest.
  - vm_compute. reflexivity.
Defined.

Lemma logged_in_is_permanent_witness :
  ∃ session, sessions one_shopper !! "session-" = Some session ∧
  userType session = logged_in ∧
  (∀ token cart,
     getOrCreateSession clock uuidv4
       {| params_sessionId := VStr "session-"; params_customerToken := token;
          params_cartId := cart |} one_shopper = (Returned session, one_shopper)) ∧
  (∀ c, match sessions (after clock uuidv4 Date_parse c one_shopper) !! "session-" with
        | Some session' =>
            userType session' = logged_in ∧ customerToken session' = customerToken session
        | None => c = DeleteSession "session-" ∨ ∃ hours, c = CleanupOldSessions hours
        end).
Proof.
  eexists. split; [vm_compute; reflexivity|]. split; [reflexivity|].
  apply (logged_in_is_permanent clock uuidv4 Date_parse
           identifiers_distinct identifiers_nonempty).
  - apply reachable_one_shopper.
  - vm_compute. reflexivity.
  - reflexivity.
Defined.

(** A guest who logs in during the session is upgraded once, and a later
    call without the token leaves the session logged in. *)
Example guest_logs_in :
  let login := {| params_sessionId := VStr "session-";
                  params_customerToken := VStr "customer-token-1";
                  params_cartId := VUndefined |} in
  let again := {| params_sessionId := VStr "session-";
                  params_customerToken := VUndefined;
                  params_cartId := VUndefined |} in
  (λ session, (userType session, customerToken session))
    <$> sessions (store (GetOrCreateSession again)
                   (store (GetOrCreateSession login) one_guest)) !! "session-"
  = Some (logged_in, VStr "customer-token-1").
Proof. vm_compute. reflexivity. Qed.

Lemma missing_session_calls_witness :
  (∀ role content metadata,
     addMessage clock "no-such-session" role content metadata initial =
     (Threw (Error "Session not found: no-such-session"), initial)) ∧
  (∀ cart, updateCartId clock "no-such-session" cart initial =
     (Threw (Error "Session not found: no-such-session"), initial)) ∧
  clearHistory clock "no-such-session" initial = (Returned (), initial).
Proof.
  apply (missing_session_calls clock initial "no-such-session"). reflexivity.
Defined.

(** C5, as stated, fails: [clearHistory] on an identifier the table does not
    hold returns, it does not throw. *)
Lemma clearHistory_missing_returns :
  sessions initial !! "no-such-session" = None ∧
  ¬ ∃ e st', clearHistory clock "no-such-session" initial = (Threw e, st').
Proof. split; [reflexivity|]. intros (e & st' & Hthrew). discriminate Hthrew. Qed.

(** C10, at the limit 0: the session holds two messages, and the read
    returns both, where the most recent [min(0, 2)] messages are none. *)
Theorem getHistory_limit_zero_returns_all :
  ∃ first second,
    conversationHistory <$> sessions (talk 2 one_guest) !! "session-" = Some [first; second] ∧
    getHistory "session-" (Some 0%Z) (talk 2 one_guest)
      = (Returned [first; second], talk 2 one_guest).
Proof. eexists _, _. split; vm_compute; reflexivity. Qed.

End Runs.

End SessionManagerFacts.

(** ** The orchestrator *)

Module OrchestratorFacts.
Import JS Magento Orchestrator.

Section Agent.
Context `{Engine} {W : Type}.
Variable generateCompletion : list ChatMessage → Options → task W value.
Variable toolAdapter_executeTool : value → value → Context → task W value.

#[local] Abbreviation analyzeIntent := (analyzeIntent generateCompletion).
#[local] Abbreviation executeTools := (executeTools toolAdapter_executeTool).
#[local] Abbreviation tool_entry := (tool_entry toolAdapter_executeTool).
#[local] Abbreviation intent_options := {| temperature := 3 # 10; maxTokens := 300 |}.

Lemma analyzeIntent_eq userMessage conversationHistory w :
  analyzeIntent userMessage conversationHistory w =
  match generateCompletion (intent_messages userMessage) intent_options w with
  | (Returned result, w') => (Returned (read_intent userMessage result), w')
  | (Threw _, w') => (Returned (keyword_intent userMessage), w')
  end.
Proof.
  unfold Orchestrator.analyzeIntent, read_intent, task_catch, lift, mbind, task_bind.
  destruct (generateCompletion _ _ w) as [[result|e] w']; [|reflexivity].
  by case_match.
Qed.

(** C8.  When the call of the model throws, the message [show me red shirts]
    is classified as [product_search], with [requiresTools] true,
    [search_products] the one suggested tool and the message as [query]. *)
Theorem model_down_show_me_red_shirts conversationHistory w e w' :
  generateCompletion (intent_messages "show me red shirts") intent_options w = (Threw e, w') →
  analyzeIntent "show me red shirts" conversationHistory w =
  (Returned (object [
     ("type", VStr "product_search");
     ("requiresTools", VBool true);
     ("suggestedTools", VArr [VStr "search_products"]);
     ("parameters", object [("query", VStr "show me red shirts")])]), w').
Proof. intros Hdown. rewrite analyzeIntent_eq, Hdown. reflexivity. Qed.

(** C2, amended.  When the model answers with a text: if the text has no
    opening brace followed by a closing one, the intent is [general_question]
    with no tool, whatever the message; otherwise the text from the first
    opening brace to the last closing one is parsed, and the intent is what it
    parses to, or, when it does not parse, what the keywords of the
    lower-cased message give. *)
Theorem analyzeIntent_on_reply userMessage conversationHistory w result text w' :
  generateCompletion (intent_messages userMessage) intent_options w = (Returned result, w') →
  get result "content" = Returned (VStr text) →
  analyzeIntent userMessage conversationHistory w =
  (Returned
     match match_braces text with
     | None =>
         object [("type", VStr "general_question"); ("requiresTools", VBool false);
                 ("suggestedTools", VArr []); ("parameters", object [])]
     | Some region =>
         match JSON_parse region with
         | Returned intent => intent
         | Threw _ =>
             let lowerMessage := toLowerCase userMessage in
             if includes lowerMessage "search" || includes lowerMessage "find" ||
                includes lowerMessage "show" || includes lowerMessage "looking for"
             then object [("type", VStr "product_search"); ("requiresTools", VBool true);
                          ("suggestedTools", VArr [VStr "search_products"]);
                          ("parameters", object [("query", VStr userMessage)])]
             else if includes lowerMessage "cart"
             then object [("type", VStr "view_cart"); ("requiresTools", VBool true);
                          ("suggestedTools", VArr [VStr "get_cart"]);
                          ("parameters", object [])]
             else object [("type", VStr "general_question"); ("requiresTools", VBool false);
                          ("suggestedTools", VArr []); ("parameters", object [])]
         end
     end, w').
Proof.
  intros Hreply Hcontent. rewrite analyzeIntent_eq, Hreply. unfold read_intent.
  rewrite Hcontent. simpl. destruct (match_braces text) as [region|]; [|reflexivity].
  simpl. destruct (JSON_parse region); reflexivity.
Qed.

Lemma keyword_intent_derived userMessage :
  ∃ tools b,
    own (keyword_intent userMessage) "suggestedTools" = VArr tools ∧
    own (keyword_intent userMessage) "requiresTools" = VBool b ∧
    (b = true ↔ tools ≠ []).
Proof.
  unfold keyword_intent. cbv zeta.
  destruct (_ || _).
  - exists [VStr "search_products"], true. by repeat split.
  - destruct (includes _ "cart").
    + exists [VStr "get_cart"], true. by repeat split.
    + exists [], false. by repeat split.
Qed.

(** C6, amended.  [analyzeIntent] always returns an intent.  Either it is the
    object parsed from the reply of the model, returned as parsed, or it is
    one [analyzeIntent] built, and there [requiresTools] is true exactly when
    [suggestedTools] is not empty. *)
Theorem requiresTools_derived_unless_parsed userMessage conversationHistory w :
  ∃ intent w',
    analyzeIntent userMessage conversationHistory w = (Returned intent, w') ∧
    ((∃ result text region,
        generateCompletion (intent_messages userMessage) intent_options w
          = (Returned result, w') ∧
        get result "content" = Returned (VStr text) ∧
        match_braces text = Some region ∧
        JSON_parse region = Returned intent)
     ∨
     (∃ tools b,
        own intent "suggestedTools" = VArr tools ∧
        own intent "requiresTools" = VBool b ∧
        (b = true ↔ tools ≠ []))).
Proof.
  rewrite analyzeIntent_eq.
  destruct (generateCompletion _ _ w) as [[result|e] w'] eqn:Hcall.
  - eexists _, _. split; [reflexivity|]. unfold read_intent.
    destruct (get result "content") as [content|e] eqn:Hcontent;
      [|right; apply keyword_intent_derived].
    simpl. destruct content as [| | | |text| |];
      try (right; apply keyword_intent_derived).
    simpl. destruct (match_braces text) as [region|] eqn:Hregion.
    + simpl. destruct (JSON_parse region) as [intent|e] eqn:Hparse;
        [|right; apply keyword_intent_derived].
      left. by exists result, text, region.
    + right. exists [], false. by repeat split.
  - eexists _, _. split; [reflexivity|]. right. apply keyword_intent_derived.
Qed.


Lemma extractToolParameters_other (name : string) intent context suggestedTools :
  get intent "suggestedTools" = Returned suggestedTools →
  name ≠ "search_products" →
  extractToolParameters (VStr name) intent context = Returned (cart_params intent context).
Proof.
  intros Hintent Hname. unfold extractToolParameters, cart_params.
  assert (get intent "parameters" = Returned (own intent "parameters")) as ->.
  { by destruct intent. }
  simpl. apply String.eqb_neq in Hname as ->. simpl. reflexivity.
Qed.

Lemma tool_entry_other (name : string) intent context suggestedTools w :
  get intent "suggestedTools" = Returned suggestedTools →
  name ≠ "search_products" →
  ∃ entry,
    tool_entry intent context (VStr name) w =
    (Returned entry,
     (toolAdapter_executeTool (VStr name) (cart_params intent context) context w).2).
Proof.
  intros Hintent Hname. unfold Orchestrator.tool_entry, task_catch, lift, mbind, task_bind.
  rewrite (extractToolParameters_other _ _ _ _ Hintent Hname).
  destruct (toolAdapter_executeTool _ _ _ w) as [[result|e] w']; simpl.
  - destruct (outcome_bind _ _ _ (get result "success")); by eexists.
  - by eexists.
Qed.

Lemma executeTools_cart_pair intent context w :
  get intent "suggestedTools" = Returned (VArr [VStr "create_cart"; VStr "add_to_cart"]) →
  let params := cart_params intent context in
  let created := toolAdapter_executeTool (VStr "create_cart") params context w in
  let added := toolAdapter_executeTool (VStr "add_to_cart") params context created.2 in
  ∃ first second,
    executeTools intent context w = (Returned [first; second], added.2).
Proof.
  intros Hintent params created added.
  unfold Orchestrator.executeTools, lift, mbind, task_bind. rewrite Hintent. simpl.
  destruct (tool_entry_other "create_cart" intent context _ w Hintent) as [first Hfirst];
    [done|].
  unfold mbind, task_bind. rewrite Hfirst.
  destruct (tool_entry_other "add_to_cart" intent context _ created.2 Hintent)
    as [second Hsecond]; [done|].
  fold params created. rewrite Hsecond. by exists first, second.
Qed.

End Agent.

Section Recorded.
Context `{Engine} {W : Type}.
Variable toolAdapter_executeTool : value → value → Context → task W value.

(** C1, amended.  When the intent suggests [create_cart] then [add_to_cart],
    [executeTools] calls [create_cart], and when that call has completed calls
    [add_to_cart] on the state it left, pushing one result each.  Both calls
    get the same parameters: the intent's own, with the cart of the context
    over them when the context has one.  What [create_cart] returned is not
    among the parameters of [add_to_cart]. *)
Theorem create_cart_then_add_to_cart intent context w :
  get intent "suggestedTools" = Returned (VArr [VStr "create_cart"; VStr "add_to_cart"]) →
  let params := cart_params intent context in
  let created := toolAdapter_executeTool (VStr "create_cart") params context w in
  let added := toolAdapter_executeTool (VStr "add_to_cart") params context created.2 in
  (∃ first second,
     executeTools toolAdapter_executeTool intent context w
       = (Returned [first; second], added.2)) ∧
  (executeTools (recording toolAdapter_executeTool) intent context (w, [])).2.2
    = [(VStr "create_cart", params, context); (VStr "add_to_cart", params, context)] ∧
  own params "cartId" =
    (if truthy (cartId context) then cartId context
     else own (VObj (spread (own intent "parameters"))) "cartId").
Proof.
  intros Hintent params created added. split; [|split].
  - by apply executeTools_cart_pair.
  - destruct (executeTools_cart_pair (recording toolAdapter_executeTool)
                intent context (w, []) Hintent) as (first & second & ->).
    fold params. simpl. unfold recording. fold created.
    destruct created as [r1 w1]. simpl.
    by destruct (toolAdapter_executeTool (VStr "add_to_cart") params context w1).
  - unfold params, cart_params. destruct (truthy (cartId context)); [|done].
    simpl. by rewrite lookup_insert_eq.
Qed.

End Recorded.

Section Runs.
Import Doubles.

#[local] Existing Instance Json.engine.

Lemma create_cart_then_add_to_cart_witness :
  let params := cart_params add_to_new_cart_intent no_cart in
  let created := registry (VStr "create_cart") params no_cart tt in
  let added := registry (VStr "add_to_cart") params no_cart created.2 in
  (∃ first second,
     executeTools registry add_to_new_cart_intent no_cart tt
       = (Returned [first; second], added.2)) ∧
  (executeTools (recording registry) add_to_new_cart_intent no_cart (tt, [])).2.2
    = [(VStr "create_cart", params, no_cart); (VStr "add_to_cart", params, no_cart)] ∧
  own params "cartId" =
    (if truthy (cartId no_cart) then cartId no_cart
     else own (VObj (spread (own add_to_new_cart_intent "parameters"))) "cartId").
Proof.
  apply (create_cart_then_add_to_cart registry add_to_new_cart_intent no_cart tt).
  reflexivity.
Defined.

(** C1, as stated, fails.  The turn has no cart; [create_cart] completes and
    returns the cart [cart-1]; [add_to_cart] is then called with the product
    alone, no [cartId] among its parameters, and the backend refuses it. *)
Lemma add_to_cart_misses_created_cart :
  let params := object [("sku", VStr "SHIRT-RED-M")] in
  executeTools toolAdapter add_to_new_cart_intent no_cart (tt, [])
  = (Returned [
       object [("toolName", VStr "create_cart"); ("success", VBool true);
               ("data", object [("cartId", VStr "cart-1")]); ("error", VUndefined);
               ("message", VStr "Shopping cart created successfully")];
       object [("toolName", VStr "add_to_cart"); ("success", VBool false);
               ("data", VUndefined);
               ("error", VStr
                  "Magento API Error: GraphQL Error: Could not find a cart with that ID");
               ("message", VUndefined)]],
     (tt, [(VStr "create_cart", params, no_cart); (VStr "add_to_cart", params, no_cart)]))
  ∧ own params "cartId" = VUndefined.
Proof. split; vm_compute; reflexivity. Qed.

(** With a cart in the context, that cart is what both tools are given. *)
Example add_to_cart_keeps_context_cart :
  let context := {| customerToken := VNull; cartId := VStr "cart-0" |} in
  (λ '(toolName, params, _), (toolName, own params "cartId"))
    <$> (executeTools toolAdapter add_to_new_cart_intent context (tt, [])).2.2
  = [(VStr "create_cart", VStr "cart-0"); (VStr "add_to_cart", VStr "cart-0")].
Proof. vm_compute. reflexivity. Qed.

Lemma model_down_show_me_red_shirts_witness :
  analyzeIntent unreachable_model "show me red shirts" [] tt =
  (Returned (object [
     ("type", VStr "product_search");
     ("requiresTools", VBool true);
     ("suggestedTools", VArr [VStr "search_products"]);
     ("parameters", object [("query", VStr "show me red shirts")])]), tt).
Proof.
  apply (model_down_show_me_red_shirts unreachable_model [] tt
           (Error "Ollama API failed: connect ECONNREFUSED") tt).
  reflexivity.
Defined.

(** C2, as stated, fails.  The model answers in prose, with no JSON object;
    the message contains [show]; the intent is [general_question] with no
    tool, not [product_search]. *)
Lemma prose_reply_is_general_question :
  let reply := "The user would like to see some products." in
  match_braces reply = None ∧
  includes (toLowerCase "show me red shirts") "show" = true ∧
  analyzeIntent (replying_model reply) "show me red shirts" [] tt =
  (Returned (object [
     ("type", VStr "general_question");
     ("requiresTools", VBool false);
     ("suggestedTools", VArr []);
     ("parameters", object [])]), tt).
Proof. repeat split; vm_compute; reflexivity. Qed.

(** A reply whose braces hold no JSON falls to the keywords. *)
Lemma analyzeIntent_on_reply_witness :
  let reply := "Intent: {type: product_search}" in
  match_braces reply = Some "{type: product_search}" ∧
  (∃ e, JSON_parse "{type: product_search}" = Threw e) ∧
  analyzeIntent (replying_model reply) "show me red shirts" [] tt =
  (Returned (object [
     ("type", VStr "product_search");
     ("requiresTools", VBool true);
     ("suggestedTools", VArr [VStr "search_products"]);
     ("parameters", object [("query", VStr "show me red shirts")])]), tt).
Proof.
  split; [reflexivity|]. split; [eexists; vm_compute; reflexivity|].
  rewrite (analyzeIntent_on_reply (replying_model "Intent: {type: product_search}")
             "show me red shirts" [] tt
             (object [("content", VStr "Intent: {type: product_search}")])
             "Intent: {type: product_search}" tt);
    [|reflexivity|vm_compute; reflexivity].
  vm_compute. reflexivity.
Defined.

(** C6, as stated, fails.  The model writes [requiresTools: true] next to an
    empty [suggestedTools]; the intent comes back as written. *)
Lemma parsed_intent_requires_tools_without_tools :
  let reply := quoted
    "{`type`:`greeting`,`requiresTools`:true,`suggestedTools`:[],`parameters`:{}}" in
  ∃ intent,
    analyzeIntent (replying_model reply) "hello" [] tt = (Returned intent, tt) ∧
    own intent "requiresTools" = VBool true ∧
    own intent "suggestedTools" = VArr [].
Proof. eexists. repeat split; vm_compute; reflexivity. Qed.

End Runs.

End OrchestratorFacts.

(** ** The tools and their registry *)

Module ToolFacts.
Import JS Magento.

Section Registry.
Context `{Engine} {W : Type}.
Variable magentoClient : option (MagentoClient W).

Lemma catalog :
  name <$> BuiltInTools.tools magentoClient =
  ["search_products"; "get_product_details"; "create_cart"; "add_to_cart"; "get_cart";
   "update_cart_item"; "remove_cart_item"].
Proof. reflexivity. Qed.

Lemma find_unknown (tools : list (Tool W)) (toolName : string) :
  toolName ∉ name <$> tools → find (BuiltInTools.named (VStr toolName)) tools = None.
Proof.
  induction tools as [|tool tools IH]; [done|].
  rewrite fmap_cons. intros [Hne Hnot]%not_elem_of_cons. cbn [find].
  unfold BuiltInTools.named at 1.
  apply not_eq_sym, String.eqb_neq in Hne as ->. by apply IH.
Qed.

(** C7.  For a name that is not in the catalog, with any parameters and
    context, the registry returns a result with [success] false and the error
    [Unknown tool: ] followed by the name; it does not throw, and sends the
    backend nothing.  So does the adapter once initialized. *)
Theorem unknown_tool_fails (toolName : string) params context w :
  toolName ∉ name <$> BuiltInTools.tools magentoClient →
  let unknown := object [("success", VBool false);
                         ("error", VStr ("Unknown tool: " +:+ toolName))] in
  BuiltInTools.executeTool magentoClient (VStr toolName) params context w
    = (Returned unknown, w) ∧
  ToolAdapter.executeTool (Some magentoClient) (VStr toolName) params context w
    = (Returned unknown, w).
Proof.
  intros Hnot%find_unknown unknown.
  assert (BuiltInTools.executeTool magentoClient (VStr toolName) params context w
          = (Returned unknown, w)) as Hbuiltin.
  { unfold BuiltInTools.executeTool. rewrite Hnot. reflexivity. }
  split; [done|]. unfold ToolAdapter.executeTool, lift, mbind, task_bind. simpl. done.
Qed.

End Registry.

Section Search.
Context `{Engine} {W : Type}.
Variable magentoClient : MagentoClient W.

Lemma capped (n : JSNumber) : gt_number (min_number n (num_of_nat 20)) (num_of_nat 20) = false.
Proof.
  destruct n as [| | |q]; try reflexivity.
  unfold min_number, num_of_nat. destruct (Qle_bool q _) eqn:Hle.
  - simpl. by rewrite Hle.
  - reflexivity.
Qed.

Lemma Math_min_capped (a : value) (size : JSNumber) :
  Math_min a (VNum (num_of_nat 20)) = Returned size →
  gt_number size (num_of_nat 20) = false.
Proof.
  unfold Math_min. destruct (ToNumber a) as [n|e]; simpl; [|done].
  intros [= <-]. apply capped.
Qed.

(** C9.  A call of [search_products] sends the backend at most one request,
    the search, and sends it unless the parameters are [undefined] or [null]
    or a conversion throws.  Its [pageSize] is [Math.min] of the supplied
    [pageSize], or of 10 when none is supplied, and 20; its [currentPage] is
    the supplied one, or 1.  So the [pageSize] sent is never above 20. *)
Theorem search_pageSize_capped params context w :
  let supplied := own params "pageSize" in
  let pageSize := Math_min (pattern_default params "pageSize" (VNum (num_of_nat 10)))
                           (VNum (num_of_nat 20)) in
  (ProductTools.productSearch_execute (Some (recording_client magentoClient))
     params context (w, [])).2.2
  = match destructure params "query" "params", ToString (own params "query"), pageSize with
    | Returned _, Returned _, Returned size =>
        [(PRODUCT_SEARCH_QUERY,
          object [("search", own params "query");
                  ("pageSize", VNum size);
                  ("currentPage",
                   pattern_default params "currentPage" (VNum (num_of_nat 1)))],
          VNull)]
    | _, _, _ => []
    end ∧
  (supplied = VUndefined → pageSize = Returned (num_of_nat 10)) ∧
  (∀ n, supplied = VNum n → pageSize = Returned (min_number n (num_of_nat 20))) ∧
  (own params "currentPage" = VUndefined →
     pattern_default params "currentPage" (VNum (num_of_nat 1)) = VNum (num_of_nat 1)) ∧
  (∀ size, pageSize = Returned size → gt_number size (num_of_nat 20) = false).
Proof.
  intros supplied pageSize. split; [|split; [|split; [|split]]].
  - unfold ProductTools.productSearch_execute, task_catch, lift, mbind, task_bind.
    destruct (destructure params "query" "params") as [[]|e]; [|done].
    destruct (ToString (own params "query")) as [shown|e]; [|done].
    simpl method. cbv iota beta. unfold ProductTools.search_variables. fold pageSize.
    destruct pageSize as [size|e]; [|done].
    simpl. unfold recording.
    destruct (query magentoClient _ _ _ w) as [[data|e] w']; simpl; [|done].
    by case_match.
  - intros Hs. unfold pageSize, pattern_default. fold supplied. by rewrite Hs.
  - intros n Hs. unfold pageSize, pattern_default. fold supplied. by rewrite Hs.
  - intros Hp. unfold pattern_default. by rewrite Hp.
  - intros size. apply Math_min_capped.
Qed.

End Search.

Section Runs.
Import Doubles.

#[local] Existing Instance Json.engine.

Lemma unknown_tool_fails_witness :
  let unknown := object [("success", VBool false);
                         ("error", VStr "Unknown tool: search_product")] in
  BuiltInTools.executeTool (Some magentoClient) (VStr "search_product")
    (object [("query", VStr "red shirts")]) no_cart tt = (Returned unknown, tt) ∧
  ToolAdapter.executeTool (Some (Some magentoClient)) (VStr "search_product")
    (object [("query", VStr "red shirts")]) no_cart tt = (Returned unknown, tt).
Proof.
  apply (unknown_tool_fails (Some magentoClient) "search_product").
  rewrite catalog. compute_done.
Defined.

(** The catalog is keyed by strings.  A tool name that is an object with an
    own [toString] cannot be put in the message, and the call throws. *)
Example unnamed_tool_throws :
  BuiltInTools.executeTool (Some magentoClient) (object [("toString", VNull)])
    (object []) no_cart tt
  = (Threw (TypeError "Cannot convert object to primitive value"), tt).
Proof. vm_compute. reflexivity. Qed.

(** A page of 50 is asked as a page of 20; with no [pageSize], 10 are asked,
    of page 1. *)
Example search_fifty :
  (ProductTools.productSearch_execute (Some (recording_client (W := unit) magentoClient))
     (object [("query", VStr "red shirts"); ("pageSize", VNum (num_of_nat 50))])
     no_cart (tt, [])).2.2
  = [(PRODUCT_SEARCH_QUERY,
      object [("search", VStr "red shirts"); ("pageSize", VNum (num_of_nat 20));
              ("currentPage", VNum (num_of_nat 1))],
      VNull)].
Proof. vm_compute. reflexivity. Qed.

Example search_default :
  (ProductTools.productSearch_execute (Some (recording_client (W := unit) magentoClient))
     (object [("query", VStr "red shirts")]) no_cart (tt, [])).2.2
  = [(PRODUCT_SEARCH_QUERY,
      object [("search", VStr "red shirts"); ("pageSize", VNum (num_of_nat 10));
              ("currentPage", VNum (num_of_nat 1))],
      VNull)].
Proof. vm_compute. reflexivity. Qed.

End Runs.

End ToolFacts.

Module SessionStoreFacts.
Import JS SessionManager SessionManagerFacts SessionViews.

Section Store.
Context `{Engine}.
Variable clock : nat → Instant.
Variable uuidv4 : nat → string.
Variable Date_parse : string → option Z.

Hypothesis uuidv4_inj : ∀ i j, uuidv4 i = uuidv4 j → i = j.
Hypothesis uuidv4_nonempty : ∀ k, uuidv4 k ≠ "".

#[local] Abbreviation getOrCreateSession := (getOrCreateSession clock uuidv4).
#[local] Abbreviation addMessage := (addMessage clock).
#[local] Abbreviation updateCartId := (updateCartId clock).
#[local] Abbreviation clearHistory := (clearHistory clock).
#[local] Abbreviation cleanupOldSessions := (cleanupOldSessions clock Date_parse).
#[local] Abbreviation after := (after clock uuidv4 Date_parse).
#[local] Abbreviation reachable := (reachable clock uuidv4 Date_parse).
#[local] Abbreviation invariant := (invariant uuidv4).

Lemma resolve_Some st sessionId session :
  resolve st sessionId = Some session →
  ∃ id, sessionId = VStr id ∧ sessions st !! id = Some session.
Proof.
  unfold resolve. destruct (truthy sessionId); [|done].
  destruct sessionId; try done. by eexists.
Qed.

Lemma next_is_free st : invariant st → sessions st !! uuidv4 (uuids st) = None.
Proof.
  intros Hinv. destruct (sessions st !! uuidv4 (uuids st)) as [s|] eqn:Hs; [|done].
  destruct (Hinv _ _ Hs) as [_ (k & Hk & Heq%uuidv4_inj) _ _]. lia.
Qed.

(** What [getOrCreateSession] does when it finds no session. *)
Lemma getOrCreateSession_new st sid token cart :
  invariant st → resolve st sid = None →
  ∃ session st',
    getOrCreateSession (request sid token cart) st = (Returned session, st') ∧
    sessions st !! sessionId session = None ∧
    sessions st' !! sessionId session = Some session ∧
    (∀ id, id ≠ sessionId session → sessions st' !! id = sessions st !! id) ∧
    userType session = (if truthy token then logged_in else guest) ∧
    customerToken session = (if truthy token then token else VNull) ∧
    cartId session = (if truthy cart then cart else VNull) ∧
    conversationHistory session = [].
Proof.
  intros Hinv Hnone.
  rewrite getOrCreateSession_eq.
  fold (resolve st (params_sessionId (request sid token cart))).
  simpl params_sessionId. rewrite Hnone. rewrite createSession_eq. cbv zeta.
  eexists _, _. split; [reflexivity|]. simpl.
  split; [by apply next_is_free|]. split; [apply lookup_insert_eq|].
  split; [intros id Hid; by apply lookup_insert_ne|]. done.
Qed.

(** X1.  When [getOrCreateSession] finds no session for the [sessionId] it is
    given (none given, not a string, or unknown), it returns a new session
    under an identifier the table did not hold, files it under that
    identifier and leaves every other entry as it was.  The new session is
    logged in exactly when a truthy token came with the call, holds that
    token and the given cart (or [null]), and has an empty history. *)
Theorem new_session_is_fresh st sid token cart :
  reachable st → resolve st sid = None →
  ∃ session st',
    getOrCreateSession (request sid token cart) st = (Returned session, st') ∧
    sessions st !! sessionId session = None ∧
    sessions st' !! sessionId session = Some session ∧
    (∀ id, id ≠ sessionId session → sessions st' !! id = sessions st !! id) ∧
    userType session = (if truthy token then logged_in else guest) ∧
    customerToken session = (if truthy token then token else VNull) ∧
    cartId session = (if truthy cart then cart else VNull) ∧
    conversationHistory session = [].
Proof. intros Hinv%reachable_invariant. by apply getOrCreateSession_new. Qed.

(** Two sessions created one after the other have different identifiers, and
    the store holds both. *)
Theorem new_sessions_are_distinct st sid1 token1 cart1 sid2 token2 cart2 :
  reachable st →
  let first := getOrCreateSession (request sid1 token1 cart1) st in
  let second := getOrCreateSession (request sid2 token2 cart2) first.2 in
  resolve st sid1 = None → resolve first.2 sid2 = None →
  ∃ session1 session2,
    first.1 = Returned session1 ∧ second.1 = Returned session2 ∧
    sessionId session1 ≠ sessionId session2 ∧
    sessions second.2 !! sessionId session1 = Some session1 ∧
    sessions second.2 !! sessionId session2 = Some session2.
Proof.
  intros Hreach first second Hnone1 Hnone2.
  destruct (getOrCreateSession_new st sid1 token1 cart1
              (reachable_invariant _ _ _ _ Hreach) Hnone1)
    as (s1 & st1 & Hfirst & _ & Hin1 & _).
  assert (first = (Returned s1, st1)) as Hf by exact Hfirst.
  assert (reachable st1) as Hreach1.
  { replace st1 with (after (GetOrCreateSession (request sid1 token1 cart1)) st).
    - by apply reachable_after.
    - unfold SessionManager.after. fold first. by rewrite Hf. }
  rewrite Hf in Hnone2. simpl in Hnone2.
  destruct (getOrCreateSession_new st1 sid2 token2 cart2
              (reachable_invariant _ _ _ _ Hreach1) Hnone2)
    as (s2 & st2 & Hsecond & Hfree2 & Hin2 & Hother & _).
  assert (second = (Returned s2, st2)) as Hs.
  { unfold second. rewrite Hf. exact Hsecond. }
  exists s1, s2. rewrite Hf, Hs. simpl.
  assert (sessionId s1 ≠ sessionId s2) as Hne by congruence.
  repeat split; try done. by rewrite Hother.
Qed.


Lemma resolve_live st id session :
  invariant st → sessions st !! id = Some session → resolve st (VStr id) = Some session.
Proof.
  intros Hinv Hid. unfold resolve.
  by rewrite (drawn_truthy uuidv4 uuidv4_nonempty _ _ _ Hinv Hid).
Qed.

(** What [getOrCreateSession] does with a session it finds. *)
Lemma getOrCreateSession_existing st sid token cart session :
  invariant st → resolve st sid = Some session →
  ∃ session' st',
    getOrCreateSession (request sid token cart) st = (Returned session', st') ∧
    sessions st' !! sessionId session = Some session' ∧
    (∀ id, id ≠ sessionId session → sessions st' !! id = sessions st !! id) ∧
    sessionId session' = sessionId session ∧
    cartId session' = cartId session ∧
    conversationHistory session' = conversationHistory session ∧
    createdAt (metadata session') = createdAt (metadata session) ∧
    customerToken session' =
      (if truthy (customerToken session) then customerToken session
       else if truthy token then token else customerToken session) ∧
    (userType session' = logged_in ↔
       userType session = logged_in ∨ truthy token = true).
Proof.
  intros Hinv Hsome. destruct (resolve_Some _ _ _ Hsome) as (id & -> & Hid).
  destruct (Hinv _ _ Hid) as [Hkey _ Htoken _].
  rewrite getOrCreateSession_eq.
  fold (resolve st (params_sessionId (request (VStr id) token cart))).
  simpl params_sessionId. rewrite Hsome. simpl params_customerToken.
  destruct (truthy (customerToken session)) eqn:Hheld.
  - rewrite andb_false_r. exists session, st. rewrite Hkey.
    repeat split; try done; [tauto|]. intros _. by apply Htoken.
  - destruct (truthy token) eqn:Htok; simpl.
    + rewrite saveSession_eq. eexists _, _. split; [reflexivity|]. simpl.
      split; [apply lookup_insert_eq|].
      split; [intros id' Hid'; by apply lookup_insert_ne|].
      repeat split; try done. by right.
    + exists session, st. rewrite Hkey. repeat split; try done; [tauto|].
      intros [Hin|]; [done|done].
Qed.

(** X2.  When [getOrCreateSession] finds the session, it returns it under the same
    identifier with its cart, its history and its creation date unchanged,
    whatever [cartId] the call carries; no other entry changes.  A token it
    already holds is kept; a truthy token of the call is taken only when it
    holds none, and the session is logged in afterwards exactly when it was
    before or the call carried a truthy token. *)
Theorem existing_session_keeps_cart_and_history st sid token cart session :
  reachable st → resolve st sid = Some session →
  ∃ session' st',
    getOrCreateSession (request sid token cart) st = (Returned session', st') ∧
    sessions st' !! sessionId session = Some session' ∧
    (∀ id, id ≠ sessionId session → sessions st' !! id = sessions st !! id) ∧
    sessionId session' = sessionId session ∧
    cartId session' = cartId session ∧
    conversationHistory session' = conversationHistory session ∧
    createdAt (metadata session') = createdAt (metadata session) ∧
    customerToken session' =
      (if truthy (customerToken session) then customerToken session
       else if truthy token then token else customerToken session) ∧
    (userType session' = logged_in ↔
       userType session = logged_in ∨ truthy token = true).
Proof. intros Hinv%reachable_invariant. by apply getOrCreateSession_existing. Qed.

(** X3.  After [updateCartId] on a live session the session holds the new cart,
    its user type, token and history are unchanged, no other session
    changes, and every later [getOrCreateSession] for that identifier returns
    the new cart, whatever cart that call carries. *)
Theorem updateCartId_then_read st id cart session :
  reachable st → sessions st !! id = Some session →
  let st' := (updateCartId id cart st).2 in
  (∃ session',
     sessions st' !! id = Some session' ∧
     cartId session' = cart ∧
     userType session' = userType session ∧
     customerToken session' = customerToken session ∧
     conversationHistory session' = conversationHistory session) ∧
  (∀ id', id' ≠ id → sessions st' !! id' = sessions st !! id') ∧
  (∀ token' cart',
     ∃ found, (getOrCreateSession (request (VStr id) token' cart') st').1 = Returned found ∧
              cartId found = cart).
Proof.
  intros Hreach Hid st'.
  assert (reachable st') as Hreach' by apply (reachable_after _ _ _ (UpdateCartId id cart) _ Hreach).
  pose proof (reachable_invariant _ _ _ _ Hreach) as Hinv.
  pose proof (reachable_invariant _ _ _ _ Hreach') as Hinv'.
  destruct (Hinv _ _ Hid) as [Hkey _ _ _].
  assert (sessions st' !! id =
          Some (touch (iso (clock (dates st))) (set_cartId cart session))) as Hlook.
  { unfold st'. rewrite updateCartId_eq, Hid, Hkey. simpl. apply lookup_insert_eq. }
  split; [|split].
  - eexists. split; [exact Hlook|]. done.
  - intros id' Hne. unfold st'. rewrite updateCartId_eq, Hid, Hkey. simpl.
    by apply lookup_insert_ne.
  - intros token' cart'.
    destruct (getOrCreateSession_existing st' (VStr id) token' cart' _ Hinv'
                (resolve_live _ _ _ Hinv' Hlook))
      as (found & st'' & -> & _ & _ & _ & Hcart & _).
    exists found. split; [done|]. by rewrite Hcart.
Qed.

(** [clearHistory] on a live session returns, leaves the session in the
    store with an empty history and the same user type, token and cart, so
    that [getHistory] returns the empty list for every limit; no other
    session changes. *)
Theorem clearHistory_empties st id session :
  reachable st → sessions st !! id = Some session →
  ∃ st' session',
    clearHistory id st = (Returned (), st') ∧
    sessions st' !! id = Some session' ∧
    conversationHistory session' = [] ∧
    userType session' = userType session ∧
    customerToken session' = customerToken session ∧
    cartId session' = cartId session ∧
    (∀ limit, getHistory id limit st' = (Returned [], st')) ∧
    (∀ id', id' ≠ id → sessions st' !! id' = sessions st !! id').
Proof.
  intros Hinv%reachable_invariant Hid. destruct (Hinv _ _ Hid) as [Hkey _ _ _].
  rewrite clearHistory_eq, Hid, Hkey. eexists _, _. split; [reflexivity|]. simpl.
  split; [apply lookup_insert_eq|]. repeat split; try done.
  - intros limit. rewrite getHistory_eq. simpl. rewrite lookup_insert_eq. simpl.
    unfold Array_slice. by rewrite drop_nil.
  - intros id' Hne. by apply lookup_insert_ne.
Qed.

(** X4.  [deleteSession] always returns; afterwards the identifier resolves to no
    session while every other entry is unchanged, [getHistory] returns the
    empty list, [addMessage] throws [Session not found], and a second
    [deleteSession] changes nothing. *)
Theorem deleteSession_forgets st id :
  let st' := (deleteSession id st).2 in
  deleteSession id st = (Returned (), st') ∧
  sessions st' !! id = None ∧
  (∀ id', id' ≠ id → sessions st' !! id' = sessions st !! id') ∧
  (∀ limit, getHistory id limit st' = (Returned [], st')) ∧
  (∀ role content metadata,
     addMessage id role content metadata st' =
     (Threw (Error ("Session not found: " +:+ id)), st')) ∧
  deleteSession id st' = (Returned (), st').
Proof.
  intros st'. assert (sessions st' !! id = None) as Hgone by apply lookup_delete_eq.
  split; [done|]. split; [done|]. split; [|split; [|split]].
  - intros id' Hne. by apply lookup_delete_ne.
  - intros limit. by rewrite getHistory_eq, Hgone.
  - intros. by rewrite addMessage_eq, Hgone.
  - unfold st', deleteSession, update, set_sessions. simpl. by rewrite delete_delete_eq.
Qed.

(** X5.  No call other than [getOrCreateSession] adds a session: an identifier
    that is live after such a call was live before it. *)
Theorem only_getOrCreateSession_adds c st id :
  reachable st →
  (∀ params, c ≠ GetOrCreateSession params) →
  is_Some (sessions (after c st) !! id) → is_Some (sessions st !! id).
Proof.
  intros Hinv%reachable_invariant Hcall.
  destruct c as [params|id' role content metadata|id' limit|id' cart|id'|id'|hours];
    unfold SessionManager.after.
  - by destruct (Hcall params).
  - rewrite addMessage_eq. destruct (sessions st !! id') as [s|] eqn:Hid'; [|done].
    destruct (Hinv _ _ Hid') as [-> _ _ _]. simpl. rewrite lookup_insert.
    case_decide; [by subst|done].
  - by rewrite getHistory_eq.
  - rewrite updateCartId_eq. destruct (sessions st !! id') as [s|] eqn:Hid'; [|done].
    destruct (Hinv _ _ Hid') as [-> _ _ _]. simpl. rewrite lookup_insert.
    case_decide; [by subst|done].
  - rewrite clearHistory_eq. destruct (sessions st !! id') as [s|] eqn:Hid'; [|done].
    destruct (Hinv _ _ Hid') as [-> _ _ _]. simpl. rewrite lookup_insert.
    case_decide; [by subst|done].
  - simpl. rewrite lookup_delete. by case_decide.
  - simpl. intros [s [Hs _]%map_lookup_filter_Some]. by eexists.
Qed.


(** [getHistory] never changes the store and never throws; what it returns
    is a suffix of the stored history (the most recent messages, in order),
    and the empty list for an unknown identifier. *)
Theorem getHistory_is_suffix st id limit :
  ∃ result older,
    getHistory id limit st = (Returned result, st) ∧
    match sessions st !! id with
    | Some session => conversationHistory session = (older ++ result)%list
    | None => result = []
    end.
Proof.
  rewrite getHistory_eq. destruct (sessions st !! id) as [session|]; [|by exists [], []].
  unfold Array_slice. eexists _, (take _ (conversationHistory session)).
  split; [reflexivity|]. by rewrite take_drop.
Qed.

(** X6.  [cleanupOldSessions] returns, and only removes: every session left is
    one the store held, unchanged.  A session whose last activity is not
    before the cutoff (now minus the given hours, 24 by default), or whose
    [lastActivity] is no date, stays; one whose last activity is before a
    valid cutoff is removed. *)
Theorem cleanup_keeps_recent st hours id session :
  sessions st !! id = Some session →
  let st' := (cleanupOldSessions hours st).2 in
  let cutoff := (epoch_ms (clock (dates st)) - default 24 hours * 60 * 60 * 1000)%Z in
  cleanupOldSessions hours st = (Returned (), st') ∧
  (∀ id' session', sessions st' !! id' = Some session' → sessions st !! id' = Some session') ∧
  (match Date_parse (lastActivity (metadata session)) with
   | Some t => (cutoff ≤ t)%Z
   | None => True
   end → sessions st' !! id = Some session) ∧
  (∀ t, Date_parse (lastActivity (metadata session)) = Some t →
     (t < cutoff)%Z → (Z.abs cutoff ≤ 8640000000000000)%Z → sessions st' !! id = None).
Proof.
  intros Hid st' cutoff. split; [done|]. split; [|split].
  - intros id' s' [Hs _]%map_lookup_filter_Some. done.
  - intros Hrecent. apply map_lookup_filter_Some. split; [done|]. simpl.
    unfold older_than. fold cutoff.
    destruct (Date_parse _) as [t|]; [|by intros []].
    destruct (time_clip cutoff) as [c|] eqn:Hclip; [|by intros []].
    unfold time_clip in Hclip. case_match; [|done]. injection Hclip as <-.
    intros Hlt%Is_true_true%Z.ltb_lt. lia.
  - intros t Ht Hlt Hvalid. apply map_lookup_filter_None. right. intros s Hs.
    simpl in Hs. replace s with session by congruence. simpl. unfold older_than. fold cutoff.
    rewrite Ht. unfold time_clip.
    replace (Z.abs cutoff <=? 8640000000000000)%Z with true
      by (symmetry; by apply Z.leb_le).
    intros Hnot. apply Hnot, Is_true_true, Z.ltb_lt. done.
Qed.

(** X7.  Through any call, a session that stays in the store keeps its identifier
    and its creation date; its history changes only by [addMessage] or
    [clearHistory] on it, its cart only by [updateCartId] on it. *)
Theorem calls_keep_identity c st id session :
  reachable st → sessions st !! id = Some session →
  match sessions (after c st) !! id with
  | Some session' =>
      sessionId session' = id ∧
      createdAt (metadata session') = createdAt (metadata session) ∧
      (conversationHistory session' = conversationHistory session ∨
       (∃ role content metadata, c = AddMessage id role content metadata) ∨
       c = ClearHistory id) ∧
      (cartId session' = cartId session ∨ ∃ cart, c = UpdateCartId id cart)
  | None => True
  end.
Proof.
  intros Hinv%reachable_invariant Hid. destruct (Hinv _ _ Hid) as [Hkey _ _ _].
  destruct c as [params|id' role content metadata|id' limit|id' cart|id'|id'|hours];
    unfold SessionManager.after.
  - destruct params as [sid token cart]. fold (request sid token cart).
    destruct (resolve st sid) as [s|] eqn:Hres.
    + destruct (getOrCreateSession_existing st sid token cart s Hinv Hres)
        as (s' & st' & -> & Hin & Hother & Hsid & Hcart & Hhist & Hcreated & _).
      destruct (resolve_Some _ _ _ Hres) as (id' & -> & Hid').
      destruct (Hinv _ _ Hid') as [Hkey' _ _ _]. simpl.
      destruct (decide (id = id')) as [<-|Hne].
      * replace s with session in * by congruence. rewrite Hkey in Hin. rewrite Hin.
        rewrite Hsid, Hcreated, Hhist, Hcart. by auto.
      * rewrite Hother by congruence. rewrite Hid. by auto.
    + rewrite getOrCreateSession_eq. fold (resolve st sid). simpl params_sessionId.
      fold (resolve st sid). rewrite Hres, createSession_eq. cbv zeta. simpl.
      rewrite lookup_insert_ne; [rewrite Hid; by auto|].
      intros Heq. pose proof (next_is_free _ Hinv) as Hfree. congruence.
  - rewrite addMessage_eq. destruct (sessions st !! id') as [s|] eqn:Hid'; simpl;
      [|rewrite Hid; by auto].
    destruct (Hinv _ _ Hid') as [-> _ _ _]. rewrite lookup_insert.
    case_decide as Heq; [|rewrite Hid; by auto].
    subst id'. replace s with session by congruence. simpl.
    repeat split; [done|right; left; by eexists _, _, _|by left].
  - rewrite getHistory_eq. simpl. rewrite Hid. by auto.
  - rewrite updateCartId_eq. destruct (sessions st !! id') as [s|] eqn:Hid'; simpl;
      [|rewrite Hid; by auto].
    destruct (Hinv _ _ Hid') as [-> _ _ _]. rewrite lookup_insert.
    case_decide as Heq; [|rewrite Hid; by auto].
    subst id'. replace s with session by congruence. simpl.
    repeat split; [done|by left|right; by eexists].
  - rewrite clearHistory_eq. destruct (sessions st !! id') as [s|] eqn:Hid'; simpl;
      [|rewrite Hid; by auto].
    destruct (Hinv _ _ Hid') as [-> _ _ _]. rewrite lookup_insert.
    case_decide as Heq; [|rewrite Hid; by auto].
    subst id'. replace s with session by congruence. simpl.
    repeat split; [done|by right; right|by left].
  - simpl. rewrite lookup_delete. case_decide; [done|]. rewrite Hid. by auto.
  - simpl. destruct (filter _ _ !! id) as [s|] eqn:Hs; [|done].
    apply map_lookup_filter_Some in Hs as [Hs _].
    replace s with session by congruence. by auto.
Qed.

Lemma last_push_bounded {A} (h : list A) (m : A) : last (push_bounded h m) = Some m.
Proof.
  rewrite push_bounded_drop, drop_app_le by lia. apply last_snoc.
Qed.

(** X8.  The message [addMessage] returns is the last one of the stored history;
    it has the [role], [content] and [timestamp] of the call, except where
    the [metadata] has a property of the same name, which then wins, and it
    has every other property of the [metadata]. *)
Theorem addMessage_message st id role content metadata session :
  reachable st → sessions st !! id = Some session →
  ∃ message st' session',
    addMessage id role content metadata st = (Returned message, st') ∧
    sessions st' !! id = Some session' ∧
    last (conversationHistory session') = Some message ∧
    (∀ k, own message k =
       match spread metadata !! k with
       | Some v => v
       | None =>
           own (object [("role", role); ("content", content);
                        ("timestamp", VStr (iso (clock (dates st))))]) k
       end).
Proof.
  intros Hinv%reachable_invariant Hid. destruct (Hinv _ _ Hid) as [Hkey _ _ _].
  rewrite addMessage_eq, Hid, Hkey. cbv zeta.
  eexists _, _, _. split; [reflexivity|]. simpl.
  split; [apply lookup_insert_eq|]. split; [apply last_push_bounded|].
  intros k. unfold own, object. rewrite lookup_union.
  destruct (spread metadata !! k) as [v|].
  - match goal with |- context [Some v ∪ ?o] => by destruct o end.
  - match goal with |- context [None ∪ ?o] => by destruct o end.
Qed.

End Store.

Section Runs.
Import Doubles.

#[local] Existing Instance Json.engine.

Lemma new_session_is_fresh_witness :
  ∃ session st',
    getOrCreateSession clock uuidv4
      (request VUndefined (VStr "customer-token-1") VUndefined) one_guest
      = (Returned session, st') ∧
    sessions one_guest !! sessionId session = None ∧
    sessions st' !! sessionId session = Some session ∧
    (∀ id, id ≠ sessionId session → sessions st' !! id = sessions one_guest !! id) ∧
    userType session = logged_in ∧
    customerToken session = VStr "customer-token-1" ∧
    cartId session = VNull ∧
    conversationHistory session = [].
Proof.
  apply (new_session_is_fresh clock uuidv4 Date_parse identifiers_distinct one_guest
           VUndefined (VStr "customer-token-1") VUndefined).
  - apply reachable_one_guest.
  - reflexivity.
Defined.

Lemma new_sessions_are_distinct_witness :
  ∃ session1 session2,
    (getOrCreateSession clock uuidv4 (request VUndefined VUndefined VUndefined) initial).1
      = Returned session1 ∧
    (getOrCreateSession clock uuidv4 (request (VStr "") VUndefined VUndefined)
       one_guest).1 = Returned session2 ∧
    sessionId session1 ≠ sessionId session2 ∧
    sessions (store (GetOrCreateSession (request (VStr "") VUndefined VUndefined)) one_guest)
      !! sessionId session1 = Some session1 ∧
    sessions (store (GetOrCreateSession (request (VStr "") VUndefined VUndefined)) one_guest)
      !! sessionId session2 = Some session2.
Proof.
  apply (new_sessions_are_distinct clock uuidv4 Date_parse identifiers_distinct initial
           VUndefined VUndefined VUndefined (VStr "") VUndefined VUndefined).
  - apply reachable_initial.
  - reflexivity.
  - reflexivity.
Defined.

Lemma existing_session_keeps_cart_and_history_witness :
  ∃ session, resolve (talk 2 one_guest) (VStr "session-") = Some session ∧
  ∃ session' st',
    getOrCreateSession clock uuidv4
      (request (VStr "session-") (VStr "customer-token-1") (VStr "cart-9")) (talk 2 one_guest)
      = (Returned session', st') ∧
    sessions st' !! sessionId session = Some session' ∧
    (∀ id, id ≠ sessionId session → sessions st' !! id = sessions (talk 2 one_guest) !! id) ∧
    sessionId session' = sessionId session ∧
    cartId session' = cartId session ∧
    conversationHistory session' = conversationHistory session ∧
    createdAt (metadata session') = createdAt (metadata session) ∧
    customerToken session' =
      (if truthy (customerToken session) then customerToken session
       else if truthy (VStr "customer-token-1") then VStr "customer-token-1"
       else customerToken session) ∧
    (userType session' = logged_in ↔
       userType session = logged_in ∨ truthy (VStr "customer-token-1") = true).
Proof.
  eexists. split; [vm_compute; reflexivity|].
  apply (existing_session_keeps_cart_and_history clock uuidv4 Date_parse).
  - apply reachable_talk, reachable_one_guest.
  - vm_compute. reflexivity.
Defined.

Lemma updateCartId_then_read_witness :
  ∃ session, sessions one_guest !! "session-" = Some session ∧
  let st' := (updateCartId clock "session-" (VStr "cart-1") one_guest).2 in
  (∃ session',
     sessions st' !! "session-" = Some session' ∧
     cartId session' = VStr "cart-1" ∧
     userType session' = userType session ∧
     customerToken session' = customerToken session ∧
     conversationHistory session' = conversationHistory session) ∧
  (∀ id', id' ≠ "session-" → sessions st' !! id' = sessions one_guest !! id') ∧
  (∀ token' cart',
     ∃ found,
       (getOrCreateSession clock uuidv4 (request (VStr "session-") token' cart') st').1
         = Returned found ∧
       cartId found = VStr "cart-1").
Proof.
  eexists. split; [vm_compute; reflexivity|].
  apply (updateCartId_then_read clock uuidv4 Date_parse identifiers_nonempty).
  - apply reachable_one_guest.
  - vm_compute. reflexivity.
Defined.

Lemma clearHistory_empties_witness :
  ∃ session, sessions (talk 2 one_guest) !! "session-" = Some session ∧
  length (conversationHistory session) = 2%nat ∧
  ∃ st' session',
    clearHistory clock "session-" (talk 2 one_guest) = (Returned (), st') ∧
    sessions st' !! "session-" = Some session' ∧
    conversationHistory session' = [] ∧
    userType session' = userType session ∧
    customerToken session' = customerToken session ∧
    cartId session' = cartId session ∧
    (∀ limit, getHistory "session-" limit st' = (Returned [], st')) ∧
    (∀ id', id' ≠ "session-" → sessions st' !! id' = sessions (talk 2 one_guest) !! id').
Proof.
  eexists. split; [vm_compute; reflexivity|]. split; [vm_compute; reflexivity|].
  apply (clearHistory_empties clock uuidv4 Date_parse).
  - apply reachable_talk, reachable_one_guest.
  - vm_compute. reflexivity.
Defined.

Lemma only_getOrCreateSession_adds_witness :
  is_Some (sessions one_guest !! "session-").
Proof.
  apply (only_getOrCreateSession_adds clock uuidv4 Date_parse (said 0) one_guest "session-").
  - apply reachable_one_guest.
  - intros params. discriminate.
  - vm_compute. by eexists.
Defined.

Lemma cleanup_keeps_recent_witness :
  ∃ session, sessions one_guest !! "session-" = Some session ∧
  let st' := (cleanupOldSessions clock Date_parse None one_guest).2 in
  let cutoff := (epoch_ms (clock (dates one_guest)) - 24 * 60 * 60 * 1000)%Z in
  cleanupOldSessions clock Date_parse None one_guest = (Returned (), st') ∧
  (∀ id' session', sessions st' !! id' = Some session' →
                   sessions one_guest !! id' = Some session') ∧
  (match Date_parse (lastActivity (metadata session)) with
   | Some t => (cutoff ≤ t)%Z
   | None => True
   end → sessions st' !! "session-" = Some session) ∧
  (∀ t, Date_parse (lastActivity (metadata session)) = Some t →
     (t < cutoff)%Z → (Z.abs cutoff ≤ 8640000000000000)%Z →
     sessions st' !! "session-" = None).
Proof.
  eexists. split; [vm_compute; reflexivity|].
  apply (cleanup_keeps_recent clock Date_parse one_guest None "session-").
  vm_compute. reflexivity.
Defined.

Lemma calls_keep_identity_witness :
  ∃ session, sessions one_guest !! "session-" = Some session ∧
  match sessions (store (said 0) one_guest) !! "session-" with
  | Some session' =>
      sessionId session' = "session-" ∧
      createdAt (metadata session') = createdAt (metadata session) ∧
      (conversationHistory session' = conversationHistory session ∨
       (∃ role content metadata, said 0 = AddMessage "session-" role content metadata) ∨
       said 0 = ClearHistory "session-") ∧
      (cartId session' = cartId session ∨ ∃ cart, said 0 = UpdateCartId "session-" cart)
  | None => True
  end.
Proof.
  eexists. split; [vm_compute; reflexivity|].
  apply (calls_keep_identity clock uuidv4 Date_parse identifiers_distinct (said 0) one_guest).
  - apply reachable_one_guest.
  - vm_compute. reflexivity.
Defined.

Lemma addMessage_message_witness :
  ∃ message st' session',
    addMessage clock "session-" (VStr "assistant") (VStr "Here are three red shirts.")
      (object [("toolsUsed", VArr [VStr "search_products"]);
               ("intent", VStr "product_search")]) one_guest
      = (Returned message, st') ∧
    sessions st' !! "session-" = Some session' ∧
    last (conversationHistory session') = Some message ∧
    (∀ k, own message k =
       match spread (object [("toolsUsed", VArr [VStr "search_products"]);
                             ("intent", VStr "product_search")]) !! k with
       | Some v => v
       | None =>
           own (object [("role", VStr "assistant");
                        ("content", VStr "Here are three red shirts.");
                        ("timestamp", VStr (iso (clock (dates one_guest))))]) k
       end).
Proof.
  assert (∃ session, sessions one_guest !! "session-" = Some session) as [session Hsession].
  { eexists. vm_compute. reflexivity. }
  apply (addMessage_message clock uuidv4 Date_parse one_guest "session-" _ _ _ session).
  - apply reachable_one_guest.
  - exact Hsession.
Defined.

End Runs.
End SessionStoreFacts.

Module DispatchFacts.
Import JS Magento Orchestrator OrchestratorFacts.

Section Agent.
Context `{Engine} {W : Type}.
Variable toolAdapter_executeTool : value → value → Context → task W value.

#[local] Abbreviation executeTools := (executeTools toolAdapter_executeTool).
#[local] Abbreviation tool_entry := (tool_entry toolAdapter_executeTool).
#[local] Abbreviation run_tools := (run_tools toolAdapter_executeTool).

Lemma tool_entry_returns (name : string) intent context w :
  ∃ entry w',
    tool_entry intent context (VStr name) w = (Returned entry, w') ∧
    own entry "toolName" = VStr name.
Proof.
  unfold Orchestrator.tool_entry, task_catch, lift, mbind, task_bind.
  destruct (extractToolParameters _ _ _) as [params|e]; [|by eexists _, _].
  destruct (toolAdapter_executeTool _ _ _ w) as [[result|e] w']; [|by eexists _, _].
  destruct (get result "success") as [success|e]; by eexists _, _.
Qed.

Lemma run_tools_names (names : list string) intent context results w :
  ∃ entries w',
    run_tools intent context (VStr <$> names) results w
      = (Returned (results ++ entries)%list, w') ∧
    (λ entry, own entry "toolName") <$> entries = VStr <$> names.
Proof.
  revert results w. induction names as [|name names IH]; intros results w.
  - exists [], w. by rewrite app_nil_r.
  - rewrite fmap_cons. cbn [Orchestrator.run_tools]. unfold mbind, task_bind.
    destruct (tool_entry_returns name intent context w) as (entry & w1 & -> & Hname).
    destruct (IH (results ++ [entry])%list w1) as (entries & w' & -> & Hnames).
    exists (entry :: entries), w'. rewrite <- app_assoc. split; [done|].
    rewrite fmap_cons. by rewrite Hname, Hnames.
Qed.

(** X9.  When [suggestedTools] is an array of names, [executeTools] returns, for
    every behaviour of the adapter (also when it throws), one entry per name
    in the order of the names, each carrying its name as [toolName]. *)
Theorem executeTools_one_entry_per_tool (names : list string) intent context w :
  get intent "suggestedTools" = Returned (VArr (VStr <$> names)) →
  ∃ results w',
    executeTools intent context w = (Returned results, w') ∧
    (λ entry, own entry "toolName") <$> results = VStr <$> names.
Proof.
  intros Hintent. unfold Orchestrator.executeTools, lift, mbind, task_bind.
  rewrite Hintent. simpl iterate. cbv iota beta.
  destruct (run_tools_names names intent context [] w) as (entries & w' & -> & Hnames).
  by exists entries, w'.
Qed.

(** When [suggestedTools] is a text and not an array, [executeTools] runs
    one round per character of the text. *)
Theorem executeTools_text_is_split (text : string) intent context w :
  get intent "suggestedTools" = Returned (VStr text) →
  ∃ results w',
    executeTools intent context w = (Returned results, w') ∧
    (λ entry, own entry "toolName") <$> results = chars text.
Proof.
  intros Hintent. unfold Orchestrator.executeTools, lift, mbind, task_bind.
  rewrite Hintent. simpl iterate. cbv iota beta. unfold chars.
  rewrite (list_fmap_compose (λ c, String c EmptyString) VStr).
  destruct (run_tools_names ((λ c, String c EmptyString) <$> list_ascii_of_string text)
              intent context [] w) as (entries & w' & -> & Hnames).
  by exists entries, w'.
Qed.

(** When the intent is [undefined] or [null], or its [suggestedTools] is
    neither an array nor a text, [executeTools] throws a TypeError and calls
    no tool. *)
Theorem executeTools_without_list intent context w :
  match intent with
  | VUndefined | VNull => True
  | _ => match own intent "suggestedTools" with
         | VArr _ | VStr _ => False
         | _ => True
         end
  end →
  ∃ text, executeTools intent context w = (Threw (TypeError text), w).
Proof.
  intros Hnot. unfold Orchestrator.executeTools, lift, mbind, task_bind.
  destruct intent; try (eexists; reflexivity).
  all: unfold get; cbv iota beta;
    match type of Hnot with match ?o with _ => _ end =>
      destruct o; try done; eexists; reflexivity
    end.
Qed.

End Agent.

Section Recorded.
Context `{Engine} {W : Type}.
Variable toolAdapter_executeTool : value → value → Context → task W value.

Lemma extractToolParameters_total toolName intent context props :
  get intent "parameters" = Returned (VObj props) →
  ∃ params, extractToolParameters toolName intent context = Returned (VObj params).
Proof.
  intros Hp. unfold extractToolParameters. rewrite Hp. simpl.
  destruct (_ && _); by eexists.
Qed.

Lemma tool_entry_call (name : string) intent context props w calls :
  get intent "parameters" = Returned (VObj props) →
  ∃ entry w' call,
    tool_entry (recording toolAdapter_executeTool) intent context (VStr name) (w, calls)
      = (Returned entry, (w', (calls ++ [call])%list)) ∧
    call.1.1 = VStr name.
Proof.
  intros Hp. unfold tool_entry, task_catch, lift, mbind, task_bind.
  destruct (extractToolParameters_total (VStr name) intent context props Hp)
    as [params ->].
  unfold recording.
  destruct (toolAdapter_executeTool (VStr name) (VObj params) context w)
    as [[result|e] w1]; [|by eexists _, _, _].
  destruct (get result "success") as [success|e]; by eexists _, _, _.
Qed.

Lemma run_tools_calls (names : list string) intent context props results w calls :
  get intent "parameters" = Returned (VObj props) →
  ∃ new,
    (run_tools (recording toolAdapter_executeTool) intent context (VStr <$> names)
       results (w, calls)).2.2 = (calls ++ new)%list ∧
    (λ call, call.1.1) <$> new = VStr <$> names.
Proof.
  intros Hp. revert results w calls.
  induction names as [|name names IH]; intros results w calls.
  - exists []. by rewrite app_nil_r.
  - rewrite fmap_cons. cbn [run_tools]. unfold mbind, task_bind.
    destruct (tool_entry_call name intent context props w calls Hp)
      as (entry & w1 & call & -> & Hcall).
    destruct (IH (results ++ [entry])%list w1 (calls ++ [call])%list)
      as (new & -> & Hnew).
    exists (call :: new). rewrite <- app_assoc. split; [done|].
    rewrite fmap_cons. by rewrite Hcall, Hnew.
Qed.

(** When [suggestedTools] is an array of names and [parameters] an object,
    [executeTools] calls the adapter exactly once per name, in the order of
    the names. *)
Theorem executeTools_calls_each_tool_once (names : list string) intent context props w :
  get intent "suggestedTools" = Returned (VArr (VStr <$> names)) →
  get intent "parameters" = Returned (VObj props) →
  (λ call, call.1.1) <$>
    (executeTools (recording toolAdapter_executeTool) intent context (w, [])).2.2
  = VStr <$> names.
Proof.
  intros Hintent Hp. unfold Orchestrator.executeTools, lift, mbind, task_bind.
  rewrite Hintent. simpl iterate. cbv iota beta.
  destruct (run_tools_calls names intent context props [] w [] Hp) as (new & -> & Hnew).
  done.
Qed.

End Recorded.

Section Runs.
Import Doubles.

#[local] Existing Instance Json.engine.

Lemma executeTools_one_entry_per_tool_witness :
  ∃ results w',
    executeTools registry add_to_new_cart_intent no_cart tt = (Returned results, w') ∧
    (λ entry, own entry "toolName") <$> results = [VStr "create_cart"; VStr "add_to_cart"].
Proof.
  apply (executeTools_one_entry_per_tool registry ["create_cart"; "add_to_cart"]
           add_to_new_cart_intent no_cart tt).
  vm_compute. reflexivity.
Defined.

Lemma executeTools_text_is_split_witness :
  ∃ results w',
    executeTools registry (object [("suggestedTools", VStr "get_cart")]) no_cart tt
      = (Returned results, w') ∧
    (λ entry, own entry "toolName") <$> results = chars "get_cart".
Proof.
  apply (executeTools_text_is_split registry "get_cart"
           (object [("suggestedTools", VStr "get_cart")]) no_cart tt).
  vm_compute. reflexivity.
Defined.

Lemma executeTools_without_list_witness :
  ∃ text,
    executeTools registry (object [("type", VStr "greeting"); ("requiresTools", VBool true)])
      no_cart tt = (Threw (TypeError text), tt).
Proof.
  apply (executeTools_without_list registry
           (object [("type", VStr "greeting"); ("requiresTools", VBool true)]) no_cart tt).
  vm_compute. exact I.
Defined.

Lemma executeTools_calls_each_tool_once_witness :
  (λ call, call.1.1) <$>
    (executeTools toolAdapter add_to_new_cart_intent no_cart (tt, [])).2.2
  = [VStr "create_cart"; VStr "add_to_cart"].
Proof.
  apply (executeTools_calls_each_tool_once registry ["create_cart"; "add_to_cart"]
           add_to_new_cart_intent no_cart (list_to_map [("sku", VStr "SHIRT-RED-M")]) tt).
  - vm_compute. reflexivity.
  - vm_compute. reflexivity.
Defined.

End Runs.
End DispatchFacts.

Module IntentFacts.
Import JS Magento Orchestrator OrchestratorFacts StringFacts.

Section Parameters.
Context `{Engine}.

(** X10.  With an object as [parameters], [extractToolParameters] returns a copy
    of it in which [cartId] is the cart of the context when that is truthy,
    [query] is the empty text when the tool is [search_products] and the
    intent gives no truthy query, and every other property is as the intent
    gives it. *)
Theorem extractToolParameters_of_object toolName intent context props :
  get intent "parameters" = Returned (VObj props) →
  let searching :=
    match toolName with VStr name => String.eqb name "search_products" | _ => false end in
  ∃ params,
    extractToolParameters toolName intent context = Returned (VObj params) ∧
    params !! "cartId" =
      (if truthy (cartId context) then Some (cartId context) else props !! "cartId") ∧
    params !! "query" =
      (if searching && negb (truthy (default VUndefined (props !! "query")))
       then Some (VStr "") else props !! "query") ∧
    (∀ k, k ≠ "cartId" → k ≠ "query" → params !! k = props !! k).
Proof.
  intros Hp searching. unfold extractToolParameters. rewrite Hp.
  unfold mbind at 1, outcome_bind at 1. cbv iota beta zeta. simpl spread. fold searching.
  set (carted := if truthy (cartId context) then <["cartId" := cartId context]> props
                 else props).
  assert (carted !! "query" = props !! "query") as Hq.
  { unfold carted. destruct (truthy (cartId context)); [|done]. by rewrite lookup_insert_ne. }
  assert (carted !! "cartId" =
          (if truthy (cartId context) then Some (cartId context) else props !! "cartId"))
    as Hc.
  { unfold carted. destruct (truthy (cartId context)); [|done]. by rewrite lookup_insert_eq. }
  assert (∀ k, k ≠ "cartId" → carted !! k = props !! k) as Hk.
  { intros k Hne. unfold carted. destruct (truthy (cartId context)); [|done].
    by rewrite lookup_insert_ne. }
  unfold own at 1. rewrite Hq.
  destruct (searching && negb (truthy (default VUndefined (props !! "query")))) eqn:Hs.
  - apply andb_prop in Hs as [_ Hfalsy%negb_true_iff].
    simpl get. cbv iota beta. unfold mbind, outcome_bind. unfold or_else. rewrite Hfalsy.
    eexists. split; [reflexivity|].
    split; [by rewrite lookup_insert_ne|]. split; [by rewrite lookup_insert_eq|].
    intros k Hk1 Hk2. rewrite lookup_insert_ne by done. by apply Hk.
  - eexists. split; [reflexivity|]. split; [done|]. split; [done|].
    intros k Hk1 _. by apply Hk.
Qed.

End Parameters.

Section Agent.
Context `{Engine} {W : Type}.
Variable generateCompletion : list ChatMessage → Options → task W value.
Variable toolAdapter_executeTool : value → value → Context → task W value.

#[local] Abbreviation analyzeIntent := (analyzeIntent generateCompletion).
#[local] Abbreviation intent_options := {| temperature := 3 # 10; maxTokens := 300 |}.

(** X11.  An intent that suggests [search_products] and has no [parameters]
    yields one failed entry for it, and the adapter is not called. *)
Theorem search_without_parameters intent context w :
  get intent "suggestedTools" = Returned (VArr [VStr "search_products"]) →
  match own intent "parameters" with VUndefined | VNull => True | _ => False end →
  ∃ text,
    executeTools (recording toolAdapter_executeTool) intent context (w, [])
    = (Returned [object [("toolName", VStr "search_products"); ("success", VBool false);
                         ("error", VStr text)]],
       (w, [])).
Proof.
  intros Hintent Hnull. unfold executeTools, lift, mbind, task_bind. rewrite Hintent.
  simpl iterate. cbv iota beta. cbn [run_tools]. unfold mbind, task_bind.
  unfold tool_entry, task_catch, lift, mbind, task_bind.
  unfold extractToolParameters.
  assert (get intent "parameters" = Returned (own intent "parameters")) as ->
    by (by destruct intent).
  assert (∀ carted : gmap string value,
            carted = (if truthy (cartId context) then <["cartId" := cartId context]> ∅
                      else ∅) →
            truthy (default VUndefined (carted !! "query")) = false) as Hq.
  { intros carted ->. destruct (truthy (cartId context)).
    - by rewrite lookup_insert_ne.
    - done. }
  destruct (own intent "parameters"); try done; simpl;
    rewrite (Hq _ eq_refl); simpl; eexists; reflexivity.
Qed.

(** X12.  When the model answers with [undefined], [null] or a reply whose
    [content] is not a text, [analyzeIntent] returns the intent the keywords
    of the message give, as when the model is down. *)
Theorem unusable_reply_falls_to_keywords userMessage conversationHistory w result w' :
  generateCompletion (intent_messages userMessage) intent_options w = (Returned result, w') →
  match result with
  | VUndefined | VNull => True
  | _ => match own result "content" with VStr _ => False | _ => True end
  end →
  analyzeIntent userMessage conversationHistory w = (Returned (keyword_intent userMessage), w').
Proof.
  intros Hreply Hcontent. rewrite analyzeIntent_eq, Hreply. unfold read_intent.
  destruct result; try done; unfold get; cbv iota beta;
    match type of Hcontent with match ?o with _ => _ end => by destruct o end.
Qed.

End Agent.

Section Keywords.
Implicit Types (s t pre post word : string).

Lemma toLowerCase_app s t : toLowerCase (s +:+ t) = toLowerCase s +:+ toLowerCase t.
Proof.
  induction s as [|c s IH]; [done|].
  change (String c s +:+ t) with (String c (s +:+ t)). cbn [toLowerCase].
  change (String ?a ?x +:+ ?y) with (String a (x +:+ y)). by rewrite IH.
Qed.

Lemma includes_any_case pre word post keyword :
  toLowerCase word = keyword →
  includes (toLowerCase (pre +:+ word +:+ post)) keyword = true.
Proof.
  intros <-. apply includes_occurs. exists (toLowerCase pre), (toLowerCase post).
  by rewrite !toLowerCase_app.
Qed.

Context `{Engine} {W : Type}.
Variable generateCompletion : list ChatMessage → Options → task W value.

(** X13.  When the model is down, a message that contains [search], [find],
    [show] or [looking for] in any mix of upper and lower case, anywhere in
    it, is classified as [product_search] with the raw message as query. *)
Theorem keyword_in_any_case_searches pre word post conversationHistory w e w' :
  let userMessage := pre +:+ word +:+ post in
  generateCompletion (intent_messages userMessage)
    {| temperature := 3 # 10; maxTokens := 300 |} w = (Threw e, w') →
  toLowerCase word ∈ ["search"; "find"; "show"; "looking for"] →
  analyzeIntent generateCompletion userMessage conversationHistory w =
  (Returned (object [
     ("type", VStr "product_search");
     ("requiresTools", VBool true);
     ("suggestedTools", VArr [VStr "search_products"]);
     ("parameters", object [("query", VStr userMessage)])]), w').
Proof.
  intros userMessage Hdown Hword. rewrite analyzeIntent_eq, Hdown.
  unfold keyword_intent. cbv zeta. subst userMessage.
  set (userMessage := pre +:+ word +:+ post).
  assert (includes (toLowerCase userMessage) "search"
          || includes (toLowerCase userMessage) "find"
          || includes (toLowerCase userMessage) "show"
          || includes (toLowerCase userMessage) "looking for" = true) as ->; [|done].
  subst userMessage.
  repeat (apply elem_of_cons in Hword as [Hword|Hword]);
    [| | | |by apply elem_of_nil in Hword];
    rewrite (includes_any_case pre word post _ Hword);
    by rewrite ?orb_true_r.
Qed.

Lemma from_open_skips pre rest :
  includes pre "{" = false → from_open (pre +:+ String "{" rest) = Some (String "{" rest).
Proof.
  induction pre as [|c pre IH]; [done|]. rewrite includes_char.
  intros [Hc Hpre]%orb_false_elim.
  change (String c pre +:+ ?x) with (String c (pre +:+ x)). cbn [from_open].
  rewrite Ascii.eqb_sym, Hc. by apply IH.
Qed.

Lemma upto_last_close_none post : includes post "}" = false → upto_last_close post = None.
Proof.
  induction post as [|c post IH]; [done|]. rewrite includes_char.
  intros [Hc Hpost]%orb_false_elim. cbn [upto_last_close]. rewrite (IH Hpost).
  by rewrite Ascii.eqb_sym, Hc.
Qed.

Lemma upto_last_close_stops body post :
  includes post "}" = false →
  upto_last_close (body +:+ String "}" post) = Some (body +:+ "}").
Proof.
  intros Hpost. induction body as [|c body IH].
  - change ("" +:+ ?x) with x. cbn [upto_last_close].
    by rewrite (upto_last_close_none _ Hpost), Ascii.eqb_refl.
  - change (String c body +:+ ?x) with (String c (body +:+ x)). cbn [upto_last_close].
    by rewrite IH.
Qed.

Lemma match_braces_region pre body post :
  includes pre "{" = false → includes post "}" = false →
  match_braces (pre +:+ "{" +:+ body +:+ "}" +:+ post) = Some ("{" +:+ body +:+ "}").
Proof.
  intros Hpre Hpost. unfold match_braces.
  change ("{" +:+ body +:+ "}" +:+ post) with (String "{" (body +:+ String "}" post)).
  rewrite (from_open_skips _ _ Hpre). cbn [mbind option_bind].
  change (String "{" (body +:+ String "}" post))
    with (String "{" body +:+ String "}" post).
  by rewrite (upto_last_close_stops _ _ Hpost).
Qed.

(** X14.  When the reply of the model wraps a JSON object in prose (no opening
    brace before it, no closing brace after it), [analyzeIntent] returns
    what the object parses to. *)
Theorem json_between_prose_is_read userMessage conversationHistory w result w'
    pre body post intent :
  generateCompletion (intent_messages userMessage)
    {| temperature := 3 # 10; maxTokens := 300 |} w = (Returned result, w') →
  get result "content" = Returned (VStr (pre +:+ "{" +:+ body +:+ "}" +:+ post)) →
  includes pre "{" = false →
  includes post "}" = false →
  JSON_parse ("{" +:+ body +:+ "}") = Returned intent →
  analyzeIntent generateCompletion userMessage conversationHistory w
  = (Returned intent, w').
Proof.
  intros Hreply Hcontent Hpre Hpost Hparse. rewrite analyzeIntent_eq, Hreply.
  unfold read_intent. rewrite Hcontent. simpl.
  rewrite (match_braces_region _ _ _ Hpre Hpost). simpl. by rewrite Hparse.
Qed.

End Keywords.

Section Runs.
Import Doubles Shop.

#[local] Existing Instance Json.engine.

Lemma extractToolParameters_of_object_witness :
  let props : gmap string value :=
    list_to_map [("cartId", VStr "cart-7"); ("pageSize", VNum (num_of_nat 5))] in
  ∃ params,
    extractToolParameters (VStr "search_products") (object [("parameters", VObj props)])
      {| customerToken := VNull; cartId := VStr "cart-1" |} = Returned (VObj params) ∧
    params !! "cartId" = Some (VStr "cart-1") ∧
    params !! "query" = Some (VStr "") ∧
    (∀ k, k ≠ "cartId" → k ≠ "query" → params !! k = props !! k).
Proof.
  assert (get (object [("parameters",
                        object [("cartId", VStr "cart-7");
                                ("pageSize", VNum (num_of_nat 5))])]) "parameters"
          = Returned (VObj (list_to_map [("cartId", VStr "cart-7");
                                         ("pageSize", VNum (num_of_nat 5))]))) as Hparameters.
  { vm_compute. reflexivity. }
  exact (extractToolParameters_of_object (VStr "search_products") _
           {| customerToken := VNull; cartId := VStr "cart-1" |} _ Hparameters).
Defined.

Lemma search_without_parameters_witness :
  ∃ text,
    executeTools toolAdapter (object [("suggestedTools", VArr [VStr "search_products"])])
      no_cart (tt, [])
    = (Returned [object [("toolName", VStr "search_products"); ("success", VBool false);
                         ("error", VStr text)]],
       (tt, [])).
Proof.
  apply (search_without_parameters registry
           (object [("suggestedTools", VArr [VStr "search_products"])]) no_cart tt).
  - vm_compute. reflexivity.
  - vm_compute. exact I.
Defined.

Lemma unusable_reply_falls_to_keywords_witness :
  analyzeIntent (W := unit) speechless_model "what is in my cart" [] tt
  = (Returned (keyword_intent "what is in my cart"), tt).
Proof.
  apply (unusable_reply_falls_to_keywords speechless_model "what is in my cart" [] tt
           (object [("model", VStr "llama3.2")]) tt).
  - reflexivity.
  - vm_compute. exact I.
Defined.

Lemma keyword_in_any_case_searches_witness :
  analyzeIntent (W := unit) unreachable_model "SHOW me red shirts" [] tt =
  (Returned (object [
     ("type", VStr "product_search");
     ("requiresTools", VBool true);
     ("suggestedTools", VArr [VStr "search_products"]);
     ("parameters", object [("query", VStr "SHOW me red shirts")])]), tt).
Proof.
  apply (keyword_in_any_case_searches unreachable_model "" "SHOW" " me red shirts" [] tt
           (Error "Ollama API failed: connect ECONNREFUSED") tt).
  - reflexivity.
  - repeat constructor.
Defined.

Lemma json_between_prose_is_read_witness :
  let body := quoted "`type`:`view_cart`,`requiresTools`:true,`suggestedTools`:[`get_cart`]" in
  analyzeIntent (W := unit)
    (replying_model ("Here is the intent: {" +:+ body +:+ "} as asked.")) "hello" [] tt
  = (Returned (object [("type", VStr "view_cart"); ("requiresTools", VBool true);
                       ("suggestedTools", VArr [VStr "get_cart"])]), tt).
Proof.
  apply (json_between_prose_is_read
           (replying_model
              ("Here is the intent: {" +:+
               quoted "`type`:`view_cart`,`requiresTools`:true,`suggestedTools`:[`get_cart`]"
               +:+ "} as asked."))
           "hello" [] tt
           (object [("content",
              VStr ("Here is the intent: {" +:+
               quoted "`type`:`view_cart`,`requiresTools`:true,`suggestedTools`:[`get_cart`]"
               +:+ "} as asked."))])
           tt "Here is the intent: "
           (quoted "`type`:`view_cart`,`requiresTools`:true,`suggestedTools`:[`get_cart`]")
           " as asked.").
  - reflexivity.
  - reflexivity.
  - reflexivity.
  - reflexivity.
  - vm_compute. reflexivity.
Defined.

End Runs.
End IntentFacts.

Module ToolReportFacts.
Import JS Magento Reports.

Section Monad.
Context {W : Type}.

Lemma task_bind_inv {A B} (m : task W A) (f : A → task W B) w r w' :
  (m ≫= f) w = (Returned r, w') →
  ∃ a w1, m w = (Returned a, w1) ∧ f a w1 = (Returned r, w').
Proof.
  unfold mbind, task_bind. destruct (m w) as [[a|e] w1]; [|done]. intros Hf. by exists a, w1.
Qed.

Lemma lift_inv {A} (m : outcome A) (w : W) r w' :
  lift m w = (Returned r, w') → m = Returned r ∧ w' = w.
Proof. unfold lift. by intros [= -> ->]. Qed.

Lemma outcome_bind_inv {A B} (m : outcome A) (f : A → outcome B) r :
  m ≫= f = Returned r → ∃ a, m = Returned a ∧ f a = Returned r.
Proof. destruct m as [a|e]; [|done]. intros Hf. by exists a. Qed.

Lemma guarded_reports (body : task W value) w :
  (∀ r w', body w = (Returned r, w') → reported r = true) →
  ∃ r w', task_catch body failure w = (Returned r, w') ∧ reported r = true.
Proof.
  intros Hbody. unfold task_catch. destruct (body w) as [[r|e] w'] eqn:Hrun.
  - exists r, w'. split; [done|]. by eapply Hbody.
  - eexists _, _. split; [reflexivity|]. reflexivity.
Qed.

End Monad.

Ltac returned :=
  repeat match goal with
  | H : (_ ≫= _) _ = (Returned _, _) |- _ =>
      apply task_bind_inv in H as (? & ? & ? & H)
  | H : lift _ _ = (Returned _, _) |- _ => apply lift_inv in H as [H ?]
  | H : _ ≫= _ = Returned _ |- _ => apply outcome_bind_inv in H as (? & ? & H)
  | H : (if ?b then _ else _) = Returned _ |- _ => destruct b
  | H : Returned _ = Returned _ |- _ => injection H as <-
  end.

Section Registry.
Context `{Engine} {W : Type}.
Variable magentoClient : option (MagentoClient W).

Lemma tool_reports tool params context w :
  tool ∈ BuiltInTools.tools magentoClient →
  ∃ r w', execute tool params context w = (Returned r, w') ∧ reported r = true.
Proof.
  unfold BuiltInTools.tools. intros Hin.
  repeat (apply elem_of_cons in Hin as [->|Hin]); [..|by apply elem_of_nil in Hin];
    apply guarded_reports; intros r w' Hrun; cbv zeta in Hrun; returned; reflexivity.
Qed.

Lemma find_named toolName (tools : list (Tool W)) tool :
  find (BuiltInTools.named toolName) tools = Some tool →
  tool ∈ tools ∧ toolName = VStr (name tool).
Proof.
  intros [Hin Hnamed]%find_some. split; [by apply list_elem_of_In|].
  unfold BuiltInTools.named in Hnamed. destruct toolName; try done.
  by apply String.eqb_eq in Hnamed as ->.
Qed.

(** X15.  For a tool name that is a text, the registry never throws: whatever the
    parameters, the context, the client and the backend do, it returns an
    object whose [success] is a boolean and which carries a text as [error]
    when [success] is false.  The adapter, once initialized, returns the
    same. *)
Theorem executeTool_always_reports (toolName : string) params context w :
  (∃ result w',
     BuiltInTools.executeTool magentoClient (VStr toolName) params context w
       = (Returned result, w') ∧
     reported result = true) ∧
  ToolAdapter.executeTool (Some magentoClient) (VStr toolName) params context w
    = BuiltInTools.executeTool magentoClient (VStr toolName) params context w.
Proof.
  split; [|reflexivity]. unfold BuiltInTools.executeTool.
  destruct (find _ _) as [tool|] eqn:Hfind.
  - apply find_named in Hfind as [Hin _].
    destruct (tool_reports tool params context w Hin) as (r & w' & Hrun & Hr).
    exists r, w'. unfold task_catch. by rewrite Hrun.
  - eexists _, _. split; reflexivity.
Qed.

End Registry.

Section Uninitialized.
Context `{Engine} {W : Type}.

(** X16.  With no client (the registry before [initialize]) every tool of the
    catalog returns [success] false with an error text, and nothing else
    happens. *)
Theorem tools_need_a_client tool params context (w : W) :
  tool ∈ BuiltInTools.tools None →
  ∃ text,
    execute tool params context w
    = (Returned (object [("success", VBool false); ("error", VStr text)]), w).
Proof.
  unfold BuiltInTools.tools. intros Hin.
  repeat (apply elem_of_cons in Hin as [->|Hin]); [..|by apply elem_of_nil in Hin];
    cbn [execute ProductTools.productSearchTool ProductTools.getProductDetailsTool
         CartTools.createCartTool CartTools.addToCartTool CartTools.getCartTool
         CartTools.updateCartItemTool CartTools.removeCartItemTool];
    unfold ProductTools.productSearch_execute, ProductTools.getProductDetails_execute,
      CartTools.createCart_execute, CartTools.addToCart_execute, CartTools.getCart_execute,
      CartTools.updateCartItem_execute, CartTools.removeCartItem_execute,
      task_catch, lift, mbind, task_bind, failure; cbv zeta;
    repeat match goal with
    | |- context [match ?m with Returned _ => _ | Threw _ => _ end] =>
        lazymatch m with
        | destructure _ _ _ => destruct m as [[]|?]
        | ToString _ => destruct m as [?|?]
        end
    end;
    eexists; reflexivity.
Qed.

End Uninitialized.

Section Once.
Context {W R : Type}.
Variable expected : R → Prop.

#[local] Abbreviation Sent := (W * list R)%type.

Lemma once_lift_bind {A B} (m : outcome A) (f : A → task Sent B) :
  (∀ x, m = Returned x → at_most_once expected (f x)) →
  at_most_once expected (lift m ≫= f).
Proof.
  intros Hf w sent. unfold lift, mbind, task_bind. destruct m as [x|e].
  - by apply Hf.
  - exists []. rewrite app_nil_r. split; [done|]. split; [simpl; lia|constructor].
Qed.

Lemma silent_lift {A} (m : outcome A) : silent (lift m : task Sent A).
Proof. by intros w sent. Qed.

Lemma once_catch (m : task Sent value) :
  at_most_once expected m → at_most_once expected (task_catch m failure).
Proof.
  intros Hm w sent. destruct (Hm w sent) as (new & Hnew & Hlen & Hall).
  exists new. split; [|done]. unfold task_catch.
  by destruct (m (w, sent)) as [[r|e] w'].
Qed.

Lemma once_read (m : task Sent value) w :
  at_most_once expected m →
  (length (m (w, [])).2.2 ≤ 1)%nat ∧ ∀ request, request ∈ (m (w, [])).2.2 → expected request.
Proof.
  intros Hm. destruct (Hm w []) as (new & Hnew & Hlen & Hall). simpl in Hnew.
  rewrite Hnew. split; [done|]. by apply Forall_forall.
Qed.

End Once.

Section Requests.
Context `{Engine} {W : Type}.
Variable magentoClient : MagentoClient W.
Variable expected : document * value * value → Prop.

Lemma once_query {B} doc variables token
    (f : value → task (W * list (document * value * value)) B) :
  expected (doc, variables, token) →
  (∀ data, silent (f data)) →
  at_most_once expected (query (recording_client magentoClient) doc variables token ≫= f).
Proof.
  intros Hexpected Hf w sent. exists [(doc, variables, token)].
  split; [|split; [simpl; lia|by apply Forall_singleton]].
  unfold mbind, task_bind, recording_client, recording. simpl.
  destruct (query magentoClient doc variables token w) as [[data|e] w']; [|done].
  apply Hf.
Qed.

End Requests.

(** A tool run sends what it sends in one request: the lifted steps before
    it, the request by [sending], the reading of the answer. *)
Ltac single_request sending :=
  cbv zeta; apply once_catch;
  repeat first
    [ sending
    | apply once_lift_bind; intros ? ?;
      try match goal with
          | Hm : method _ _ = Returned _ |- _ => simpl in Hm; injection Hm as <-
          end ].

Section Sent.
Context `{Engine} {W : Type}.
Variable magentoClient : MagentoClient W.

#[local] Abbreviation recorded := (Some (recording_client magentoClient)).

(** X17.  A run of a tool of the catalog sends the backend at most one request.
    The two product tools send it without a customer token, the five cart
    tools with the token of the context. *)
Theorem tools_send_at_most_one_request tool params context (w : W) :
  tool ∈ BuiltInTools.tools recorded →
  let requests := (execute tool params context (w, [])).2.2 in
  (length requests ≤ 1)%nat ∧
  ∀ request, request ∈ requests →
    request.2 = if anonymous (name tool) then VNull
                else default_null (customerToken context).
Proof.
  intros Hin. cbv zeta.
  apply (once_read (λ request, request.2 = if anonymous (name tool) then VNull
                                          else default_null (customerToken context))).
  unfold BuiltInTools.tools in Hin.
  repeat (apply elem_of_cons in Hin as [->|Hin]); [..|by apply elem_of_nil in Hin];
    single_request ltac:(apply once_query; [|intros ?; apply silent_lift]); reflexivity.
Qed.

End Sent.

Section Answers.
Context `{Engine} {W : Type}.
Variable magentoClient : MagentoClient W.

Lemma more_than_none {A} (l : list A) :
  l ≠ [] → gt_number (num_of_nat (length l)) (num_of_nat 0) = true.
Proof.
  destruct l as [|x l]; [done|]. intros _. unfold gt_number, num_of_nat.
  apply negb_true_iff, not_true_iff_false. rewrite Qle_bool_iff.
  unfold Qle, inject_Z. simpl Qnum. simpl Qden. cbn [length]. lia.
Qed.

Lemma messages_read (errors : list value) (texts : list string) :
  Forall2 (λ e text, get e "message" = Returned (VStr text)) errors texts →
  map_outcome (λ e, get e "message") errors = Returned (VStr <$> texts).
Proof.
  induction 1 as [|e text errors texts He _ IH]; [done|].
  cbn [map_outcome]. rewrite He, IH. reflexivity.
Qed.

Lemma join_strings_texts (texts : list string) :
  join_strings (VStr <$> texts) = Returned texts.
Proof.
  induction texts as [|text texts IH]; [done|].
  rewrite fmap_cons. cbn [join_strings]. rewrite IH. reflexivity.
Qed.

(** X18.  When the backend answers [add_to_cart] with a non-empty list of user
    errors, the tool returns [success] false and, as [error], their messages
    joined by a comma and a space. *)
Theorem addToCart_reports_user_errors params context w data w' errors texts :
  let quantity := pattern_default params "quantity" (VNum (num_of_nat 1)) in
  destructure params "sku" "params" = Returned () →
  completes (ToString quantity) = true →
  completes (ToString (own params "sku")) = true →
  completes (ToString (own params "cartId")) = true →
  mutate magentoClient ADD_PRODUCTS_TO_CART_MUTATION
    (object [("cartId", own params "cartId");
             ("cartItems", VArr [object [("sku", own params "sku");
                                         ("quantity", quantity)]])])
    (default_null (customerToken context)) w = (Returned data, w') →
  path data ["addProductsToCart"; "user_errors"] = Returned (VArr errors) →
  Forall2 (λ e text, get e "message" = Returned (VStr text)) errors texts →
  errors ≠ [] →
  CartTools.addToCart_execute (Some magentoClient) params context w
  = (Returned (object [("success", VBool false); ("error", VStr (join ", " texts))]), w').
Proof.
  intros quantity Hparams Hquantity Hsku Hcart Hsent Herrors Htexts Hsome.
  unfold CartTools.addToCart_execute, task_catch, lift, mbind, task_bind. cbv zeta.
  rewrite Hparams. fold quantity.
  destruct (ToString quantity) as [added|]; [|done].
  destruct (ToString (own params "sku")) as [shown|]; [|done].
  destruct (ToString (own params "cartId")) as [cart|]; [|done].
  simpl method. cbv iota beta. rewrite Hsent. rewrite Herrors.
  assert (greater_than (opt_get (VArr errors) "length") (num_of_nat 0) = Returned true)
    as Hgt.
  { unfold greater_than, opt_get, own. change ("length" =? "length") with true.
    cbv iota. simpl ToNumber. unfold mbind, outcome_bind.
    by rewrite (more_than_none errors Hsome). }
  assert (Array_map "data.addProductsToCart.user_errors" (VArr errors)
            (λ e, get e "message") = Returned (VStr <$> texts)) as Hmap.
  { unfold Array_map. by apply messages_read. }
  assert (Array_join (VStr <$> texts) ", " = Returned (join ", " texts)) as Hjoin.
  { unfold Array_join. by rewrite join_strings_texts. }
  unfold outcome_bind at 1. rewrite Hgt. unfold outcome_bind at 1.
  rewrite Hmap. unfold outcome_bind at 1. rewrite Hjoin. reflexivity.
Qed.

(** When the backend finds no product for the SKU, [get_product_details]
    returns [success] false with the error [Product with SKU "..." not
    found]. *)
Theorem getProductDetails_not_found params context w shown data w' :
  destructure params "sku" "params" = Returned () →
  ToString (own params "sku") = Returned shown →
  query magentoClient GET_PRODUCT_DETAILS_QUERY (object [("sku", own params "sku")]) VNull w
    = (Returned data, w') →
  path data ["products"; "items"] = Returned (VArr []) →
  ProductTools.getProductDetails_execute (Some magentoClient) params context w
  = (Returned (object [
       ("success", VBool false);
       ("error", VStr ("Product with SKU " +:+ String dquote shown
                       +:+ String dquote " not found"))]), w').
Proof.
  intros Hparams Hshown Hsent Hitems.
  unfold ProductTools.getProductDetails_execute, task_catch, lift, mbind, task_bind.
  cbv zeta. rewrite Hparams, Hshown. simpl method. cbv iota beta.
  rewrite Hsent, Hitems. reflexivity.
Qed.

End Answers.

Section Runs.
Import Doubles Shop.

#[local] Existing Instance Json.engine.

Lemma tools_need_a_client_witness :
  ∃ text,
    execute (CartTools.createCartTool (W := unit) None) (object []) no_cart tt
    = (Returned (object [("success", VBool false); ("error", VStr text)]), tt).
Proof.
  apply (tools_need_a_client (CartTools.createCartTool None) (object []) no_cart tt).
  unfold BuiltInTools.tools. repeat constructor.
Defined.

Lemma tools_send_at_most_one_request_witness :
  let requests :=
    (execute (CartTools.addToCartTool (Some (recording_client (W := unit) magentoClient)))
       (object [("sku", VStr "SHIRT-RED-M")]) shopper (tt, [])).2.2 in
  (length requests ≤ 1)%nat ∧
  ∀ request, request ∈ requests → request.2 = VStr "customer-token-1".
Proof.
  exact (tools_send_at_most_one_request magentoClient
           (CartTools.addToCartTool (Some (recording_client magentoClient)))
           (object [("sku", VStr "SHIRT-RED-M")]) shopper tt
           ltac:(unfold BuiltInTools.tools; repeat constructor)).
Defined.

Lemma addToCart_reports_user_errors_witness :
  CartTools.addToCart_execute (W := unit) (Some empty_shelf)
    (object [("sku", VStr "SHIRT-RED-M"); ("cartId", VStr "cart-1")]) no_cart tt
  = (Returned (object [
       ("success", VBool false);
       ("error", VStr ("The requested qty is not available, " +:+
                       "Could not add the product to the cart"))]), tt).
Proof.
  apply (addToCart_reports_user_errors empty_shelf
           (object [("sku", VStr "SHIRT-RED-M"); ("cartId", VStr "cart-1")]) no_cart tt
           out_of_stock tt
           [object [("code", VStr "INSUFFICIENT_STOCK");
                    ("message", VStr "The requested qty is not available")];
            object [("code", VStr "UNDEFINED");
                    ("message", VStr "Could not add the product to the cart")]]
           ["The requested qty is not available";
            "Could not add the product to the cart"]).
  - reflexivity.
  - vm_compute. reflexivity.
  - vm_compute. reflexivity.
  - vm_compute. reflexivity.
  - reflexivity.
  - vm_compute. reflexivity.
  - repeat constructor.
  - discriminate.
Defined.

Lemma getProductDetails_not_found_witness :
  ProductTools.getProductDetails_execute (W := unit) (Some empty_shelf)
    (object [("sku", VStr "SHIRT-RED-M")]) no_cart tt
  = (Returned (object [
       ("success", VBool false);
       ("error", VStr ("Product with SKU " +:+ String dquote "SHIRT-RED-M"
                       +:+ String dquote " not found"))]), tt).
Proof.
  apply (getProductDetails_not_found empty_shelf (object [("sku", VStr "SHIRT-RED-M")])
           no_cart tt "SHIRT-RED-M"
           (object [("products", object [("items", VArr [])])]) tt).
  - reflexivity.
  - vm_compute. reflexivity.
  - reflexivity.
  - vm_compute. reflexivity.
Defined.

End Runs.
End ToolReportFacts.

Module MagentoGraphQLFacts.
Import JS Magento Reports MagentoGraphQL ToolReportFacts.

Section Construction.
Context `{Engine}.
Variable env : gmap string string.

Lemma get_other config k given k' :
  get config k = Returned given → get config k' = Returned (own config k').
Proof. by destruct config. Qed.

Lemma detectMode_text (url : string) :
  ∃ mode, detectMode (VStr url) = Returned mode ∧ (mode = "paas" ∨ mode = "saas").
Proof.
  unfold detectMode. simpl. destruct (_ || _); [by eexists; eauto|].
  destruct (includes _ _); eexists; eauto.
Qed.

(** X19.  The GraphQL address of a new client is the one of the configuration or
    else of the environment.  A non-empty text is accepted, and the mode is
    [paas] or [saas].  The error [MAGENTO_GRAPHQL_URL is required] is thrown
    only for the empty text; with no address at all (a falsy configured one
    and none in the environment) the constructor throws the TypeError of
    [detectMode] reading [toLowerCase] of [undefined]. *)
Theorem new_MagentoClient_needs_url config given :
  get config "MAGENTO_GRAPHQL_URL" = Returned given →
  let url := or_else given (process_env env "MAGENTO_GRAPHQL_URL") in
  (∀ text, url = VStr text → text ≠ "" →
     ∃ client, new_MagentoClient env config = Returned client ∧
               graphqlUrl client = VStr text ∧
               (mode client = "paas" ∨ mode client = "saas")) ∧
  (url = VStr "" →
     new_MagentoClient env config = Threw (Error "MAGENTO_GRAPHQL_URL is required")) ∧
  (url = VUndefined →
     new_MagentoClient env config
     = Threw (TypeError "Cannot read properties of undefined (reading 'toLowerCase')")) ∧
  (url = VUndefined ↔ truthy given = false ∧ env !! "MAGENTO_GRAPHQL_URL" = None).
Proof.
  intros Hgiven url. unfold new_MagentoClient, configured.
  rewrite Hgiven, (get_other _ _ _ "MAGENTO_API_TOKEN" Hgiven).
  unfold mbind, outcome_bind. cbv beta iota.
  fold url. split; [|split; [|split]].
  - intros text -> Htext. destruct (detectMode_text text) as (mode & -> & Hmode).
    simpl. apply String.eqb_neq in Htext as ->. simpl. by eexists.
  - intros ->. reflexivity.
  - intros ->. reflexivity.
  - unfold url, or_else, process_env. destruct (truthy given) eqn:Htruthy.
    + split; [intros ->; done|]. by intros [? _].
    + destruct (env !! "MAGENTO_GRAPHQL_URL"); split; try done. by intros [_ ?].
Qed.

End Construction.

Section Requests.
Context `{Engine} {W : Type}.
Variable axios_post : value → value → value → W → (AxiosError + value) * W.

#[local] Abbreviation query := (MagentoGraphQL.query axios_post).

(** X20.  When the server answers with an [errors] array, [query] throws an Error
    whose message is [Magento API Error: GraphQL Error: ] followed by the
    messages joined by a comma and a space: the error thrown in the [try]
    block passes through the [catch] of the same function. *)
Theorem graphql_errors_are_thrown client queryString variables customerToken w
    url hs data w' errors texts :
  graphqlUrl client = VStr url →
  variables ≠ VNull →
  headers client (default_null customerToken) = Returned hs →
  axios_post (VStr url)
    (object [("query", queryString);
             ("variables", match variables with VUndefined => object [] | _ => variables end)])
    hs w = (inr data, w') →
  get data "errors" = Returned (VArr errors) →
  Forall2 (λ e text, get e "message" = Returned (VStr text)) errors texts →
  query client queryString variables customerToken w
  = (Threw (Error ("Magento API Error: GraphQL Error: " +:+ join ", " texts)), w').
Proof.
  intros Hurl Hvariables Hheaders Hpost Herrors Htexts.
  unfold MagentoGraphQL.query. cbv zeta. unfold mbind, task_bind, lift.
  rewrite Hheaders. unfold request, attempt. rewrite Hurl.
  assert (Object_keys match variables with VUndefined => object [] | _ => variables end
          = Returned ()) as ->.
  { by destruct variables. }
  simpl String_startsWith. unfold mbind, outcome_bind. cbv iota beta. rewrite Hpost.
  rewrite Herrors.
  assert (Array_map "response.data.errors" (VArr errors) (λ e, get e "message")
          = Returned (VStr <$> texts)) as Hmap.
  { unfold Array_map. by apply messages_read. }
  assert (Array_join (VStr <$> texts) ", " = Returned (join ", " texts)) as Hjoin.
  { unfold Array_join. by rewrite join_strings_texts. }
  unfold mbind, outcome_bind. cbv beta iota. simpl truthy. cbv iota.
  rewrite Hmap. cbv beta iota. rewrite Hjoin. reflexivity.
Qed.

(** When the request is rejected, [query] throws an Error: for the code
    [ECONNREFUSED] that Magento cannot be reached at the address, for
    [ENOTFOUND] that the host name does not resolve, otherwise [Magento API
    Error: ] followed by the message of the rejection. *)
Theorem rejections_are_explained client queryString variables customerToken w
    url hs rejection w' :
  graphqlUrl client = VStr url →
  variables ≠ VNull →
  headers client (default_null customerToken) = Returned hs →
  axios_post (VStr url)
    (object [("query", queryString);
             ("variables", match variables with VUndefined => object [] | _ => variables end)])
    hs w = (inl rejection, w') →
  query client queryString variables customerToken w
  = (Threw (Error
       (if is_string (axios_code rejection) "ECONNREFUSED"
        then "Cannot connect to Magento at " +:+ url +:+ ". Is it running?"
        else if is_string (axios_code rejection) "ENOTFOUND"
        then "Cannot resolve hostname. Check MAGENTO_GRAPHQL_URL: " +:+ url
        else "Magento API Error: " +:+ axios_message rejection)), w').
Proof.
  intros Hurl Hvariables Hheaders Hpost.
  unfold MagentoGraphQL.query. cbv zeta. unfold mbind, task_bind, lift.
  rewrite Hheaders. unfold request, attempt. rewrite Hurl.
  assert (Object_keys match variables with VUndefined => object [] | _ => variables end
          = Returned ()) as ->.
  { by destruct variables. }
  simpl String_startsWith. unfold mbind, outcome_bind. cbv iota beta. rewrite Hpost.
  unfold rethrown. rewrite Hurl. simpl thrown_code. simpl thrown_message.
  destruct (is_string (axios_code rejection) "ECONNREFUSED"); [reflexivity|].
  destruct (is_string (axios_code rejection) "ENOTFOUND"); reflexivity.
Qed.

End Requests.

Section Sent.
Context `{Engine} {W : Type}.
Variable axios_post : value → value → value → W → (AxiosError + value) * W.
Variable source : document → string.
Variable client : Client.
Variable expected : value * value * value → Prop.

#[local] Abbreviation posted := (recording_post axios_post).

Lemma attempt_posts queryString variables hs w sent :
  ∃ new,
    (attempt posted client queryString variables hs (w, sent)).2.2 = (sent ++ new)%list ∧
    (new = [] ∨
     new = [(graphqlUrl client,
             object [("query", queryString); ("variables", variables)], hs)]).
Proof.
  unfold attempt. destruct (_ ≫= _) as [starts|e].
  - exists [(graphqlUrl client, object [("query", queryString); ("variables", variables)], hs)].
    split; [|by right]. unfold recording_post.
    by destruct (axios_post _ _ _ w) as [[rejection|data] w'].
  - exists []. split; [by rewrite app_nil_r|by left].
Qed.

Lemma once_post {B} queryString variables customerToken
    (f : value → task (W * list (value * value * value)) B) :
  (∀ hs, headers client (default_null customerToken) = Returned hs →
         expected (graphqlUrl client,
                   object [("query", queryString);
                           ("variables",
                            match variables with VUndefined => object [] | _ => variables end)],
                   hs)) →
  (∀ data, silent (f data)) →
  at_most_once expected (MagentoGraphQL.query posted client queryString variables customerToken
                         ≫= f).
Proof.
  intros Hexpected Hf w sent.
  unfold MagentoGraphQL.query. cbv zeta. unfold mbind, task_bind, lift.
  destruct (headers client (default_null customerToken)) as [hs|e] eqn:Hheaders.
  - unfold request.
    destruct (attempt_posts queryString
                match variables with VUndefined => object [] | _ => variables end
                hs w sent) as (new & Hnew & Hcases).
    exists new. split.
    + destruct (attempt _ _ _ _ _ _) as [[error|result] [w' sent']]; simpl in Hnew.
      * destruct (rethrown client error); [rewrite Hf|]; exact Hnew.
      * rewrite Hf. exact Hnew.
    + destruct Hcases as [->| ->]; [split; [simpl; lia|constructor]|].
      split; [simpl; lia|]. apply Forall_singleton. by apply Hexpected.
  - exists []. rewrite app_nil_r. split; [done|]. split; [simpl; lia|constructor].
Qed.

End Sent.

Section Tools.
Context `{Engine} {W : Type}.
Variable axios_post : value → value → value → W → (AxiosError + value) * W.
Variable source : document → string.
Variable client : Client.

#[local] Abbreviation connected :=
  (Some (graphql_client (recording_post axios_post) source client)).

(** X21.  Over the GraphQL client, a run of a tool of the catalog posts at most
    once, to the address of the client, with the headers the client builds
    for no customer token (the two product tools) or for the token of the
    context (the five cart tools). *)
Theorem tools_authorize_requests tool params context (w : W) :
  tool ∈ BuiltInTools.tools connected →
  let requests := (execute tool params context (w, [])).2.2 in
  let customerToken :=
    if anonymous (name tool) then VNull else default_null (customerToken context) in
  (length requests ≤ 1)%nat ∧
  ∀ request, request ∈ requests →
    request.1.1 = graphqlUrl client ∧
    headers client customerToken = Returned request.2.
Proof.
  intros Hin. cbv zeta.
  apply (once_read (λ request,
           request.1.1 = graphqlUrl client ∧
           headers client (if anonymous (name tool) then VNull
                           else default_null (customerToken context))
           = Returned request.2)).
  unfold BuiltInTools.tools in Hin.
  repeat (apply elem_of_cons in Hin as [->|Hin]); [..|by apply elem_of_nil in Hin];
    single_request ltac:(apply once_post; [|intros ?; apply silent_lift]);
    intros hs Hhs; (split; [reflexivity|]);
    cbn [name anonymous ProductTools.productSearchTool ProductTools.getProductDetailsTool
         CartTools.createCartTool CartTools.addToCartTool CartTools.getCartTool
         CartTools.updateCartItemTool CartTools.removeCartItemTool];
    first [exact Hhs | by destruct (customerToken context)].
Qed.

End Tools.

Section Runs.
Import Doubles Shop.

#[local] Existing Instance Json.engine.

Lemma new_MagentoClient_needs_url_witness :
  let env : gmap string string := {["MAGENTO_API_TOKEN" := "api-token-1"]} in
  let config := object [("TOOL_MODE", VStr "built-in")] in
  let url := or_else VUndefined (process_env env "MAGENTO_GRAPHQL_URL") in
  (∀ text, url = VStr text → text ≠ "" →
     ∃ client, new_MagentoClient env config = Returned client ∧
               graphqlUrl client = VStr text ∧
               (mode client = "paas" ∨ mode client = "saas")) ∧
  (url = VStr "" →
     new_MagentoClient env config = Threw (Error "MAGENTO_GRAPHQL_URL is required")) ∧
  (url = VUndefined →
     new_MagentoClient env config
     = Threw (TypeError "Cannot read properties of undefined (reading 'toLowerCase')")) ∧
  (url = VUndefined ↔ truthy VUndefined = false ∧ env !! "MAGENTO_GRAPHQL_URL" = None).
Proof.
  exact (new_MagentoClient_needs_url {["MAGENTO_API_TOKEN" := "api-token-1"]}
           (object [("TOOL_MODE", VStr "built-in")]) VUndefined
           ltac:(vm_compute; reflexivity)).
Defined.

Lemma graphql_errors_are_thrown_witness :
  MagentoGraphQL.query server_refusing shop_client (VStr (documents GET_CART_QUERY))
    (object [("cartId", VStr "7")]) VNull tt
  = (Threw (Error ("Magento API Error: GraphQL Error: " +:+
                   "Could not find a cart with ID 7, Internal server error")), tt).
Proof.
  apply (graphql_errors_are_thrown server_refusing shop_client
           (VStr (documents GET_CART_QUERY)) (object [("cartId", VStr "7")]) VNull tt
           "https://shop.example/graphql"
           (object [("Content-Type", VStr "application/json");
                    ("Authorization", VStr "Bearer api-token-1")])
           (object [("errors", VArr [
              object [("message", VStr "Could not find a cart with ID 7")];
              object [("message", VStr "Internal server error")]])]) tt
           [object [("message", VStr "Could not find a cart with ID 7")];
            object [("message", VStr "Internal server error")]]
           ["Could not find a cart with ID 7"; "Internal server error"]).
  - reflexivity.
  - discriminate.
  - vm_compute. reflexivity.
  - reflexivity.
  - vm_compute. reflexivity.
  - repeat constructor.
Defined.

Lemma rejections_are_explained_witness :
  MagentoGraphQL.query server_down shop_client (VStr (documents GET_CART_QUERY))
    (object [("cartId", VStr "7")]) VNull tt
  = (Threw (Error ("Cannot connect to Magento at https://shop.example/graphql" +:+
                   ". Is it running?")), tt).
Proof.
  apply (rejections_are_explained server_down shop_client
           (VStr (documents GET_CART_QUERY)) (object [("cartId", VStr "7")]) VNull tt
           "https://shop.example/graphql"
           (object [("Content-Type", VStr "application/json");
                    ("Authorization", VStr "Bearer api-token-1")])
           {| axios_message := "connect ECONNREFUSED 127.0.0.1:443";
              axios_code := VStr "ECONNREFUSED"; axios_status := VUndefined;
              axios_data := VUndefined |} tt).
  - reflexivity.
  - discriminate.
  - vm_compute. reflexivity.
  - reflexivity.
Defined.

Lemma tools_authorize_requests_witness :
  let connected := Some (graphql_client (recording_post server_idle) documents shop_client) in
  let requests :=
    (execute (ProductTools.productSearchTool connected)
       (object [("query", VStr "red shirts")]) shopper (tt, [])).2.2 in
  (length requests ≤ 1)%nat ∧
  ∀ request, request ∈ requests →
    request.1.1 = VStr "https://shop.example/graphql" ∧
    headers shop_client VNull = Returned request.2.
Proof.
  exact (tools_authorize_requests server_idle documents shop_client
           (ProductTools.productSearchTool
              (Some (graphql_client (recording_post server_idle) documents shop_client)))
           (object [("query", VStr "red shirts")]) shopper tt
           ltac:(unfold BuiltInTools.tools; repeat constructor)).
Defined.

End Runs.
End MagentoGraphQLFacts.

Module LLMProviderFacts.
Import JS MagentoGraphQL LLMProvider Reports ToolReportFacts.

Section Objects.

Lemma own_object_here k v props : own (object ((k, v) :: props)) k = v.
Proof. unfold own, object. simpl. by rewrite lookup_insert_eq. Qed.

Lemma own_object_next k k' v props :
  k ≠ k' → own (object ((k', v) :: props)) k = own (object props) k.
Proof. intros Hne. unfold own, object. simpl. by rewrite lookup_insert_ne. Qed.

End Objects.

Ltac own_object :=
  repeat first [ rewrite own_object_here | rewrite own_object_next by discriminate ].

Section Provider.
Context `{Engine}.
Variable env : gmap string string.

Lemma configured_own params k :
  match params with VUndefined | VNull => False | _ => True end →
  configured env params k = Returned (or_else (own params k) (process_env env k)).
Proof. by destruct params. Qed.

Lemma new_LLMProvider_named props name :
  own (VObj props) "provider" = VStr name → name ≠ "" →
  new_LLMProvider (VObj props) =
  (_ ← validateConfig {| provider := VStr name; config := VObj props |};
   Returned {| provider := VStr name; config := VObj props |}).
Proof.
  intros Hprovider Hname. unfold new_LLMProvider, get. rewrite Hprovider.
  unfold mbind at 1, outcome_bind at 1. cbv zeta. unfold or_else. simpl truthy.
  apply String.eqb_neq in Hname as ->. reflexivity.
Qed.

Lemma requires props name k text v :
  validateConfig {| provider := VStr name; config := VObj props |}
    = required {| provider := VStr name; config := VObj props |} k text →
  own (VObj props) "provider" = VStr name → name ≠ "" →
  own (VObj props) k = v →
  if truthy v
  then ∃ this, new_LLMProvider (VObj props) = Returned this ∧ provider this = VStr name
  else new_LLMProvider (VObj props) = Threw (Error text).
Proof.
  intros Hvalidate Hprovider Hname <-.
  rewrite (new_LLMProvider_named _ _ Hprovider Hname), Hvalidate.
  unfold required, get. cbn [config]. unfold mbind, outcome_bind. cbv beta iota.
  destruct (truthy (own (VObj props) k)); [|reflexivity]. by eexists.
Qed.

(** X22.  [createLLMProvider] takes each setting from its parameters or else from
    the environment, and the provider [ollama] when none is named.  With
    [ollama] it always returns a provider (the base address has a default).
    With [openai], [claude] or [gemini] it returns one exactly when the API
    key of that provider is set, and throws the error naming the missing key
    otherwise.  Any other name throws [Unsupported LLM provider: ] and the
    name. *)
Theorem createLLMProvider_checks_the_key params :
  params ≠ VNull →
  let given := match params with VUndefined => object [] | _ => params end in
  let setting k := or_else (own given k) (process_env env k) in
  let chosen := or_else (setting "LLM_PROVIDER") (VStr "ollama") in
  let needs (k text : string) :=
    if truthy (setting k)
    then ∃ this, createLLMProvider env params = Returned this ∧ provider this = chosen
    else createLLMProvider env params = Threw (Error text) in
  (chosen = VStr "ollama" →
     ∃ this, createLLMProvider env params = Returned this ∧ provider this = chosen) ∧
  (chosen = VStr "openai" →
     needs "OPENAI_API_KEY" "OPENAI_API_KEY is required for OpenAI provider") ∧
  (chosen = VStr "claude" →
     needs "CLAUDE_API_KEY" "CLAUDE_API_KEY is required for Claude provider") ∧
  (chosen = VStr "gemini" →
     needs "GOOGLE_API_KEY" "GOOGLE_API_KEY is required for Gemini provider") ∧
  (∀ name, chosen = VStr name →
     name ∉ ["ollama"; "openai"; "claude"; "gemini"] →
     createLLMProvider env params
     = Threw (Error ("Unsupported LLM provider: " +:+ name))).
Proof.
  intros Hparams given setting chosen needs.
  assert (match given with VUndefined | VNull => False | _ => True end) as Hgiven.
  { unfold given. by destruct params. }
  set (config := object [
         ("provider", chosen);
         ("ollamaBaseUrl", or_else (setting "OLLAMA_BASE_URL")
                                   (VStr "http://localhost:11434"));
         ("ollamaModel", or_else (setting "OLLAMA_MODEL") (VStr "llama3.2"));
         ("openaiApiKey", setting "OPENAI_API_KEY");
         ("openaiModel", or_else (setting "OPENAI_MODEL") (VStr "gpt-4o-mini"));
         ("claudeApiKey", setting "CLAUDE_API_KEY");
         ("claudeModel", or_else (setting "CLAUDE_MODEL")
                                 (VStr "claude-sonnet-4-20250514"));
         ("geminiApiKey", setting "GOOGLE_API_KEY");
         ("geminiModel", or_else (setting "GEMINI_MODEL")
                                 (VStr "gemini-2.5-flash-lite"))]).
  assert (createLLMProvider env params = new_LLMProvider config) as Hcreate.
  { unfold createLLMProvider. cbv zeta. fold given.
    rewrite !(configured_own given) by done. reflexivity. }
  assert (∀ name, chosen = VStr name → name ≠ "") as Hnonempty.
  { intros name Hname ->. unfold chosen, or_else in Hname.
    destruct (truthy (setting "LLM_PROVIDER")) eqn:Hs; [|done].
    rewrite Hname in Hs. done. }
  assert (∃ props, config = VObj props) as Hobject by (by eexists).
  assert (own config "provider" = chosen) as Hprovider by (unfold config; by own_object).
  assert (own config "ollamaBaseUrl"
          = or_else (setting "OLLAMA_BASE_URL") (VStr "http://localhost:11434")) as Hbase
    by (unfold config; by own_object).
  assert (own config "openaiApiKey" = setting "OPENAI_API_KEY") as Hopenai
    by (unfold config; by own_object).
  assert (own config "claudeApiKey" = setting "CLAUDE_API_KEY") as Hclaude
    by (unfold config; by own_object).
  assert (own config "geminiApiKey" = setting "GOOGLE_API_KEY") as Hgemini
    by (unfold config; by own_object).
  unfold needs. rewrite Hcreate. clearbody config. destruct Hobject as [props ->].
  split; [|split; [|split; [|split]]].
  - intros Hchosen. rewrite Hchosen in Hprovider |- *.
    pose proof (requires props "ollama" "ollamaBaseUrl"
                  "OLLAMA_BASE_URL is required for Ollama provider" _ eq_refl Hprovider
                  (Hnonempty _ Hchosen) Hbase) as Hneeds.
    replace (truthy (or_else (setting "OLLAMA_BASE_URL") (VStr "http://localhost:11434")))
      with true in Hneeds; [done|].
    unfold or_else. by destruct (truthy (setting "OLLAMA_BASE_URL")) eqn:Hs.
  - intros Hchosen. rewrite Hchosen in Hprovider |- *.
    by apply (requires props "openai" "openaiApiKey"); [| |apply Hnonempty|].
  - intros Hchosen. rewrite Hchosen in Hprovider |- *.
    by apply (requires props "claude" "claudeApiKey"); [| |apply Hnonempty|].
  - intros Hchosen. rewrite Hchosen in Hprovider |- *.
    by apply (requires props "gemini" "geminiApiKey"); [| |apply Hnonempty|].
  - intros name Hchosen Hother. rewrite Hchosen in Hprovider.
    rewrite (new_LLMProvider_named _ _ Hprovider (Hnonempty _ Hchosen)).
    unfold validateConfig. cbn [provider is_string].
    repeat (apply not_elem_of_cons in Hother as [Hne Hother];
            apply String.eqb_neq in Hne as ->).
    reflexivity.
Qed.

End Provider.

Section Completion.
Context `{Engine} {W : Type}.
Variable axios_post : value → value → value → W → (AxiosError + value) * W.
Variable plus : value → value → outcome value.
Variable expected : value * value * value → Prop.

#[local] Abbreviation posted := (recording_post axios_post).

Lemma once_request target payload read explain :
  (∀ url headers, target = Returned (url, headers) → expected (url, payload, headers)) →
  at_most_once expected (request posted target payload read explain).
Proof.
  intros Hexpected w sent. unfold request.
  destruct target as [[url headers]|e].
  - exists [(url, payload, headers)]. split; [|split; [simpl; lia|]].
    + unfold recording_post. by destruct (axios_post url payload headers w) as [[|] ?].
    + apply Forall_singleton. by apply Hexpected.
  - exists []. rewrite app_nil_r. split; [done|]. split; [simpl; lia|constructor].
Qed.

Lemma once_lift {A} (m : outcome A) :
  at_most_once expected (lift m : task (W * list (value * value * value)) A).
Proof.
  intros w sent. exists []. rewrite app_nil_r. split; [done|]. split; [simpl; lia|constructor].
Qed.

End Completion.

Section Endpoints.
Context `{Engine} {W : Type}.
Variable axios_post : value → value → value → W → (AxiosError + value) * W.
Variable plus : value → value → outcome value.

(** X23.  A call of [generateCompletion] posts at most once, and only to the
    address of the provider it was built for: the chat address under the
    base address for [ollama], the fixed addresses of [openai] and [claude],
    the address with the API key for [gemini]; for [ollama] and [openai] the
    messages go out as they came in.  A throw before the request, or a
    provider outside the four, posts nothing. *)
Theorem completion_posts_once_to_its_provider this messages options (w : W) :
  let sent :=
    (generateCompletion (recording_post axios_post) plus this messages options (w, [])).2.2 in
  (length sent ≤ 1)%nat ∧
  ∀ request, request ∈ sent →
    let url := request.1.1 in
    is_string (provider this) "ollama" = true ∧
      (∃ base, ToString (own (config this) "ollamaBaseUrl") = Returned base ∧
               url = VStr (base +:+ "/api/chat")) ∧
      own request.1.2 "messages" = messages ∨
    is_string (provider this) "openai" = true ∧
      url = VStr "https://api.openai.com/v1/chat/completions" ∧
      own request.1.2 "messages" = messages ∨
    is_string (provider this) "claude" = true ∧
      url = VStr "https://api.anthropic.com/v1/messages" ∨
    is_string (provider this) "gemini" = true ∧
      ∃ key, ToString (own (config this) "geminiApiKey") = Returned key ∧
             url = VStr ("https://generativelanguage.googleapis.com/v1beta/models/"
                         +:+ "gemini-2.5-flash-lite:generateContent?key=" +:+ key).
Proof.
  cbv zeta. apply once_read. unfold generateCompletion. cbv zeta.
  apply once_lift_bind. intros shown _.
  destruct (is_string (provider this) "ollama") eqn:Hollama.
  { unfold generateOllama. cbv zeta.
    apply once_lift_bind. intros base Hbase.
    apply once_lift_bind. intros text Htext.
    apply once_lift_bind. intros temperature _.
    apply once_request. intros url headers [= <- <-]. left.
    split; [done|]. split; [|by own_object].
    exists text. split; [|done].
    destruct (config this); unfold get in Hbase;
      first [discriminate Hbase | by injection Hbase as <-]. }
  destruct (is_string (provider this) "openai") eqn:Hopenai.
  { unfold generateOpenAI. cbv zeta.
    apply once_lift_bind. intros model _.
    apply once_lift_bind. intros temperature _.
    apply once_request. intros url headers Htarget. right. left.
    split; [done|]. split; [|by own_object].
    destruct (ToString _); [|done]. by injection Htarget as <- _. }
  destruct (is_string (provider this) "claude") eqn:Hclaude.
  { unfold generateClaude.
    apply once_lift_bind. intros payload _.
    apply once_request. intros url headers [= <- <-]. right. right. left. done. }
  destruct (is_string (provider this) "gemini") eqn:Hgemini.
  { unfold generateGemini.
    apply once_lift_bind. intros payload _.
    apply once_request. intros url headers Htarget. right. right. right.
    split; [done|]. destruct (ToString _) as [key|]; [|done].
    exists key. split; [done|]. by injection Htarget as <- _. }
  apply once_lift.
Qed.

End Endpoints.

Section Runs.

#[local] Existing Instance Json.engine.

Lemma createLLMProvider_checks_the_key_witness :
  createLLMProvider ∅ (object [("LLM_PROVIDER", VStr "openai")])
  = Threw (Error "OPENAI_API_KEY is required for OpenAI provider").
Proof.
  assert (object [("LLM_PROVIDER", VStr "openai")] ≠ VNull) as Hparams by discriminate.
  destruct (createLLMProvider_checks_the_key ∅ (object [("LLM_PROVIDER", VStr "openai")])
              Hparams) as (_ & Hopenai & _).
  exact (Hopenai eq_refl).
Defined.

End Runs.
End LLMProviderFacts.

Module ConversationFacts.
Import JS MagentoGraphQL Orchestrator LLMProvider Agent Conversation LLMProviderFacts.

Section Messages.
Context `{Engine}.
Implicit Types (m : ChatMessage) (ms : list ChatMessage).

Lemma role_of_message m : get (message_value m) "role" = Returned (VStr (role m)).
Proof. unfold message_value, get, object. by own_object. Qed.

Lemma content_of_message m : own (message_value m) "content" = VStr (content m).
Proof. unfold message_value. by own_object. Qed.

Lemma speaker_of_message m assistant :
  speaker (VStr (role m)) assistant
  = VStr (if String.eqb (role m) "assistant" then assistant else "user").
Proof. unfold speaker, is_string. by destruct (String.eqb (role m) "assistant"). Qed.

Lemma claude_messages_fold ms systemMessage claudeMessages :
  claude_messages (message_value <$> ms) systemMessage claudeMessages
  = Returned (match last (List.filter is_system ms) with
              | Some m => VStr (content m)
              | None => systemMessage
              end,
              (claudeMessages ++ (claude_turn <$> turns ms))%list).
Proof.
  revert systemMessage claudeMessages.
  induction ms as [|m ms IH]; intros systemMessage claudeMessages.
  - by rewrite app_nil_r.
  - rewrite fmap_cons. cbn [claude_messages]. rewrite role_of_message.
    unfold mbind, outcome_bind.
    change (is_string (VStr (role m)) "system") with (is_system m).
    unfold turns. cbn [List.filter].
    destruct (is_system m) eqn:Hrole; cbn [negb].
    + rewrite IH, content_of_message. fold (turns ms). f_equal. f_equal.
      destruct (List.filter is_system ms) as [|m' sys]; [done|].
      rewrite last_cons_cons. destruct (last (m' :: sys)) eqn:Hlast; [done|].
      by apply last_None in Hlast.
    + rewrite IH, content_of_message, speaker_of_message. fold (turns ms).
      rewrite fmap_cons, <- app_assoc. reflexivity.
Qed.

Lemma gemini_contents_fold ms geminiContents :
  geminiContents ≠ [] →
  gemini_contents (message_value <$> ms) geminiContents
  = Returned (geminiContents ++ (gemini_turn <$> turns ms))%list.
Proof.
  revert geminiContents. induction ms as [|m ms IH]; intros geminiContents Hsome.
  - by rewrite app_nil_r.
  - rewrite fmap_cons. cbn [gemini_contents]. rewrite role_of_message.
    unfold mbind at 1, outcome_bind at 1.
    change (is_string (VStr (role m)) "system") with (is_system m).
    unfold turns. cbn [List.filter].
    destruct (is_system m) eqn:Hrole; cbn [negb].
    + destruct geminiContents as [|first rest]; [done|]. by apply IH.
    + rewrite IH by (by destruct geminiContents).
      rewrite content_of_message, speaker_of_message. fold (turns ms).
      rewrite fmap_cons, <- app_assoc. reflexivity.
Qed.

(** X24.  Of the system messages of a conversation, [generateGemini] sends only
    one that comes first, as a turn of the user with two line feeds after
    its text; every system message after the first message is dropped.  The
    other messages are sent in order, those of the assistant under the role
    [model], the others under [user]. *)
Theorem gemini_keeps_only_a_leading_system_message ms options :
  options ≠ VNull →
  ∃ payload,
    gemini_payload (VArr (message_value <$> ms)) options = Returned payload ∧
    own payload "contents" =
      VArr (match ms with
            | m :: _ => if is_system m then [gemini_system m] else []
            | [] => []
            end ++ (gemini_turn <$> turns ms))%list.
Proof.
  intros Hoptions. unfold gemini_payload. cbv zeta. simpl iterate.
  unfold mbind at 1, outcome_bind at 1.
  assert (gemini_contents (message_value <$> ms) [] =
          Returned (match ms with
                    | m :: _ => if is_system m then [gemini_system m] else []
                    | [] => []
                    end ++ (gemini_turn <$> turns ms))%list) as ->.
  { destruct ms as [|m ms]; [done|].
    rewrite fmap_cons. cbn [gemini_contents]. rewrite role_of_message.
    unfold mbind at 1, outcome_bind at 1.
    change (is_string (VStr (role m)) "system") with (is_system m).
    unfold turns. cbn [List.filter].
    destruct (is_system m) eqn:Hrole; cbn [negb].
    - rewrite content_of_message. cbn [ToString]. unfold mbind at 1, outcome_bind at 1.
      by rewrite gemini_contents_fold.
    - rewrite gemini_contents_fold by done.
      rewrite content_of_message, speaker_of_message. reflexivity. }
  unfold mbind at 1, outcome_bind at 1.
  assert (get (given_options options) "temperature"
          = Returned (own (given_options options) "temperature")) as ->
    by (by destruct options).
  unfold mbind, outcome_bind. eexists. split; [reflexivity|]. by own_object.
Qed.

(** X25.  [generateClaude] sends the messages that are not system messages, in
    order, those of the assistant under [assistant] and the others under
    [user]; as [system] it sends the text of the last system message, and no
    [system] at all when there is none or its text is empty. *)
Theorem claude_takes_the_last_system_message this ms options :
  options ≠ VNull →
  match config this with VUndefined | VNull => False | _ => True end →
  ∃ payload,
    claude_payload this (VArr (message_value <$> ms)) options = Returned (VObj payload) ∧
    payload !! "messages" = Some (VArr (claude_turn <$> turns ms)) ∧
    payload !! "system" =
      match last (List.filter is_system ms) with
      | Some m => if String.eqb (content m) "" then None else Some (VStr (content m))
      | None => None
      end.
Proof.
  intros Hoptions Hconfig. unfold claude_payload. cbv zeta. simpl iterate.
  unfold mbind at 1, outcome_bind at 1. rewrite claude_messages_fold.
  unfold mbind at 1, outcome_bind at 1.
  assert (get (config this) "claudeModel" = Returned (own (config this) "claudeModel")) as ->
    by (by destruct (config this)).
  assert (get (given_options options) "maxTokens"
          = Returned (own (given_options options) "maxTokens")) as ->
    by (by destruct options).
  unfold mbind, outcome_bind. cbn [fst snd]. rewrite app_nil_l.
  eexists. split; [reflexivity|].
  destruct (last (List.filter is_system ms)) as [m|]; simpl truthy.
  - destruct (String.eqb (content m) ""); cbn [negb].
    + split; reflexivity.
    + split; [by rewrite lookup_insert_ne|by rewrite lookup_insert_eq].
  - split; reflexivity.
Qed.

End Messages.

Section Runs.
Import Shop.

#[local] Existing Instance Json.engine.

Lemma gemini_keeps_only_a_leading_system_message_witness :
  ∃ payload,
    gemini_payload (VArr (message_value <$> briefing)) VUndefined = Returned payload ∧
    own payload "contents" =
      VArr [gemini_system {| role := "system"; content := "You sell shirts." |};
            gemini_turn {| role := "user"; content := "hello" |};
            gemini_turn {| role := "assistant"; content := "Hello! How can I help?" |}].
Proof.
  exact (gemini_keeps_only_a_leading_system_message briefing VUndefined
           ltac:(discriminate)).
Defined.

Lemma claude_takes_the_last_system_message_witness :
  ∃ payload,
    claude_payload {| provider := VStr "claude";
                      config := object [("claudeApiKey", VStr "key-1")] |}
      (VArr (message_value <$> briefing)) VUndefined = Returned (VObj payload) ∧
    payload !! "messages" =
      Some (VArr [claude_turn {| role := "user"; content := "hello" |};
                  claude_turn {| role := "assistant";
                                 content := "Hello! How can I help?" |}]) ∧
    payload !! "system" = Some (VStr "Answer in one line.").
Proof.
  exact (claude_takes_the_last_system_message
           {| provider := VStr "claude"; config := object [("claudeApiKey", VStr "key-1")] |}
           briefing VUndefined ltac:(discriminate) I).
Defined.

End Runs.
End ConversationFacts.

Module AgentFacts.
Import JS Magento Orchestrator Agent ToolReportFacts DispatchFacts.

Section Agent.
Context `{Engine} {W : Type}.
Variable JSON_stringify : value → value.
Variable llmProvider_generateCompletion : value → value → task W value.
Variable toolAdapter_executeTool : value → value → Context → task W value.

#[local] Abbreviation processMessage :=
  (processMessage JSON_stringify llmProvider_generateCompletion toolAdapter_executeTool).
#[local] Abbreviation analyzeIntent :=
  (analyzeIntent (generateCompletion llmProvider_generateCompletion)).

Lemma map_get k (l l' : list value) :
  map_outcome (λ r, get r k) l = Returned l' → l' = (λ r, own r k) <$> l.
Proof.
  revert l'. induction l as [|r l IH]; intros l'.
  - cbn [map_outcome]. intros [= <-]. reflexivity.
  - cbn [map_outcome]. intros (v & Hv & Hrest)%outcome_bind_inv.
    apply outcome_bind_inv in Hrest as (vs & Hvs & [= <-]).
    rewrite fmap_cons, <- (IH vs Hvs). f_equal.
    destruct r; unfold get in Hv; first [discriminate Hv | injection Hv as <-; reflexivity].
Qed.

(** X26.  What [processMessage] returns carries the [type] of the intent as
    [intent].  When [requiresTools] is falsy, [toolsUsed] is empty; when it
    is truthy and [suggestedTools] is an array of names, [toolsUsed] is that
    array, whether or not the tools succeeded. *)
Theorem toolsUsed_lists_the_suggested_tools userMessage conversationHistory context w
    intent w1 result w' :
  analyzeIntent userMessage conversationHistory w = (Returned intent, w1) →
  processMessage userMessage conversationHistory context w = (Returned result, w') →
  own result "intent" = own intent "type" ∧
  (truthy (own intent "requiresTools") = false → own result "toolsUsed" = VArr []) ∧
  (∀ names : list string,
     truthy (own intent "requiresTools") = true →
     own intent "suggestedTools" = VArr (VStr <$> names) →
     own result "toolsUsed" = VArr (VStr <$> names)).
Proof.
  intros Hintent Hrun. unfold Agent.processMessage in Hrun.
  apply task_bind_inv in Hrun as (intent' & w1' & Hintent' & Hrun).
  rewrite Hintent in Hintent'. injection Hintent' as <- <-.
  apply task_bind_inv in Hrun as (type & w2 & [Htype ->]%lift_inv & Hrun).
  apply task_bind_inv in Hrun as (shown & w3 & [Hshown ->]%lift_inv & Hrun).
  apply task_bind_inv in Hrun as ([response toolsUsed] & w4 & Hrespond & Hrun).
  apply task_bind_inv in Hrun as (content & w5 & [Hcontent ->]%lift_inv & Hrun).
  injection Hrun as <- <-. split; [reflexivity|].
  unfold respond in Hrespond. split.
  - intros Hfalse. rewrite Hfalse in Hrespond.
    apply task_bind_inv in Hrespond as (r & w5 & _ & Hrespond).
    by injection Hrespond as <- <- <-.
  - intros names Htrue Hnames. rewrite Htrue in Hrespond.
    apply task_bind_inv in Hrespond as (toolResults & w5 & Htools & Hrespond).
    apply task_bind_inv in Hrespond as (used & w6 & [Hused ->]%lift_inv & Hrespond).
    apply task_bind_inv in Hrespond as (r & w7 & _ & Hrespond).
    injection Hrespond as <- <- <-. simpl.
    unfold executeTools, lift, mbind, task_bind in Htools.
    assert (get intent "suggestedTools" = Returned (VArr (VStr <$> names))) as Hget.
    { rewrite <- Hnames. clear - Htype. by destruct intent. }
    rewrite Hget in Htools. simpl iterate in Htools. cbv iota beta in Htools.
    destruct (run_tools_names toolAdapter_executeTool names intent context [] w1)
      as (entries & w8 & Hentries & Hentry).
    rewrite Hentries in Htools. injection Htools as <- <-.
    apply map_get in Hused as ->. simpl. by rewrite Hentry.
Qed.

End Agent.

Section Runs.
Import Doubles Shop.

#[local] Existing Instance Json.engine.

Lemma toolsUsed_lists_the_suggested_tools_witness :
  ∃ result,
    processMessage JSON_stringify planning_model registry "a red shirt, please" [] no_cart tt
      = (Returned result, tt) ∧
    own result "toolsUsed" = VArr [VStr "create_cart"; VStr "add_to_cart"].
Proof.
  eexists. split; [vm_compute; reflexivity|].
  match goal with
  | |- own ?result _ = _ =>
      assert (∃ intent,
                analyzeIntent (generateCompletion planning_model) "a red shirt, please" [] tt
                = (Returned intent, tt) ∧
                truthy (own intent "requiresTools") = true ∧
                own intent "suggestedTools" = VArr (VStr <$> ["create_cart"; "add_to_cart"]))
        as (intent & Hintent & Htrue & Hnames)
        by (eexists; repeat split; vm_compute; reflexivity);
      assert (processMessage JSON_stringify planning_model registry "a red shirt, please" []
                no_cart tt = (Returned result, tt)) as Hrun by (vm_compute; reflexivity);
      exact (proj2 (proj2 (toolsUsed_lists_the_suggested_tools JSON_stringify planning_model
                             registry "a red shirt, please" [] no_cart tt intent tt result tt
                             Hintent Hrun))
               ["create_cart"; "add_to_cart"] Htrue Hnames)
  end.
Defined.

End Runs.
End AgentFacts.

Module ChatFacts.
Import JS Magento SessionManager SessionManagerFacts SessionViews SessionStoreFacts
  ToolReportFacts Chat.

Section Worlds.
Context {W A : Type}.

Lemma on_store_eq (m : task State A) st (w : W) :
  on_store m (st, w) = ((m st).1, ((m st).2, w)).
Proof. unfold on_store. by destruct (m st). Qed.

Lemma on_world_eq (m : task W A) (st : State) w :
  on_world m (st, w) = ((m w).1, (st, (m w).2)).
Proof. unfold on_world. by destruct (m w). Qed.

End Worlds.

Section Histories.
Context {A : Type}.

Lemma push_bounded_twice (h : list A) a b :
  ∃ older, push_bounded (push_bounded h a) b = (older ++ [a; b])%list.
Proof.
  rewrite (push_bounded_drop h a), drop_app_le by lia.
  rewrite push_bounded_drop, drop_app_le by (rewrite length_app; simpl; lia).
  rewrite drop_app_le by (rewrite length_app; simpl; lia).
  rewrite <- app_assoc. by eexists.
Qed.

End Histories.

Section Action.
Context `{Engine} {W : Type}.
Variable env : gmap string string.
Variable clock : nat → Instant.
Variable uuidv4 : nat → string.
Variable Date_parse : string → option Z.
Variable JSON_stringify : value → value.
Variable cannot_find_module : string → string.
Variable stack : exn → value.
Variable axios_post : value → value → value → W → (MagentoGraphQL.AxiosError + value) * W.
Variable plus : value → value → outcome value.
Variable source : document → string.

Hypothesis uuidv4_inj : ∀ i j, uuidv4 i = uuidv4 j → i = j.

#[local] Abbreviation main :=
  (main env clock uuidv4 JSON_stringify cannot_find_module stack axios_post plus source).
#[local] Abbreviation turn :=
  (turn env clock uuidv4 JSON_stringify cannot_find_module axios_post plus source).
#[local] Abbreviation reachable := (reachable clock uuidv4 Date_parse).
#[local] Abbreviation invariant := (invariant uuidv4).
#[local] Abbreviation getOrCreateSession := (getOrCreateSession clock uuidv4).
#[local] Abbreviation addMessage := (addMessage clock).

(** The histories of [st] are those of [st']. *)
#[local] Abbreviation histories_kept st st' :=
  (∀ id session, sessions st !! id = Some session →
     ∃ session', sessions st' !! id = Some session' ∧
                 conversationHistory session' = conversationHistory session).

Lemma session_found st sid token cart :
  invariant st →
  ∃ session st1,
    getOrCreateSession (request sid token cart) st = (Returned session, st1) ∧
    sessions st1 !! sessionId session = Some session ∧
    invariant st1 ∧
    histories_kept st st1.
Proof.
  intros Hinv.
  assert (invariant (after clock uuidv4 Date_parse
                       (GetOrCreateSession (request sid token cart)) st)) as Hinv1.
  { by apply invariant_after. }
  unfold after in Hinv1.
  destruct (resolve st sid) as [found|] eqn:Hresolve.
  - destruct (getOrCreateSession_existing clock uuidv4 Date_parse
                st sid token cart found Hinv Hresolve)
      as (session & st1 & Hrun & Hin & Hother & Hid & _ & Hhistory & _).
    rewrite Hrun in Hinv1. exists session, st1. rewrite Hid.
    split; [done|]. split; [done|]. split; [done|].
    intros id s Hs. destruct (decide (id = sessionId found)) as [->|Hne].
    + destruct (resolve_Some _ _ _ Hresolve) as (id' & -> & Hid').
      destruct (Hinv _ _ Hid') as [Hkey _ _ _]. rewrite Hkey in Hs.
      exists session. split; [done|]. rewrite Hhistory. congruence.
    + exists s. by rewrite Hother.
  - destruct (getOrCreateSession_new clock uuidv4 uuidv4_inj st sid token cart Hinv Hresolve)
      as (session & st1 & Hrun & Hfree & Hin & Hother & _).
    rewrite Hrun in Hinv1. exists session, st1.
    split; [done|]. split; [done|]. split; [done|].
    intros id s Hs. exists s. rewrite Hother; [done|]. congruence.
Qed.

Lemma addMessage_live st id role content metadata session :
  invariant st → sessions st !! id = Some session →
  ∃ message st' session',
    addMessage id role content metadata st = (Returned message, st') ∧
    sessions st' !! id = Some session' ∧
    conversationHistory session' = push_bounded (conversationHistory session) message ∧
    own message "role" = default role (spread metadata !! "role") ∧
    own message "content" = default content (spread metadata !! "content") ∧
    (∀ id', id' ≠ id → sessions st' !! id' = sessions st !! id') ∧
    invariant st'.
Proof.
  intros Hinv Hid.
  assert (invariant (after clock uuidv4 Date_parse
                       (AddMessage id role content metadata) st)) as Hinv'.
  { by apply invariant_after. }
  unfold after in Hinv'. destruct (Hinv _ _ Hid) as [Hkey _ _ _].
  rewrite addMessage_eq, Hid, Hkey in Hinv' |- *. cbv zeta in Hinv' |- *.
  eexists _, _, _. split; [reflexivity|]. simpl.
  split; [apply lookup_insert_eq|]. split; [reflexivity|].
  split; [|split; [|split; [|exact Hinv']]].
  - rewrite lookup_union. destruct (spread metadata !! "role"); reflexivity.
  - rewrite lookup_union. destruct (spread metadata !! "content"); reflexivity.
  - intros id' Hne. by apply lookup_insert_ne.
Qed.

(** What a turn that returns has done. *)
Lemma turn_returned params st w answer st' w' :
  invariant st →
  turn params (st, w) = (Returned answer, (st', w')) →
  (truthy (own params "message") = false ∧ answer = bad_request ∧ st' = st ∧ w' = w) ∨
  (∃ result session session' older user assistant,
     answer = ok result session ∧
     sessions st' !! sessionId session = Some session' ∧
     conversationHistory session' = (older ++ [user; assistant])%list ∧
     own user "role" = VStr "user" ∧
     own user "content" = own params "message" ∧
     own assistant "role" = VStr "assistant" ∧
     own assistant "content" = own result "response" ∧
     own assistant "toolsUsed" = own result "toolsUsed" ∧
     truthy (own params "message") = true).
Proof.
  intros Hinv. unfold Chat.turn. cbv zeta. intros Hrun.
  apply task_bind_inv in Hrun as (message & world1 & [Hmessage ->]%lift_inv & Hrun).
  assert (message = own params "message") as ->.
  { destruct params; unfold get in Hmessage;
      first [discriminate Hmessage | by injection Hmessage]. }
  destruct (truthy (own params "message")) eqn:Htruthy; simpl in Hrun.
  - right.
    apply task_bind_inv in Hrun as ([] & world1 & [Hsub ->]%lift_inv & Hrun).
    apply task_bind_inv in Hrun as (session & [st1 w1] & Hsession & Hrun).
    fold (request (own params "sessionId") (own params "customerToken")
            (own params "cartId")) in Hsession.
    rewrite on_store_eq in Hsession.
    destruct (session_found st (own params "sessionId") (own params "customerToken")
                (own params "cartId") Hinv)
      as (session0 & st0 & Hfound & Hin1 & Hinv1 & _).
    rewrite Hfound in Hsession. injection Hsession as <- <- <-.
    apply task_bind_inv in Hrun as (history & [st2 w2] & Hhistory & Hrun).
    rewrite on_store_eq, getHistory_eq in Hhistory. injection Hhistory as <- <- <-.
    apply task_bind_inv in Hrun as (agent & world3 & [Hagent ->]%lift_inv & Hrun).
    apply task_bind_inv in Hrun as (result & [st4 w4] & Hresult & Hrun).
    rewrite on_world_eq in Hresult. injection Hresult as Hresult <- Hw4.
    apply task_bind_inv in Hrun as (user & [st5 w5] & Huser & Hrun).
    rewrite on_store_eq in Huser.
    destruct (addMessage_live st0 (sessionId session0) (VStr "user") (own params "message")
                VUndefined session0 Hinv1 Hin1)
      as (user0 & st50 & session5 & Hadd1 & Hin5 & Hhistory5 & Hrole5 & Hcontent5 & _ & Hinv5).
    rewrite Hadd1 in Huser. injection Huser as <- <- <-.
    apply task_bind_inv in Hrun as (assistant & [st6 w6] & Hassistant & Hrun).
    rewrite on_store_eq in Hassistant.
    destruct (addMessage_live st50 (sessionId session0) (VStr "assistant")
                (own result "response")
                (object [("toolsUsed", own result "toolsUsed");
                         ("intent", own result "intent")]) session5 Hinv5 Hin5)
      as (assistant0 & st60 & session6 & Hadd2 & Hin6 & Hhistory6 & Hrole6 & Hcontent6 & _).
    rewrite Hadd2 in Hassistant. injection Hassistant as <- <- <-.
    injection Hrun as <- <- <-.
    destruct (push_bounded_twice (conversationHistory session0) user0 assistant0)
      as [older Holder].
    exists result, session0, session6, older, user0, assistant0.
    split; [done|]. split; [done|].
    split; [by rewrite Hhistory6, Hhistory5|].
    split; [exact Hrole5|]. split; [exact Hcontent5|].
    split; [exact Hrole6|]. split; [exact Hcontent6|]. split; [|done].
    rewrite addMessage_eq, Hin5 in Hadd2. cbv zeta in Hadd2. injection Hadd2 as <- _.
    reflexivity.
  - left. injection Hrun as <- <- <-. done.
Qed.

Lemma task_bind_threw {S A B} (m : task S A) (f : A → task S B) s e s' :
  (m ≫= f) s = (Threw e, s') →
  m s = (Threw e, s') ∨ ∃ a s1, m s = (Returned a, s1) ∧ f a s1 = (Threw e, s').
Proof.
  unfold mbind, task_bind. destruct (m s) as [[a|e'] s1]; intros Hf.
  - right. by exists a, s1.
  - left. by injection Hf as -> ->.
Qed.

(** What a turn that throws has done: it has saved no message. *)
Lemma turn_threw params st w e st' w' :
  invariant st →
  turn params (st, w) = (Threw e, (st', w')) →
  histories_kept st st'.
Proof.
  intros Hinv. unfold Chat.turn. cbv zeta. intros Hrun.
  assert (histories_kept st st) as Hsame.
  { intros id s Hs. exists s. by split. }
  apply task_bind_threw in Hrun as [Hrun|(message & world1 & [Hmessage ->]%lift_inv & Hrun)].
  { unfold lift in Hrun. by injection Hrun as _ <- <-. }
  destruct (truthy message); simpl in Hrun; [|discriminate Hrun].
  apply task_bind_threw in Hrun as [Hrun|([] & world1 & [Hsub ->]%lift_inv & Hrun)].
  { unfold lift in Hrun. by injection Hrun as _ <- <-. }
  fold (request (own params "sessionId") (own params "customerToken")
          (own params "cartId")) in Hrun.
  destruct (session_found st (own params "sessionId") (own params "customerToken")
              (own params "cartId") Hinv)
    as (session & st1 & Hfound & Hin1 & Hinv1 & Hkept1).
  apply task_bind_threw in Hrun as [Hrun|(session0 & [st0 w0] & Hsession & Hrun)].
  { rewrite on_store_eq, Hfound in Hrun. discriminate Hrun. }
  rewrite on_store_eq, Hfound in Hsession. injection Hsession as <- <- <-.
  apply task_bind_threw in Hrun as [Hrun|(history & [st2 w2] & Hhistory & Hrun)].
  { rewrite on_store_eq, getHistory_eq in Hrun. discriminate Hrun. }
  rewrite on_store_eq, getHistory_eq in Hhistory. injection Hhistory as <- <- <-.
  apply task_bind_threw in Hrun as [Hrun|(agent & world3 & [Hagent ->]%lift_inv & Hrun)].
  { unfold lift in Hrun. by injection Hrun as _ <- <-. }
  apply task_bind_threw in Hrun as [Hrun|(result & [st4 w4] & Hresult & Hrun)].
  { rewrite on_world_eq in Hrun. by injection Hrun as _ <- _. }
  rewrite on_world_eq in Hresult. injection Hresult as _ <- _.
  destruct (addMessage_live st1 (sessionId session) (VStr "user") message
              VUndefined session Hinv1 Hin1)
    as (user & st5 & session5 & Hadd1 & Hin5 & _ & _ & _ & _ & Hinv5).
  apply task_bind_threw in Hrun as [Hrun|(user0 & [st50 w5] & Huser & Hrun)].
  { rewrite on_store_eq, Hadd1 in Hrun. discriminate Hrun. }
  rewrite on_store_eq, Hadd1 in Huser. injection Huser as <- <- <-.
  destruct (addMessage_live st5 (sessionId session) (VStr "assistant")
              (own result "response")
              (object [("toolsUsed", own result "toolsUsed");
                       ("intent", own result "intent")]) session5 Hinv5 Hin5)
    as (assistant & st6 & session6 & Hadd2 & _).
  apply task_bind_threw in Hrun as [Hrun|(assistant0 & [st60 w6] & Hassistant & Hrun)].
  { rewrite on_store_eq, Hadd2 in Hrun. discriminate Hrun. }
  discriminate Hrun.
Qed.

Lemma status_of_ok result session :
  own (ok result session) "statusCode" = VNum (num_of_nat 200).
Proof. reflexivity. Qed.

Lemma turn_without_message params world :
  match params with VUndefined | VNull => False | _ => True end →
  truthy (own params "message") = false →
  turn params world = (Returned bad_request, world).
Proof.
  intros Hparams Hfalsy. unfold Chat.turn. cbv zeta.
  unfold mbind, task_bind, lift.
  assert (get params "message" = Returned (own params "message")) as ->
    by (by destruct params).
  by rewrite Hfalsy.
Qed.

(** X27.  A request whose [message] is missing or falsy is answered with status
    400 and the error [Parameter "message" is required]; no session is
    created or touched, and neither the model nor the backend is called. *)
Theorem main_requires_message params world :
  match params with VUndefined | VNull => False | _ => True end →
  truthy (own params "message") = false →
  main params world = (bad_request, world).
Proof.
  intros Hparams Hfalsy. unfold Chat.main.
  by rewrite (turn_without_message _ _ Hparams Hfalsy).
Qed.

(** X28.  [main] never throws.  Its answer has the status 200, 400 or 500 and a
    body whose [success] is true for 200 and false, next to an [error] text,
    for the two others.  The status is 400 exactly when the parameters are
    there and their [message] is missing or falsy; parameters that are
    [undefined] or [null] give 500. *)
Theorem main_always_answers params world :
  ∃ code body world',
    main params world
    = (object [("statusCode", VNum (num_of_nat code)); ("body", body)], world') ∧
    (code = 200%nat ∧ own body "success" = VBool true ∨
     (code = 400%nat ∨ code = 500%nat) ∧ own body "success" = VBool false ∧
     ∃ text, own body "error" = VStr text) ∧
    (code = 400%nat ↔
       match params with VUndefined | VNull => False | _ => True end ∧
       truthy (own params "message") = false).
Proof.
  unfold Chat.main. destruct (turn params world) as [[answer|e] world'] eqn:Hrun.
  - unfold Chat.turn in Hrun. cbv zeta in Hrun.
    apply task_bind_inv in Hrun as (message & world1 & [Hmessage ->]%lift_inv & Hrun).
    assert (match params with VUndefined | VNull => False | _ => True end ∧
            message = own params "message") as [Hparams ->].
    { destruct params; unfold get in Hmessage;
        first [discriminate Hmessage | by injection Hmessage]. }
    destruct (truthy (own params "message")) eqn:Htruthy; simpl in Hrun.
    + repeat (apply task_bind_inv in Hrun as (? & ? & _ & Hrun)).
      injection Hrun as <- <-. eexists 200%nat, _, _. split; [reflexivity|].
      split; [by left|]. split; [done|]. by intros [_ ?].
    + injection Hrun as <- <-. eexists 400%nat, _, _. split; [reflexivity|].
      split; [|done]. right. split; [by left|]. split; [reflexivity|]. by eexists.
  - eexists 500%nat, _, _. split; [reflexivity|]. split.
    + right. split; [by right|]. split; [reflexivity|]. by eexists.
    + split; [done|]. intros [Hparams Hfalsy].
      rewrite (turn_without_message _ _ Hparams Hfalsy) in Hrun. discriminate Hrun.
Qed.

Lemma getOrCreateSession_returns params st :
  ∃ session, (getOrCreateSession params st).1 = Returned session.
Proof.
  rewrite getOrCreateSession_eq.
  destruct (if truthy (params_sessionId params) then _ else None) as [session|].
  - destruct (_ && _); by eexists.
  - by eexists.
Qed.

(** X29.  When the message is a non-empty text and the agent cannot be built (no
    provider key, no backend address, a tool mode whose module is not
    there), [main] answers 500 with the message of that error.  The session
    was found or created before, so the store is as [getOrCreateSession]
    leaves it, with no message saved; the model and the backend are not
    called. *)
Theorem main_fails_before_the_turn params text st w e :
  own params "message" = VStr text → text ≠ "" →
  new_agent env cannot_find_module (agent_config env params) = Threw e →
  main params (st, w)
  = (failed env stack e,
     ((getOrCreateSession
         (request (own params "sessionId") (own params "customerToken")
            (own params "cartId")) st).2, w)).
Proof.
  intros Hmessage Htext Hagent. unfold Chat.main, Chat.turn. cbv zeta.
  assert (get params "message" = Returned (VStr text)) as Hget.
  { rewrite <- Hmessage. destruct params; try done. }
  assert (truthy (VStr text) = true) as Htruthy.
  { simpl. by apply negb_true_iff, String.eqb_neq. }
  unfold mbind, task_bind, lift. rewrite Hget, Htruthy. cbn [negb String_substring].
  fold (request (own params "sessionId") (own params "customerToken")
          (own params "cartId")).
  rewrite on_store_eq.
  destruct (getOrCreateSession_returns
              (request (own params "sessionId") (own params "customerToken")
                 (own params "cartId")) st) as [session ->].
  rewrite on_store_eq, getHistory_eq. cbn [fst snd]. by rewrite Hagent.
Qed.

(** X30.  From a store the calls of the manager reach: when [main] answers 200,
    the session named in the body is in the store and its history ends with
    the message of the user and then the reply of the assistant, with the
    [response] and the [toolsUsed] of the body; when it answers 400 or 500,
    every session the store held is still there with its history
    unchanged. *)
Theorem main_saves_the_turn_on_success_only params st w answer st' w' :
  reachable st →
  main params (st, w) = (answer, (st', w')) →
  let body := own answer "body" in
  if strict_eq_number (own answer "statusCode") (num_of_nat 200) then
    ∃ id session' older user assistant,
      own body "sessionId" = VStr id ∧
      sessions st' !! id = Some session' ∧
      conversationHistory session' = (older ++ [user; assistant])%list ∧
      own user "role" = VStr "user" ∧
      own user "content" = own params "message" ∧
      own assistant "role" = VStr "assistant" ∧
      own assistant "content" = own body "response" ∧
      own assistant "toolsUsed" = own body "toolsUsed"
  else histories_kept st st'.
Proof.
  intros Hinv%reachable_invariant. unfold Chat.main.
  destruct (turn params (st, w)) as [[answer0|e] [st0 w0]] eqn:Hrun;
    intros [= <- <- <-]; cbv zeta.
  - destruct (turn_returned _ _ _ _ _ _ Hinv Hrun)
      as [(_ & -> & -> & ->)|(result & session & session' & older & user & assistant &
                              -> & Hin & Hhistory & Hfacts)].
    + change (strict_eq_number (own bad_request "statusCode") (num_of_nat 200)) with false.
      cbv iota. intros id s Hs. exists s. by split.
    + change (strict_eq_number (own (ok result session) "statusCode") (num_of_nat 200))
        with true. cbv iota.
      exists (sessionId session), session', older, user, assistant.
      split; [reflexivity|]. split; [exact Hin|]. split; [exact Hhistory|].
      destruct Hfacts as (? & ? & ? & ? & ? & _). by repeat split.
  - change (strict_eq_number (own (failed env stack e) "statusCode") (num_of_nat 200))
      with false. cbv iota. by eapply turn_threw.
Qed.

End Action.

Section Runs.
Import Doubles Shop.

#[local] Existing Instance Json.engine.

Lemma main_requires_message_witness :
  chat (object [("sessionId", VStr "session-"); ("message", VStr "")]) (one_guest, tt)
  = (bad_request, (one_guest, tt)).
Proof.
  apply (main_requires_message shop_env clock uuidv4 JSON_stringify cannot_find_module stack
           shop_server plus documents).
  - exact I.
  - reflexivity.
Defined.

Lemma main_fails_before_the_turn_witness :
  let params := object [("message", VStr "hello"); ("TOOL_MODE", VStr "adobe-mcp")] in
  chat params (initial, tt)
  = (object [("statusCode", VNum (num_of_nat 500));
             ("body", object [
                ("success", VBool false);
                ("error", VStr "Cannot find module './adobe-mcp/client'");
                ("stack", VUndefined)])],
     (one_guest, tt)).
Proof.
  apply (main_fails_before_the_turn shop_env clock uuidv4 JSON_stringify cannot_find_module
           stack shop_server plus documents
           (object [("message", VStr "hello"); ("TOOL_MODE", VStr "adobe-mcp")])
           "hello" initial tt (Error "Cannot find module './adobe-mcp/client'")).
  - reflexivity.
  - discriminate.
  - vm_compute. reflexivity.
Defined.

Lemma main_saves_the_turn_on_success_only_witness :
  let run := chat (object [("sessionId", VStr "session-"); ("message", VStr "hello")])
               (one_guest, tt) in
  own run.1 "statusCode" = VNum (num_of_nat 200) ∧
  ∃ id session' older user assistant,
    own (own run.1 "body") "sessionId" = VStr id ∧
    sessions run.2.1 !! id = Some session' ∧
    conversationHistory session' = (older ++ [user; assistant])%list ∧
    own user "role" = VStr "user" ∧
    own user "content" = VStr "hello" ∧
    own assistant "role" = VStr "assistant" ∧
    own assistant "content" = own (own run.1 "body") "response" ∧
    own assistant "toolsUsed" = own (own run.1 "body") "toolsUsed".
Proof.
  intros run. split; [vm_compute; reflexivity|].
  assert (strict_eq_number (own run.1 "statusCode") (num_of_nat 200) = true) as Hok
    by (vm_compute; reflexivity).
  pose proof (main_saves_the_turn_on_success_only shop_env clock uuidv4 Date_parse
                JSON_stringify cannot_find_module stack shop_server plus documents
                identifiers_distinct
                (object [("sessionId", VStr "session-"); ("message", VStr "hello")])
                one_guest tt run.1 run.2.1 run.2.2 reachable_one_guest) as Hsaved.
  cbv zeta in Hsaved. rewrite Hok in Hsaved. apply Hsaved.
  vm_compute. reflexivity.
Defined.

End Runs.
End ChatFacts.
